(** * The restaurant catalogue (Menu -> SubMenu -> Dish): a shallow embedding

    The development follows the layout of the repository:
    - [pyint], [uuid] : the part of Python's [int] and [uuid.UUID] that
                    [crud.is_valid_uuid] runs;
    - [decimal]   : prices, the NUMERIC(10, 2) column and the text of a price;
    - [models]    : the three tables of [menu/models.py];
    - [schemas]   : the request payloads and response projections of [menu/schemas.py];
    - [storage]   : the statements of a commit under the constraints of the tables;
    - [crud]      : the functions of [menu/crud.py], in a state and exception monad;
    - [routers]   : the handlers of [menu/routers.py];
    - [scenario]  : the requests of the tests, as data.

    A Python [str] is a [string]: a sequence of characters with code points
    below 256. Integers are [Z]. *)

From Stdlib Require Import ZArith List String Ascii Bool Lia Permutation.
Import ListNotations.

Local Open Scope Z_scope.

(** ** Characters and lists of characters *)

Definition chars := list ascii.

Definition code (c : ascii) : Z := Z.of_N (N_of_ascii c).

Definition in_range (lo hi : ascii) (c : ascii) : bool :=
  (code lo <=? code c) && (code c <=? code hi).

Fixpoint starts_with (p s : chars) : bool :=
  match p, s with
  | [], _ => true
  | a :: p', b :: s' => Ascii.eqb a b && starts_with p' s'
  | _ :: _, [] => false
  end.

Definition chars_eqb (a b : chars) : bool :=
  String.eqb (string_of_list_ascii a) (string_of_list_ascii b).

(** [str.replace(old, new)] for a non-empty [old]: the occurrences are taken
    from the left and do not overlap. [skip] counts the characters of an
    occurrence still to be dropped. *)
Fixpoint replace_from (old new : chars) (skip : nat) (s : chars) : chars :=
  match s with
  | [] => []
  | c :: t =>
      match skip with
      | S k => replace_from old new k t
      | O => if starts_with old s
             then new ++ replace_from old new (Nat.pred (List.length old)) t
             else c :: replace_from old new O t
      end
  end.

Definition replace (old new s : chars) : chars := replace_from old new O s.

(** [str.strip(set)] *)
Fixpoint lstrip (set : chars) (s : chars) : chars :=
  match s with
  | [] => []
  | c :: t => if existsb (Ascii.eqb c) set then lstrip set t else s
  end.

Definition rstrip (set s : chars) : chars := rev (lstrip set (rev s)).

Definition strip (set s : chars) : chars := rstrip set (lstrip set s).

(** ** Python's [int(text, 16)] *)

Module pyint.

(** The digit value table of the integer parser: 37 marks a character that
    is no digit in any base. *)
Definition digit_value (c : ascii) : Z :=
  if in_range "0" "9" c then code c - code "0"
  else if in_range "a" "z" c then code c - code "a" + 10
  else if in_range "A" "Z" c then code c - code "A" + 10
  else 37.

(** White space of the C locale. *)
Definition is_space (c : ascii) : bool :=
  in_range "009" "013" c || Ascii.eqb c " ".

(** Before parsing, white space outside ASCII becomes a blank and any other
    character from 127 on becomes a question mark. Below 256 there is no
    decimal digit outside ASCII, and the white space is NEL and NBSP. *)
Definition to_ascii_digits_and_space (c : ascii) : ascii :=
  if code c <? 127 then c
  else if Ascii.eqb c "133" || Ascii.eqb c "160" then " "%char
  else "?"%char.

Fixpoint skip_spaces (s : chars) : chars :=
  match s with
  | c :: t => if is_space c then skip_spaces t else s
  | [] => []
  end.

(** The digit loop: digits below the base and single underscores between
    them. [prev_us] says that the previous character was an underscore.
    The result is the value, the number of digits and what is left. *)
Fixpoint scan_digits (base : Z) (prev_us : bool) (acc : Z) (n : nat) (s : chars)
  : option (Z * nat * chars) :=
  match s with
  | c :: t =>
      if Ascii.eqb c "_" then
        if prev_us then None else scan_digits base true acc n t
      else if digit_value c <? base then
        scan_digits base false (acc * base + digit_value c) (S n) t
      else if prev_us then None else Some (acc, n, s)
  | [] => if prev_us then None else Some (acc, n, [])
  end.

Definition skip_sign (s : chars) : Z * chars :=
  match s with
  | c :: t =>
      if Ascii.eqb c "+" then (1, t)
      else if Ascii.eqb c "-" then (-1, t)
      else (1, s)
  | [] => (1, [])
  end.

(** The prefix [0x] or [0X], and one underscore after it. *)
Definition skip_prefix16 (s : chars) : chars :=
  match s with
  | c :: x :: t =>
      if Ascii.eqb c "0" && (Ascii.eqb x "x" || Ascii.eqb x "X") then
        match t with
        | u :: t' => if Ascii.eqb u "_" then t' else t
        | [] => t
        end
      else s
  | _ => s
  end.

Definition starts_with_underscore (s : chars) : bool :=
  match s with
  | c :: _ => Ascii.eqb c "_"
  | [] => false
  end.

(** [int(text, 16)]: [None] is [ValueError]. *)
Definition int16 (text : chars) : option Z :=
  let s := skip_spaces (map to_ascii_digits_and_space text) in
  let '(sign, s) := skip_sign s in
  let s := skip_prefix16 s in
  if starts_with_underscore s then None
  else
    match scan_digits 16 false 0 O s with
    | Some (v, n, rest) =>
        match n with
        | O => None
        | S _ =>
            match skip_spaces rest with
            | [] => Some (sign * v)
            | _ :: _ => None
            end
        end
    | None => None
    end.

End pyint.

(** ** [uuid.UUID(hex, version=...)] and [str(uuid)] *)

Module uuid.

Definition hexchar (d : Z) : ascii :=
  if d <? 10 then ascii_of_N (Z.to_N (code "0" + d))
  else ascii_of_N (Z.to_N (code "a" + (d - 10))).

(** ['%0<w>x' % n] for [0 <= n < 16 ^ w]: [w] lower-case hexadecimal digits. *)
Fixpoint hexpad (w : nat) (n : Z) (acc : chars) : chars :=
  match w with
  | O => acc
  | S w' => hexpad w' (n / 16) (hexchar (n mod 16) :: acc)
  end.

Definition hex32 (n : Z) : chars := hexpad 32 n [].

(** The constructor, from a [hex] text: [None] is [ValueError], the result
    is the field [int] of the object. *)
Definition UUID (hex : chars) (version : Z) : option Z :=
  let hex := replace ["u";"u";"i";"d";":"]%char []
               (replace ["u";"r";"n";":"]%char [] hex) in
  let hex := replace ["-"%char] [] (strip ["{";"}"]%char hex) in
  if negb (Nat.eqb (List.length hex) 32) then None
  else
    match pyint.int16 hex with
    | None => None
    | Some int =>
        if negb ((0 <=? int) && (int <? Z.shiftl 1 128)) then None
        else if negb ((1 <=? version) && (version <=? 5)) then None
        else
          (* Set the variant to RFC 4122. *)
          let int := Z.land int (Z.lnot (Z.shiftl 0xc000 48)) in
          let int := Z.lor int (Z.shiftl 0x8000 48) in
          (* Set the version number. *)
          let int := Z.land int (Z.lnot (Z.shiftl 0xf000 64)) in
          let int := Z.lor int (Z.shiftl version 76) in
          Some int
    end.

(** [str(uuid)]: the 32 digits in groups of 8, 4, 4, 4 and 12. *)
Definition str (int : Z) : chars :=
  let hex := hex32 int in
  firstn 8 hex ++ "-"%char :: firstn 4 (skipn 8 hex) ++ "-"%char ::
  firstn 4 (skipn 12 hex) ++ "-"%char :: firstn 4 (skipn 16 hex) ++ "-"%char ::
  skipn 20 hex.

End uuid.

(** [crud.is_valid_uuid], on the characters of the text. *)
Definition is_valid_uuid_chars (uuid_to_test : chars) (version : Z) : bool :=
  match uuid.UUID uuid_to_test version with
  | None => false
  | Some uuid_obj => chars_eqb (uuid.str uuid_obj) uuid_to_test
  end.

Definition is_valid_uuid (uuid_to_test : string) : bool :=
  is_valid_uuid_chars (list_ascii_of_string uuid_to_test) 4.

(** The canonical text of a version 4 identifier, as RFC 4122 gives it:
    [xxxxxxxx-xxxx-4xxx-yxxx-xxxxxxxxxxxx], every [x] a lower-case
    hexadecimal digit and [y] one of 8, 9, a, b. *)
Inductive uuid_pat := PHex | PDash | PVersion4 | PVariant.

Definition is_lower_hex (c : ascii) : bool :=
  in_range "0" "9" c || in_range "a" "f" c.

Definition pat_ok (p : uuid_pat) (c : ascii) : bool :=
  match p with
  | PHex => is_lower_hex c
  | PDash => Ascii.eqb c "-"
  | PVersion4 => Ascii.eqb c "4"
  | PVariant => Ascii.eqb c "8" || Ascii.eqb c "9" || Ascii.eqb c "a" || Ascii.eqb c "b"
  end.

Fixpoint matches (p : list uuid_pat) (s : chars) : bool :=
  match p, s with
  | [], [] => true
  | q :: p', c :: s' => pat_ok q c && matches p' s'
  | _, _ => false
  end.

Definition uuid4_pattern : list uuid_pat :=
  repeat PHex 8 ++ PDash :: repeat PHex 4 ++ PDash ::
  PVersion4 :: repeat PHex 3 ++ PDash ::
  PVariant :: repeat PHex 3 ++ PDash :: repeat PHex 12.

Definition is_canonical_uuid4 (s : string) : bool :=
  matches uuid4_pattern (list_ascii_of_string s).

(** ** Prices *)

Module decimal.

(** A finite [decimal.Decimal]: [coefficient * 10 ^ exponent], the sign kept
    in the coefficient. *)
Record Decimal := { coefficient : Z; exponent : Z }.

(** Rounding of a NUMERIC to [rscale] fractional digits, as the storage
    engine does it on the digits: the magnitude is cut after [rscale]
    fractional digits and goes up by one when the first digit cut off is 5
    or more. The result is the coefficient at exponent [- rscale]. *)
Definition round_var (d : Decimal) (rscale : Z) : Z :=
  let e := exponent d + rscale in
  if 0 <=? e then coefficient d * 10 ^ e
  else
    let k := - e in
    let m := Z.abs (coefficient d) in
    let q := m / 10 ^ k in
    let next := (m / 10 ^ (k - 1)) mod 10 in
    Z.sgn (coefficient d) * (if 5 <=? next then q + 1 else q).

(** Coercion to NUMERIC(precision, scale): [None] is the numeric field
    overflow. *)
Definition apply_typmod (precision scale : Z) (d : Decimal) : option Decimal :=
  let c := round_var d scale in
  if Z.abs c <? 10 ^ precision then Some {| coefficient := c; exponent := - scale |}
  else None.

Definition digit (d : Z) : ascii := ascii_of_N (Z.to_N (code "0" + d)).

Fixpoint digits_fuel (fuel : nat) (n : Z) (acc : chars) : chars :=
  match fuel with
  | O => acc
  | S fuel' =>
      let acc' := digit (n mod 10) :: acc in
      if n / 10 =? 0 then acc' else digits_fuel fuel' (n / 10) acc'
  end.

(** The decimal digits of a natural number, ['0'] for zero. *)
Definition digits (n : Z) : chars :=
  digits_fuel (S (Z.to_nat (Z.log2 n))) n [].

(** [str(d)] *)
Definition str (d : Decimal) : chars :=
  let sign := if coefficient d <? 0 then ["-"%char] else [] in
  let int := digits (Z.abs (coefficient d)) in
  let len := Z.of_nat (List.length int) in
  let leftdigits := exponent d + len in
  let dotplace :=
    if (exponent d <=? 0) && (-6 <? leftdigits) then leftdigits else 1 in
  let '(intpart, fracpart) :=
    if dotplace <=? 0 then
      (["0"%char], "."%char :: repeat "0"%char (Z.to_nat (- dotplace)) ++ int)
    else if len <=? dotplace then
      (int ++ repeat "0"%char (Z.to_nat (dotplace - len)), [])
    else
      (firstn (Z.to_nat dotplace) int, "."%char :: skipn (Z.to_nat dotplace) int) in
  let exp :=
    if leftdigits =? dotplace then []
    else "E"%char :: (if leftdigits - dotplace <? 0 then "-"%char else "+"%char)
                  :: digits (Z.abs (leftdigits - dotplace)) in
  sign ++ intpart ++ fracpart ++ exp.

(** Rounding half up to hundredths, as arithmetic states it: the magnitude
    times one hundred, plus one half, rounded down, with the sign of the
    number. For [c * 10 ^ e] with [e < -2] and [k = - e - 2] this is
    [(2 |c| + 10 ^ k) / (2 * 10 ^ k)]. *)
Definition half_up_hundredths (d : Decimal) : Z :=
  let e := exponent d + 2 in
  if 0 <=? e then coefficient d * 10 ^ e
  else Z.sgn (coefficient d)
       * ((2 * Z.abs (coefficient d) + 10 ^ (- e)) / (2 * 10 ^ (- e))).

End decimal.

(** ** The tables of [menu/models.py] *)

Module models.

Module Menu.
Record t := { id : string; title : string; description : string }.
End Menu.

Module SubMenu.
Record t := { id : string; title : string; description : string;
              menu_id : string }.
End SubMenu.

Module Dish.
Record t := { id : string; title : string; description : string;
              price : decimal.Decimal; submenu_id : string }.
End Dish.

End models.

Import models.

(** The stored state: the rows of [menus], [submenus] and [dishes], in
    insertion order; the queries have no ORDER BY, so the order of a list
    stands for no order the storage engine keeps. An identifier is kept as
    the canonical text of its value, the text [str] gives; a path
    identifier is compared with it as text, which is the comparison of the
    values for a path identifier that [is_valid_uuid] accepts. Where
    [is_valid_uuid] is not called first, the storage engine refuses a path
    text that is no identifier literal and reads another spelling of an
    identifier as that identifier; here such a text matches no row, and a
    property of those reads and updates bears on the code where the path
    identifiers are ones [is_valid_uuid] accepts. *)
Record Store := {
  menus : list Menu.t;
  submenus : list SubMenu.t;
  dishes : list Dish.t
}.

Definition empty_store : Store := {| menus := []; submenus := []; dishes := [] |}.

(** The mapped attributes a payload can set. *)
Inductive field := f_id | f_title | f_description | f_price.

Inductive value := VStr (s : string) | VDecimal (d : decimal.Decimal).

(** An entry of the dictionary [model_dump] returns. *)
Inductive item :=
| item_id (v : string)
| item_title (v : string)
| item_description (v : string)
| item_price (v : decimal.Decimal).

Definition key (i : item) : field :=
  match i with
  | item_id _ => f_id
  | item_title _ => f_title
  | item_description _ => f_description
  | item_price _ => f_price
  end.

(** [setattr(obj, key, value)] on an object of each mapped class. An
    attribute that is no column of the class leaves the row as it is. *)
Definition setattr_menu (m : Menu.t) (i : item) : Menu.t :=
  match i with
  | item_id v => {| Menu.id := v; Menu.title := Menu.title m;
                    Menu.description := Menu.description m |}
  | item_title v => {| Menu.id := Menu.id m; Menu.title := v;
                       Menu.description := Menu.description m |}
  | item_description v => {| Menu.id := Menu.id m; Menu.title := Menu.title m;
                             Menu.description := v |}
  | item_price _ => m
  end.

Definition setattr_submenu (s : SubMenu.t) (i : item) : SubMenu.t :=
  match i with
  | item_id v => {| SubMenu.id := v; SubMenu.title := SubMenu.title s;
                    SubMenu.description := SubMenu.description s;
                    SubMenu.menu_id := SubMenu.menu_id s |}
  | item_title v => {| SubMenu.id := SubMenu.id s; SubMenu.title := v;
                       SubMenu.description := SubMenu.description s;
                       SubMenu.menu_id := SubMenu.menu_id s |}
  | item_description v => {| SubMenu.id := SubMenu.id s; SubMenu.title := SubMenu.title s;
                             SubMenu.description := v;
                             SubMenu.menu_id := SubMenu.menu_id s |}
  | item_price _ => s
  end.

Definition setattr_dish (d : Dish.t) (i : item) : Dish.t :=
  match i with
  | item_id v => {| Dish.id := v; Dish.title := Dish.title d;
                    Dish.description := Dish.description d;
                    Dish.price := Dish.price d; Dish.submenu_id := Dish.submenu_id d |}
  | item_title v => {| Dish.id := Dish.id d; Dish.title := v;
                       Dish.description := Dish.description d;
                       Dish.price := Dish.price d; Dish.submenu_id := Dish.submenu_id d |}
  | item_description v => {| Dish.id := Dish.id d; Dish.title := Dish.title d;
                             Dish.description := v;
                             Dish.price := Dish.price d; Dish.submenu_id := Dish.submenu_id d |}
  | item_price v => {| Dish.id := Dish.id d; Dish.title := Dish.title d;
                       Dish.description := Dish.description d;
                       Dish.price := v; Dish.submenu_id := Dish.submenu_id d |}
  end.

Definition getattr_dish (d : Dish.t) (f : field) : value :=
  match f with
  | f_id => VStr (Dish.id d)
  | f_title => VStr (Dish.title d)
  | f_description => VStr (Dish.description d)
  | f_price => VDecimal (Dish.price d)
  end.

Definition getattr_submenu (s : SubMenu.t) (f : field) : option value :=
  match f with
  | f_id => Some (VStr (SubMenu.id s))
  | f_title => Some (VStr (SubMenu.title s))
  | f_description => Some (VStr (SubMenu.description s))
  | f_price => None
  end.

Definition getattr_menu (m : Menu.t) (f : field) : option value :=
  match f with
  | f_id => Some (VStr (Menu.id m))
  | f_title => Some (VStr (Menu.title m))
  | f_description => Some (VStr (Menu.description m))
  | f_price => None
  end.

(** [for key, value in data.items(): setattr(obj, key, value)] *)
Definition setattrs {A} (set : A -> item -> A) (obj : A) (data : list item) : A :=
  fold_left set data obj.

(** A new object of each class, before any attribute is set, written as the
    row an INSERT would make of it: [id] takes the column default
    [uuid.uuid4] (its result is the argument), [description] the default
    [''] and [price] the default [0.00]. [title] has no default; every
    payload of [schemas] carries a title, which replaces the empty one. *)
Definition new_menu (uuid4 : string) : Menu.t :=
  {| Menu.id := uuid4; Menu.title := ""; Menu.description := "" |}.

Definition new_submenu (uuid4 : string) : SubMenu.t :=
  {| SubMenu.id := uuid4; SubMenu.title := ""; SubMenu.description := "";
     SubMenu.menu_id := "" |}.

Definition new_dish (uuid4 : string) : Dish.t :=
  {| Dish.id := uuid4; Dish.title := ""; Dish.description := "";
     Dish.price := {| decimal.coefficient := 0; decimal.exponent := -2 |};
     Dish.submenu_id := "" |}.

(** ** The payloads and projections of [menu/schemas.py] *)

Module schemas.

Module MenuBase.
(** [id] is [None] when the payload did not set it. *)
Record t := { id : option string; title : string; description : string }.

(** [model_dump(exclude_unset=True)]: [title] and [description] are
    required, so they are always set. *)
Definition model_dump (p : t) : list item :=
  match id p with Some v => [item_id v] | None => [] end
  ++ [item_title (title p); item_description (description p)].
End MenuBase.

Module DishCreate.
Record t := { id : option string; title : string; description : string;
              price : decimal.Decimal }.

Definition model_dump (p : t) : list item :=
  match id p with Some v => [item_id v] | None => [] end
  ++ [item_title (title p); item_description (description p);
      item_price (price p)].
End DishCreate.

Module DishUpdate.
Record t := { id : option string; title : string; description : string;
              price : decimal.Decimal }.

Definition model_dump (p : t) : list item :=
  match id p with Some v => [item_id v] | None => [] end
  ++ [item_title (title p); item_description (description p);
      item_price (price p)].
End DishUpdate.

Module Menu.
Record t := { id : string; title : string; description : string;
              submenus_count : Z; dishes_count : Z }.
End Menu.

Module SubMenu.
Record t := { id : string; title : string; description : string;
              dishes_count : Z }.
End SubMenu.

Module Dish.
(** The price is serialised as the text of the decimal. *)
Record t := { id : string; title : string; description : string;
              price : string }.

Definition model_validate (d : models.Dish.t) : t :=
  {| id := models.Dish.id d; title := models.Dish.title d;
     description := models.Dish.description d;
     price := string_of_list_ascii (decimal.str (models.Dish.price d)) |}.
End Dish.

End schemas.

(** ** Exceptions, and the monad of a request: the session and what it raises *)

Inductive exn :=
| HTTPException (status_code : Z) (detail : string)
| IntegrityError
| DataError
| AttributeError
| UnmappedInstanceError.

(** A request ends with a result and the store it leaves, or with an
    exception; an exception leaves the store as it was, the session being
    closed without a commit. *)
Inductive outcome (A : Type) :=
| Return (a : A) (db : Store)
| Raise (e : exn).
Arguments Return {A} a db.
Arguments Raise {A} e.

Definition M (A : Type) : Type := Store -> outcome A.

Definition ret {A} (a : A) : M A := fun db => Return a db.

Definition bind {A B} (m : M A) (k : A -> M B) : M B :=
  fun db => match m db with
            | Return a db' => k a db'
            | Raise e => Raise e
            end.

Definition raise {A} (e : exn) : M A := fun _ => Raise e.

(** A SELECT *)
Definition query {A} (q : Store -> A) : M A := fun db => Return (q db) db.

(** [db.commit()] of one pending statement *)
Definition commit (statement : Store -> exn + Store) : M unit :=
  fun db => match statement db with
            | inr db' => Return tt db'
            | inl e => Raise e
            end.

(** [try: body except <handled>: raise e'] *)
Definition try_except {A} (body : M A) (handler : exn -> option exn) : M A :=
  fun db => match body db with
            | Return a db' => Return a db'
            | Raise e => match handler e with
                         | Some e' => Raise e'
                         | None => Raise e
                         end
            end.

Declare Scope monad_scope.
Delimit Scope monad_scope with monad.
Notation "x <- m ;; k" := (bind m (fun x => k))
  (at level 61, m at next level, right associativity) : monad_scope.
Notation "m ;;; k" := (bind m (fun _ => k))
  (at level 61, right associativity) : monad_scope.

(** ** The storage engine: the statements a commit sends, under the
    constraints [menu/models.py] declares (primary keys, unique titles,
    foreign keys with ON DELETE CASCADE, NUMERIC(10, 2)). The texts of a
    row are ones the driver takes, without the character of code 0; that
    the driver refuses another text is not part of it. *)

Module storage.

Definition has {R} (col : R -> string) (v : string) (rows : list R) : bool :=
  existsb (fun r => String.eqb (col r) v) rows.

Definition without {R} (col : R -> string) (v : string) (rows : list R) : list R :=
  filter (fun r => negb (String.eqb (col r) v)) rows.

Definition set_row {R} (col : R -> string) (v : string) (new : R) (rows : list R)
  : list R :=
  map (fun r => if String.eqb (col r) v then new else r) rows.

Definition with_price (d : Dish.t) (p : decimal.Decimal) : Dish.t :=
  {| Dish.id := Dish.id d; Dish.title := Dish.title d;
     Dish.description := Dish.description d;
     Dish.price := p; Dish.submenu_id := Dish.submenu_id d |}.

Definition insert_menu (m : Menu.t) (db : Store) : exn + Store :=
  if has Menu.id (Menu.id m) (menus db) || has Menu.title (Menu.title m) (menus db)
  then inl IntegrityError
  else inr {| menus := menus db ++ [m]; submenus := submenus db;
              dishes := dishes db |}.

Definition insert_submenu (s : SubMenu.t) (db : Store) : exn + Store :=
  if has SubMenu.id (SubMenu.id s) (submenus db)
     || has SubMenu.title (SubMenu.title s) (submenus db)
  then inl IntegrityError
  else if negb (has Menu.id (SubMenu.menu_id s) (menus db)) then inl IntegrityError
  else inr {| menus := menus db; submenus := submenus db ++ [s];
              dishes := dishes db |}.

Definition insert_dish (d : Dish.t) (db : Store) : exn + Store :=
  match decimal.apply_typmod 10 2 (Dish.price d) with
  | None => inl DataError
  | Some p =>
      if has Dish.id (Dish.id d) (dishes db)
         || has Dish.title (Dish.title d) (dishes db)
      then inl IntegrityError
      else if negb (has SubMenu.id (Dish.submenu_id d) (submenus db))
      then inl IntegrityError
      else inr {| menus := menus db; submenus := submenus db;
                  dishes := dishes db ++ [with_price d p] |}
  end.

(** UPDATE of the row whose primary key is [pk]. A key that changes must
    not be referenced: the foreign keys carry no ON UPDATE action. The
    requests never change [menu_id] or [submenu_id] of a stored row, so an
    UPDATE checks no reference to a parent. *)
Definition update_menu (pk : string) (m : Menu.t) (db : Store) : exn + Store :=
  let others := without Menu.id pk (menus db) in
  if has Menu.id (Menu.id m) others || has Menu.title (Menu.title m) others
  then inl IntegrityError
  else if negb (String.eqb (Menu.id m) pk) && has SubMenu.menu_id pk (submenus db)
  then inl IntegrityError
  else inr {| menus := set_row Menu.id pk m (menus db); submenus := submenus db;
              dishes := dishes db |}.

Definition update_submenu (pk : string) (s : SubMenu.t) (db : Store) : exn + Store :=
  let others := without SubMenu.id pk (submenus db) in
  if has SubMenu.id (SubMenu.id s) others || has SubMenu.title (SubMenu.title s) others
  then inl IntegrityError
  else if negb (String.eqb (SubMenu.id s) pk) && has Dish.submenu_id pk (dishes db)
  then inl IntegrityError
  else inr {| menus := menus db; submenus := set_row SubMenu.id pk s (submenus db);
              dishes := dishes db |}.

Definition update_dish (pk : string) (d : Dish.t) (db : Store) : exn + Store :=
  match decimal.apply_typmod 10 2 (Dish.price d) with
  | None => inl DataError
  | Some p =>
      let others := without Dish.id pk (dishes db) in
      if has Dish.id (Dish.id d) others || has Dish.title (Dish.title d) others
      then inl IntegrityError
      else inr {| menus := menus db; submenus := submenus db;
                  dishes := set_row Dish.id pk (with_price d p) (dishes db) |}
  end.

(** DELETE, with the cascade of the foreign keys: the submenus of a
    deleted menu go, and the dishes of every submenu that goes. *)
Definition delete_menu (pk : string) (db : Store) : exn + Store :=
  let gone := filter (fun s => String.eqb (SubMenu.menu_id s) pk) (submenus db) in
  inr {| menus := without Menu.id pk (menus db);
         submenus := without SubMenu.menu_id pk (submenus db);
         dishes := filter (fun d => negb (has SubMenu.id (Dish.submenu_id d) gone))
                          (dishes db) |}.

Definition delete_submenu (pk : string) (db : Store) : exn + Store :=
  inr {| menus := menus db;
         submenus := without SubMenu.id pk (submenus db);
         dishes := without Dish.submenu_id pk (dishes db) |}.

Definition delete_dish (pk : string) (db : Store) : exn + Store :=
  inr {| menus := menus db; submenus := submenus db;
         dishes := without Dish.id pk (dishes db) |}.

End storage.

(** The session: [db.get(cls, pk)], [db.add(obj)], [db.delete(obj)]. *)
Definition session_get {R} (col : R -> string) (pk : string) (rows : list R)
  : option R :=
  find (fun r => String.eqb (col r) pk) rows.

(** [db.add(None)] and [db.delete(None)] raise: [None] is not mapped. *)
Definition mapped {A} (obj : option A) : M A :=
  match obj with
  | Some o => ret o
  | None => raise UnmappedInstanceError
  end.

(** The loop of [setattr] on an object that may be [None]: the first
    [setattr] on [None] raises. *)
Definition setattrs_on {A} (set : A -> item -> A) (obj : option A) (data : list item)
  : M (option A) :=
  match obj, data with
  | Some o, _ => ret (Some (setattrs set o data))
  | None, [] => ret None
  | None, _ :: _ => raise AttributeError
  end.

(** ** [menu/crud.py] *)

Module crud.

Local Open Scope monad_scope.
Local Open Scope string_scope.

Definition raise_if_not_exist {A} (item : option A) (message : string)
  (status_code : Z) : M A :=
  match item with
  | Some a => ret a
  | None => raise (HTTPException status_code message)
  end.

(** The scalar subquery
    [select(count(Dish.id)).where(SubMenu.id == Dish.submenu_id)],
    correlated with the row of [submenus] of the enclosing query. On the
    NULL row of an outer join the comparison holds for no dish. *)
Definition count_dishes (db : Store) (submenu_id : option string) : Z :=
  match submenu_id with
  | Some sid =>
      Z.of_nat (List.length
                  (filter (fun d => String.eqb sid (Dish.submenu_id d)) (dishes db)))
  | None => 0
  end.

(** [func.coalesce(value, default)] on a value that is never NULL, as a
    count is. *)
Definition coalesce (v default : Z) : Z := v.

Definition get_submenus (db : Store) (menu_id : string) : list schemas.SubMenu.t :=
  map (fun s => {| schemas.SubMenu.id := SubMenu.id s;
                   schemas.SubMenu.title := SubMenu.title s;
                   schemas.SubMenu.description := SubMenu.description s;
                   schemas.SubMenu.dishes_count :=
                     count_dishes db (Some (SubMenu.id s)) |})
      (filter (fun s => String.eqb (SubMenu.menu_id s) menu_id) (submenus db)).

Definition get_submenu_by_id (db : Store) (menu_id submenu_id : string)
  : option schemas.SubMenu.t :=
  hd_error
    (map (fun s => {| schemas.SubMenu.id := SubMenu.id s;
                      schemas.SubMenu.title := SubMenu.title s;
                      schemas.SubMenu.description := SubMenu.description s;
                      schemas.SubMenu.dishes_count :=
                        count_dishes db (Some (SubMenu.id s)) |})
         (filter (fun s => String.eqb (SubMenu.menu_id s) menu_id
                           && String.eqb (SubMenu.id s) submenu_id)
                 (submenus db))).

Definition get_submenu_by_title (db : Store) (title : string) : option SubMenu.t :=
  find (fun s => String.eqb (SubMenu.title s) title) (submenus db).

(** [menus LEFT OUTER JOIN submenus ON menus.id = submenus.menu_id] *)
Definition outer_join (db : Store) (ms : list Menu.t) : list (Menu.t * option SubMenu.t) :=
  flat_map
    (fun m =>
       match filter (fun s => String.eqb (Menu.id m) (SubMenu.menu_id s)) (submenus db) with
       | [] => [(m, None)]
       | ss => map (fun s => (m, Some s)) ss
       end) ms.

(** The columns of GROUP BY: id, title, description and the label
    [dishes_count]. *)
Definition group_key : Type := string * string * string * Z.

Definition group_key_eqb (a b : group_key) : bool :=
  let '(i, t, d, n) := a in
  let '(i', t', d', n') := b in
  String.eqb i i' && String.eqb t t' && String.eqb d d' && (n =? n')%Z.

(** One joined row enters its group; [count(SubMenu.id)] counts the rows
    of the group whose submenu is not NULL. Groups come out in the order
    in which they were met. *)
Fixpoint group_add (k : group_key) (counted : bool) (groups : list (group_key * Z))
  : list (group_key * Z) :=
  match groups with
  | [] => [(k, if counted then 1 else 0)]
  | (k', c) :: rest =>
      if group_key_eqb k' k then (k', if counted then c + 1 else c) :: rest
      else (k', c) :: group_add k counted rest
  end.

Definition group_by (rows : list (group_key * bool)) : list (group_key * Z) :=
  fold_left (fun groups r => group_add (fst r) (snd r) groups) rows [].

Definition menu_projection (g : group_key * Z) : schemas.Menu.t :=
  let '((i, t, d, n), c) := g in
  {| schemas.Menu.id := i; schemas.Menu.title := t; schemas.Menu.description := d;
     schemas.Menu.submenus_count := c; schemas.Menu.dishes_count := n |}.

Definition get_menus (db : Store) : list schemas.Menu.t :=
  map menu_projection
    (group_by
       (map (fun r : Menu.t * option SubMenu.t =>
               let (m, s) := r in
               ((Menu.id m, Menu.title m, Menu.description m,
                 coalesce (count_dishes db (option_map SubMenu.id s)) 0),
                match s with Some _ => true | None => false end))
            (outer_join db (menus db)))).

Definition get_menu_by_id (db : Store) (menu_id : string) : option schemas.Menu.t :=
  hd_error
    (map menu_projection
       (group_by
          (map (fun r : Menu.t * option SubMenu.t =>
                  let (m, s) := r in
                  ((Menu.id m, Menu.title m, Menu.description m,
                    count_dishes db (option_map SubMenu.id s)),
                   match s with Some _ => true | None => false end))
               (filter (fun r => String.eqb (Menu.id (fst r)) menu_id)
                       (outer_join db (menus db)))))).

Definition get_menu_by_title (db : Store) (title : string) : option Menu.t :=
  find (fun m => String.eqb (Menu.title m) title) (menus db).

Definition check_menu_by_id (db : Store) (menu_id : string) : outcome (option string) :=
  (if is_valid_uuid menu_id
   then query (fun db => option_map Menu.id
                           (find (fun m => String.eqb (Menu.id m) menu_id) (menus db)))
   else raise (HTTPException 422 "Wrong id type")) db.

Definition check_submenu_by_id (db : Store) (submenu_id : string)
  : outcome (option SubMenu.t) :=
  (if is_valid_uuid submenu_id
   then query (fun db => find (fun s => String.eqb (SubMenu.id s) submenu_id)
                              (submenus db))
   else raise (HTTPException 422 "Wrong id type")) db.

(** In the functions that create a row, [uuid4] is the value the column
    default [uuid.uuid4] gives when the payload sets no [id]. *)
Definition create_submenu (db : Store) (menu_id : string) (submenu : schemas.MenuBase.t)
  (uuid4 : string) : outcome (option schemas.SubMenu.t) :=
  (if is_valid_uuid menu_id then
     let db_submenu := new_submenu uuid4 in
     let submenu_data := schemas.MenuBase.model_dump submenu in
     let db_submenu := setattrs setattr_submenu db_submenu submenu_data in
     let db_submenu :=
       {| SubMenu.id := SubMenu.id db_submenu; SubMenu.title := SubMenu.title db_submenu;
          SubMenu.description := SubMenu.description db_submenu;
          SubMenu.menu_id := menu_id |} in
     commit (storage.insert_submenu db_submenu) ;;;
     query (fun db => get_submenu_by_id db menu_id (SubMenu.id db_submenu))
   else raise (HTTPException 422 "Wrong id type")) db.

Definition create_menu (db : Store) (menu : schemas.MenuBase.t) (uuid4 : string)
  : outcome (option schemas.Menu.t) :=
  (let db_menu := new_menu uuid4 in
   let menu_data := schemas.MenuBase.model_dump menu in
   let db_menu := setattrs setattr_menu db_menu menu_data in
   commit (storage.insert_menu db_menu) ;;;
   query (fun db => get_menu_by_id db (Menu.id db_menu))) db.

(** [Dish JOIN SubMenu JOIN Menu], filtered on the two path identifiers *)
Definition dishes_joined (db : Store) (ds : list Dish.t) (submenu_id menu_id : string)
  : list Dish.t :=
  flat_map
    (fun d =>
       flat_map
         (fun s =>
            flat_map
              (fun m =>
                 if String.eqb (SubMenu.id s) submenu_id
                    && String.eqb (Menu.id m) menu_id
                 then [d] else [])
              (filter (fun m => String.eqb (Menu.id m) (SubMenu.menu_id s)) (menus db)))
         (filter (fun s => String.eqb (SubMenu.id s) (Dish.submenu_id d)) (submenus db)))
    ds.

Definition get_dishes (db : Store) (submenu_id menu_id : string) : list Dish.t :=
  dishes_joined db (dishes db) submenu_id menu_id.

Definition get_dish_by_id (db : Store) (submenu_id menu_id dish_id : string)
  : option Dish.t :=
  hd_error
    (dishes_joined db
       (filter (fun d => String.eqb (Dish.id d) dish_id) (dishes db))
       submenu_id menu_id).

Definition handled_by_create_dish (e : exn) : option exn :=
  match e with
  | IntegrityError => Some (HTTPException 500 "A duplicate record already exists")
  | _ => None
  end.

Definition create_dish (db : Store) (menu_id submenu_id : string)
  (dish : schemas.DishCreate.t) (uuid4 : string) : outcome (option Dish.t) :=
  (if is_valid_uuid menu_id && is_valid_uuid submenu_id then
     let db_dish := new_dish uuid4 in
     let dish_data := schemas.DishCreate.model_dump dish in
     let db_dish := setattrs setattr_dish db_dish dish_data in
     let db_dish :=
       {| Dish.id := Dish.id db_dish; Dish.title := Dish.title db_dish;
          Dish.description := Dish.description db_dish;
          Dish.price := Dish.price db_dish; Dish.submenu_id := submenu_id |} in
     try_except (commit (storage.insert_dish db_dish)) handled_by_create_dish ;;;
     query (fun db => get_dish_by_id db submenu_id menu_id (Dish.id db_dish))
   else raise (HTTPException 422 "Wrong id type")) db.

(** The dictionary a delete returns *)
Record deleted := { status : bool; message : string }.

Definition delete_menu_by_id (db : Store) (menu_id : string) : outcome deleted :=
  ((if is_valid_uuid menu_id then
      menu <- query (fun db => session_get Menu.id menu_id (menus db)) ;;
      menu <- raise_if_not_exist menu "Menu not found" 404 ;;
      commit (storage.delete_menu (Menu.id menu))
    else raise (HTTPException 422 "Wrong id type")) ;;;
   ret {| status := true; message := "The menu has been deleted" |}) db.

Definition delete_submenu_by_id (db : Store) (menu_id submenu_id : string)
  : outcome deleted :=
  ((if is_valid_uuid menu_id && is_valid_uuid submenu_id then
      menu <- query (fun db => session_get Menu.id menu_id (menus db)) ;;
      raise_if_not_exist menu "Menu not found" 404 ;;;
      submenu <- query (fun db => session_get SubMenu.id submenu_id (submenus db)) ;;
      submenu <- mapped submenu ;;
      commit (storage.delete_submenu (SubMenu.id submenu))
    else raise (HTTPException 422 "One or more wrong types id")) ;;;
   ret {| status := true; message := "The submenu has been deleted" |}) db.

Definition delete_dish_by_id (db : Store) (menu_id submenu_id dish_id : string)
  : outcome deleted :=
  ((if is_valid_uuid menu_id && is_valid_uuid submenu_id && is_valid_uuid dish_id then
      menu <- query (fun db => session_get Menu.id menu_id (menus db)) ;;
      raise_if_not_exist menu "Menu not found" 404 ;;;
      submenu <- query (fun db => session_get SubMenu.id submenu_id (submenus db)) ;;
      raise_if_not_exist submenu "Submenu not found" 404 ;;;
      dish <- query (fun db => session_get Dish.id dish_id (dishes db)) ;;
      dish <- raise_if_not_exist dish "Dish not found" 404 ;;
      commit (storage.delete_dish (Dish.id dish))
    else raise (HTTPException 422 "One or more wrong types id")) ;;;
   ret {| status := true; message := "The dish has been deleted" |}) db.

(** [update_menu] hands the payload [menu], not [db_menu], to
    [raise_if_not_exist]; a payload is never [None]. *)
Definition update_menu (db : Store) (menu_id : string) (menu : schemas.MenuBase.t)
  : outcome (option schemas.Menu.t) :=
  (db_menu <- query (fun db => session_get Menu.id menu_id (menus db)) ;;
   raise_if_not_exist (Some menu) "Menu not found" 404 ;;;
   let menu_data := schemas.MenuBase.model_dump menu in
   db_menu <- setattrs_on setattr_menu db_menu menu_data ;;
   db_menu <- mapped db_menu ;;
   commit (storage.update_menu menu_id db_menu) ;;;
   query (fun db => get_menu_by_id db (Menu.id db_menu))) db.

Definition update_submenu (db : Store) (menu_id submenu_id : string)
  (submenu : schemas.MenuBase.t) : outcome (option schemas.SubMenu.t) :=
  (db_menu <- query (fun db => session_get Menu.id menu_id (menus db)) ;;
   raise_if_not_exist db_menu "Menu not found" 404 ;;;
   db_submenu <- query (fun db => session_get SubMenu.id submenu_id (submenus db)) ;;
   db_submenu <- raise_if_not_exist db_submenu "Submenu not found" 404 ;;
   let submenu_data := schemas.MenuBase.model_dump submenu in
   let db_submenu := setattrs setattr_submenu db_submenu submenu_data in
   commit (storage.update_submenu submenu_id db_submenu) ;;;
   query (fun db => get_submenu_by_id db menu_id (SubMenu.id db_submenu))) db.

Definition update_dish (db : Store) (menu_id submenu_id dish_id : string)
  (dish : schemas.DishUpdate.t) : outcome (option Dish.t) :=
  (db_menu <- query (fun db => session_get Menu.id menu_id (menus db)) ;;
   raise_if_not_exist db_menu "Menu not found" 404 ;;;
   db_submenu <- query (fun db => session_get SubMenu.id submenu_id (submenus db)) ;;
   raise_if_not_exist db_submenu "Submenu not found" 404 ;;;
   db_dish <- query (fun db => session_get Dish.id dish_id (dishes db)) ;;
   db_dish <- raise_if_not_exist db_dish "Submenu not found" 404 ;;
   let dish_data := schemas.DishUpdate.model_dump dish in
   let db_dish := setattrs setattr_dish db_dish dish_data in
   commit (storage.update_dish dish_id db_dish) ;;;
   query (fun db => get_dish_by_id db submenu_id menu_id (Dish.id db_dish))) db.

End crud.

(** ** [menu/routers.py] *)

(** A handler is given with what its function returns; that a response
    model refuses a [None] is not part of it. *)
Module routers.

Local Open Scope monad_scope.
Local Open Scope string_scope.

Definition get_menus (db : Store) : outcome (list schemas.Menu.t) :=
  query crud.get_menus db.

Definition get_menu_by_id (db : Store) (menu_id : string) : outcome schemas.Menu.t :=
  (menu <- query (fun db => crud.get_menu_by_id db menu_id) ;;
   match menu with
   | None => raise (HTTPException 404 "menu not found")
   | Some menu => ret menu
   end) db.

Definition get_submenus (db : Store) (menu_id : string)
  : outcome (list schemas.SubMenu.t) :=
  query (fun db => crud.get_submenus db menu_id) db.

Definition get_submenu_by_id (db : Store) (menu_id submenu_id : string)
  : outcome schemas.SubMenu.t :=
  (submenus <- query (fun db => crud.get_submenu_by_id db menu_id submenu_id) ;;
   match submenus with
   | None => raise (HTTPException 404 "submenu not found")
   | Some submenus => ret submenus
   end) db.

Definition get_dishes (db : Store) (menu_id submenu_id : string)
  : outcome (list schemas.Dish.t) :=
  query (fun db => map schemas.Dish.model_validate
                       (crud.get_dishes db submenu_id menu_id)) db.

Definition get_dish_by_id (db : Store) (menu_id submenu_id dish_id : string)
  : outcome schemas.Dish.t :=
  (dish <- query (fun db => crud.get_dish_by_id db submenu_id menu_id dish_id) ;;
   match dish with
   | None => raise (HTTPException 404 "dish not found")
   | Some dish => ret (schemas.Dish.model_validate dish)
   end) db.

Definition create_menu (db : Store) (menu : schemas.MenuBase.t) (uuid4 : string)
  : outcome (option schemas.Menu.t) :=
  match crud.get_menu_by_title db (schemas.MenuBase.title menu) with
  | Some _ => Raise (HTTPException 400 "Title of Menu already registered")
  | None => crud.create_menu db menu uuid4
  end.

Definition create_submenu (db : Store) (menu_id : string)
  (submenu : schemas.MenuBase.t) (uuid4 : string)
  : outcome (option schemas.SubMenu.t) :=
  match crud.check_menu_by_id db menu_id with
  | Raise e => Raise e
  | Return None _ => Raise (HTTPException 400 "ID of Menu not registered")
  | Return (Some _) db =>
      match crud.get_submenu_by_title db (schemas.MenuBase.title submenu) with
      | Some _ => Raise (HTTPException 400 "Title of Submenu already registered")
      | None => crud.create_submenu db menu_id submenu uuid4
      end
  end.

Definition create_dish (db : Store) (menu_id submenu_id : string)
  (dish : schemas.DishCreate.t) (uuid4 : string)
  : outcome (option schemas.Dish.t) :=
  match crud.check_menu_by_id db menu_id with
  | Raise e => Raise e
  | Return None _ => Raise (HTTPException 400 "ID of Menu not registered")
  | Return (Some _) db =>
      match crud.check_submenu_by_id db submenu_id with
      | Raise e => Raise e
      | Return None _ => Raise (HTTPException 400 "ID of Submenu not registered")
      | Return (Some _) db =>
          match crud.create_dish db menu_id submenu_id dish uuid4 with
          | Return d db => Return (option_map schemas.Dish.model_validate d) db
          | Raise e => Raise e
          end
      end
  end.

Definition update_menu (db : Store) (menu_id : string) (menu : schemas.MenuBase.t)
  : outcome (option schemas.Menu.t) :=
  crud.update_menu db menu_id menu.

Definition update_submenu (db : Store) (menu_id submenu_id : string)
  (submenu : schemas.MenuBase.t) : outcome (option schemas.SubMenu.t) :=
  crud.update_submenu db menu_id submenu_id submenu.

Definition update_dish (db : Store) (menu_id submenu_id dish_id : string)
  (dish : schemas.DishUpdate.t) : outcome (option schemas.Dish.t) :=
  match crud.update_dish db menu_id submenu_id dish_id dish with
  | Return d db => Return (option_map schemas.Dish.model_validate d) db
  | Raise e => Raise e
  end.

Definition delete_menu_by_id (db : Store) (menu_id : string) : outcome crud.deleted :=
  crud.delete_menu_by_id db menu_id.

Definition delete_submenu_by_id (db : Store) (menu_id submenu_id : string)
  : outcome crud.deleted :=
  crud.delete_submenu_by_id db menu_id submenu_id.

Definition delete_dish_by_id (db : Store) (menu_id submenu_id dish_id : string)
  : outcome crud.deleted :=
  crud.delete_dish_by_id db menu_id submenu_id dish_id.

End routers.

(** ** Definitions used to state the properties *)

(** The four assignments of the constructor that force variant and version. *)
Definition forced (version int : Z) : Z :=
  Z.lor (Z.land (Z.lor (Z.land int (Z.lnot (Z.shiftl 0xc000 48)))
                       (Z.shiftl 0x8000 48))
                (Z.lnot (Z.shiftl 0xf000 64)))
        (Z.shiftl version 76).

(** What the parser and the constructor need to know of a lower-case
    hexadecimal digit. *)
Definition plain_hex_digit (c : ascii) : bool :=
  (0 <=? pyint.digit_value c) && (pyint.digit_value c <? 16)
  && Ascii.eqb (uuid.hexchar (pyint.digit_value c)) c
  && Ascii.eqb (pyint.to_ascii_digits_and_space c) c
  && negb (pyint.is_space c)
  && negb (Ascii.eqb c "+") && negb (Ascii.eqb c "-")
  && negb (Ascii.eqb c "x") && negb (Ascii.eqb c "X")
  && negb (Ascii.eqb c "_")
  && negb (Ascii.eqb "u" c)
  && negb (existsb (Ascii.eqb c) ["{"; "}"]%char).

(** The value of a run of hexadecimal digits *)
Definition hexvalue_from (acc : Z) (s : chars) : Z :=
  fold_left (fun a c => a * 16 + pyint.digit_value c) s acc.

Definition hexvalue (s : chars) : Z := hexvalue_from 0 s.

(** The grouping [str] gives the 32 digits. *)
Definition dashed (hex : chars) : chars :=
  firstn 8 hex ++ "-"%char :: firstn 4 (skipn 8 hex) ++ "-"%char ::
  firstn 4 (skipn 12 hex) ++ "-"%char :: firstn 4 (skipn 16 hex) ++ "-"%char ::
  skipn 20 hex.

Definition is_variant (c : ascii) : bool :=
  Ascii.eqb c "8" || Ascii.eqb c "9" || Ascii.eqb c "a" || Ascii.eqb c "b".

Definition no_dash (c : ascii) : bool := negb (Ascii.eqb "-" c).







(** A text the driver of the storage engine takes: one without the
    character of code 0. *)
Definition no_nul (s : string) : bool :=
  forallb (fun c => negb (Ascii.eqb c zero)) (list_ascii_of_string s).

Fixpoint nodupb (l : list string) : bool :=
  match l with
  | [] => true
  | x :: t => negb (existsb (String.eqb x) t) && nodupb t
  end.

(** The primary keys are unique and every foreign key has its parent row. *)
Definition keys_and_references (db : Store) : bool :=
  nodupb (map Menu.id (menus db))
  && nodupb (map SubMenu.id (submenus db))
  && nodupb (map Dish.id (dishes db))
  && forallb (fun s => storage.has Menu.id (SubMenu.menu_id s) (menus db)) (submenus db)
  && forallb (fun d => storage.has SubMenu.id (Dish.submenu_id d) (submenus db)) (dishes db).

Definition well_formed (db : Store) : Prop := keys_and_references db = true.

(** The requests that write *)
Inductive request :=
| create_menu (menu : schemas.MenuBase.t) (uuid4 : string)
| create_submenu (menu_id : string) (submenu : schemas.MenuBase.t) (uuid4 : string)
| create_dish (menu_id submenu_id : string) (dish : schemas.DishCreate.t) (uuid4 : string)
| update_menu (menu_id : string) (menu : schemas.MenuBase.t)
| update_submenu (menu_id submenu_id : string) (submenu : schemas.MenuBase.t)
| update_dish (menu_id submenu_id dish_id : string) (dish : schemas.DishUpdate.t)
| delete_menu_by_id (menu_id : string)
| delete_submenu_by_id (menu_id submenu_id : string)
| delete_dish_by_id (menu_id submenu_id dish_id : string).

Definition store_of {A} (o : outcome A) : option Store :=
  match o with
  | Return _ db => Some db
  | Raise _ => None
  end.

(** The store a request leaves when it succeeds *)
Definition after (db : Store) (r : request) : option Store :=
  match r with
  | create_menu menu uuid4 => store_of (routers.create_menu db menu uuid4)
  | create_submenu menu_id submenu uuid4 =>
      store_of (routers.create_submenu db menu_id submenu uuid4)
  | create_dish menu_id submenu_id dish uuid4 =>
      store_of (routers.create_dish db menu_id submenu_id dish uuid4)
  | update_menu menu_id menu => store_of (routers.update_menu db menu_id menu)
  | update_submenu menu_id submenu_id submenu =>
      store_of (routers.update_submenu db menu_id submenu_id submenu)
  | update_dish menu_id submenu_id dish_id dish =>
      store_of (routers.update_dish db menu_id submenu_id dish_id dish)
  | delete_menu_by_id menu_id => store_of (routers.delete_menu_by_id db menu_id)
  | delete_submenu_by_id menu_id submenu_id =>
      store_of (routers.delete_submenu_by_id db menu_id submenu_id)
  | delete_dish_by_id menu_id submenu_id dish_id =>
      store_of (routers.delete_dish_by_id db menu_id submenu_id dish_id)
  end.

(** The stores the requests can reach from the empty one *)
Inductive reachable : Store -> Prop :=
| reach_empty : reachable empty_store
| reach_after (db : Store) (r : request) (db' : Store) :
    reachable db -> after db r = Some db' -> reachable db'.

Definition no_orphans (db : Store) : Prop :=
  (forall s, In s (submenus db) ->
     exists m, In m (menus db) /\ Menu.id m = SubMenu.menu_id s)
  /\ (forall d, In d (dishes db) ->
        exists s, In s (submenus db) /\ SubMenu.id s = Dish.submenu_id d).

(** What the delete of the menu [menu_id] removed, between [db] and [db']:
    the menu, its submenus and their dishes are no longer stored, and the
    reads of a single submenu or dish with their identifiers raise the 404
    of the router, under any path of well-formed identifiers. *)
Definition subtree_gone (db db' : Store) (menu_id : string) : Prop :=
  (forall m, In m (menus db') -> Menu.id m <> menu_id)
  /\ (forall s, In s (submenus db) -> SubMenu.menu_id s = menu_id ->
        ~ In s (submenus db')
        /\ forall path_menu,
             is_valid_uuid path_menu = true ->
             routers.get_submenu_by_id db' path_menu (SubMenu.id s)
             = Raise (HTTPException 404 "submenu not found"))
  /\ (forall s d, In s (submenus db) -> SubMenu.menu_id s = menu_id ->
        In d (dishes db) -> Dish.submenu_id d = SubMenu.id s ->
        ~ In d (dishes db')
        /\ forall path_menu path_submenu,
             is_valid_uuid path_menu = true -> is_valid_uuid path_submenu = true ->
             routers.get_dish_by_id db' path_menu path_submenu (Dish.id d)
             = Raise (HTTPException 404 "dish not found")).

(** ** Scenarios *)

Module scenario.

Local Open Scope string_scope.

Definition menu1 : string := "2e9b4f3a-b9d4-4168-8697-1f51de26dd1e".
Definition submenu1 : string := "3fa85f64-5717-4562-b3fc-2c963f66afa6".
Definition submenu2 : string := "3fa85f64-5717-4562-b3fc-2c963f66afa7".
Definition dish1 : string := "11111111-1111-4111-8111-111111111111".
Definition dish2 : string := "22222222-2222-4222-8222-222222222222".
(** The value [uuid.uuid4] would give; every payload below sets [id]. *)
Definition unused : string := "99999999-9999-4999-8999-999999999999".

Definition dec (coefficient exponent : Z) : decimal.Decimal :=
  {| decimal.coefficient := coefficient; decimal.exponent := exponent |}.

Definition menu_payload (id title description : string) : schemas.MenuBase.t :=
  {| schemas.MenuBase.id := Some id; schemas.MenuBase.title := title;
     schemas.MenuBase.description := description |}.

Definition dish_payload (id title description : string) (price : decimal.Decimal)
  : schemas.DishCreate.t :=
  {| schemas.DishCreate.id := Some id; schemas.DishCreate.title := title;
     schemas.DishCreate.description := description;
     schemas.DishCreate.price := price |}.

(** The requests one after the other, as long as each succeeds *)
Fixpoint run (rs : list request) (db : Store) : option Store :=
  match rs with
  | [] => Some db
  | r :: rs' => match after db r with
                | Some db' => run rs' db'
                | None => None
                end
  end.

Definition one_menu : list request :=
  [create_menu (menu_payload menu1 "menu1" "about menu1") unused].

(** The scenario of [test_count_submenu_and_dish_of_menu]: a menu, a
    submenu under it and two dishes under the submenu. *)
Definition one_submenu_two_dishes : list request :=
  one_menu ++
  [create_submenu menu1 (menu_payload submenu1 "submenu1" "about submenu1") unused;
   create_dish menu1 submenu1 (dish_payload dish1 "dish1" "about dish1" (dec 1350 (-2)))
     unused;
   create_dish menu1 submenu1 (dish_payload dish2 "dish2" "about dish2" (dec 1250 (-2)))
     unused].

(** A menu with two submenus and one dish under each *)
Definition two_submenus_one_dish_each : list request :=
  one_menu ++
  [create_submenu menu1 (menu_payload submenu1 "submenu1" "about submenu1") unused;
   create_submenu menu1 (menu_payload submenu2 "submenu2" "about submenu2") unused;
   create_dish menu1 submenu1 (dish_payload dish1 "dish1" "about dish1" (dec 1350 (-2)))
     unused;
   create_dish menu1 submenu2 (dish_payload dish2 "dish2" "about dish2" (dec 1250 (-2)))
     unused].

(** A menu with two submenus, the first with a dish and the second empty *)
Definition two_submenus_one_dish : list request :=
  one_menu ++
  [create_submenu menu1 (menu_payload submenu1 "submenu1" "about submenu1") unused;
   create_submenu menu1 (menu_payload submenu2 "submenu2" "about submenu2") unused;
   create_dish menu1 submenu1 (dish_payload dish1 "dish1" "about dish1" (dec 1350 (-2)))
     unused].

Definition store_after (rs : list request) : Store :=
  match run rs empty_store with
  | Some db => db
  | None => empty_store
  end.

Definition menu2 : string := "2e9b4f3a-b9d4-4168-8697-1f51de26dd1f".

Definition two_menus : list request :=
  one_menu ++ [create_menu (menu_payload menu2 "menu2" "about menu2") unused].

(** The update of [test_update_dish], without the [id]. *)
Definition partial_dish_update : schemas.DishUpdate.t :=
  {| schemas.DishUpdate.id := None;
     schemas.DishUpdate.title := "dish1";
     schemas.DishUpdate.description := "this field has been changed";
     schemas.DishUpdate.price := dec 7777 (-3) |}.

Definition dish1_updated : Dish.t :=
  {| Dish.id := dish1; Dish.title := "dish1";
     Dish.description := "this field has been changed";
     Dish.price := dec 778 (-2); Dish.submenu_id := submenu1 |}.

Definition dish1_returned : schemas.Dish.t :=
  {| schemas.Dish.id := dish1; schemas.Dish.title := "dish1";
     schemas.Dish.description := "this field has been changed";
     schemas.Dish.price := "7.78" |}.

Definition menu1_row : Menu.t :=
  {| Menu.id := menu1; Menu.title := "menu1"; Menu.description := "about menu1" |}.

Definition submenu1_row : SubMenu.t :=
  {| SubMenu.id := submenu1; SubMenu.title := "submenu1";
     SubMenu.description := "about submenu1"; SubMenu.menu_id := menu1 |}.

Definition dish2_row : Dish.t :=
  {| Dish.id := dish2; Dish.title := "dish2"; Dish.description := "about dish2";
     Dish.price := dec 1250 (-2); Dish.submenu_id := submenu1 |}.

Definition store_dish1_updated : Store :=
  {| menus := [menu1_row]; submenus := [submenu1_row];
     dishes := [dish1_updated; dish2_row] |}.

(** The stores the scenarios reach *)
Definition store_two_menus : Store := store_after two_menus.
Definition store_one_menu : Store := store_after one_menu.
Definition store_one_submenu_two_dishes : Store := store_after one_submenu_two_dishes.
Definition store_two_submenus_one_dish_each : Store :=
  store_after two_submenus_one_dish_each.
Definition store_two_submenus_one_dish : Store := store_after two_submenus_one_dish.

(** A menu and a submenu under it *)
Definition menu_and_submenu : list request :=
  one_menu ++
  [create_submenu menu1 (menu_payload submenu1 "submenu1" "about submenu1") unused].

(** A menu, a submenu under it and a dish under the submenu *)
Definition menu_submenu_dish : list request :=
  menu_and_submenu ++
  [create_dish menu1 submenu1 (dish_payload dish1 "dish1" "about dish1" (dec 1350 (-2)))
     unused].

(** Two menus with a submenu under each and a dish under the first submenu *)
Definition two_menus_two_submenus : list request :=
  two_menus ++
  [create_submenu menu1 (menu_payload submenu1 "submenu1" "about submenu1") unused;
   create_submenu menu2 (menu_payload submenu2 "submenu2" "about submenu2") unused;
   create_dish menu1 submenu1 (dish_payload dish1 "dish1" "about dish1" (dec 1350 (-2)))
     unused].

Definition store_menu_and_submenu : Store := store_after menu_and_submenu.
Definition store_menu_submenu_dish : Store := store_after menu_submenu_dish.
Definition store_two_menus_two_submenus : Store := store_after two_menus_two_submenus.

Definition menu2_row : Menu.t :=
  {| Menu.id := menu2; Menu.title := "menu2"; Menu.description := "about menu2" |}.

Definition dish1_row : Dish.t :=
  {| Dish.id := dish1; Dish.title := "dish1"; Dish.description := "about dish1";
     Dish.price := dec 1350 (-2); Dish.submenu_id := submenu1 |}.

Definition menu2_shown : schemas.Menu.t :=
  {| schemas.Menu.id := menu2; schemas.Menu.title := "menu2";
     schemas.Menu.description := "about menu2";
     schemas.Menu.submenus_count := 0; schemas.Menu.dishes_count := 0 |}.

Definition submenu1_shown : schemas.SubMenu.t :=
  {| schemas.SubMenu.id := submenu1; schemas.SubMenu.title := "submenu1";
     schemas.SubMenu.description := "about submenu1";
     schemas.SubMenu.dishes_count := 0 |}.

Definition dish1_shown : schemas.Dish.t :=
  {| schemas.Dish.id := dish1; schemas.Dish.title := "dish1";
     schemas.Dish.description := "about dish1"; schemas.Dish.price := "13.50" |}.

(** The store with the first dish of the test scenario deleted *)
Definition store_dish1_deleted : Store :=
  {| menus := [menu1_row]; submenus := [submenu1_row]; dishes := [dish2_row] |}.

End scenario.

(** The counts the projections are to show *)
Definition count_submenus_of_menu (db : Store) (menu_id : string) : Z :=
  Z.of_nat (List.length
              (filter (fun s => String.eqb (SubMenu.menu_id s) menu_id) (submenus db))).

Definition count_dishes_of_menu (db : Store) (menu_id : string) : Z :=
  Z.of_nat
    (List.length
       (filter (fun d =>
                  existsb (fun s => String.eqb (SubMenu.id s) (Dish.submenu_id d)
                                    && String.eqb (SubMenu.menu_id s) menu_id)
                          (submenus db))
               (dishes db))).

(** ** [menu/database.py]: the host of the connection *)

Module database.

(** [str.split(sep)] for a separator of one character: the pieces between
    the separators, at least one. *)
Fixpoint split (sep : ascii) (s : chars) : list chars :=
  match s with
  | [] => [[]]
  | c :: t =>
      if Ascii.eqb c sep then [] :: split sep t
      else match split sep t with
           | piece :: pieces => (c :: piece) :: pieces
           | [] => [[c]]
           end
  end.

(** What the module computes for [DB]: [IndexError] when the list of a
    split has no element at the index, or the value, which is [None] when
    [DB_HOST] is not in the environment. *)
Inductive resolved :=
| IndexError
| Value (v : option string).

(** [if DB_URL: DB = DB_URL.split('@')[1].split(':')[0] else: DB = DB_HOST];
    a variable that is not set is [None], and [None] and [''] are false. *)
Definition DB (DB_URL DB_HOST : option string) : resolved :=
  match DB_URL with
  | Some (String c url) =>
      match nth_error (split "@" (c :: list_ascii_of_string url)) 1 with
      | Some part =>
          match nth_error (split ":" part) 0 with
          | Some host => Value (Some (string_of_list_ascii host))
          | None => IndexError
          end
      | None => IndexError
      end
  | _ => Value DB_HOST
  end.

(** The text before the first character that [stop] holds of *)
Fixpoint before (stop : ascii -> bool) (s : chars) : chars :=
  match s with
  | [] => []
  | c :: t => if stop c then [] else c :: before stop t
  end.

End database.

(** ** The unique titles of [menu/models.py] *)

Definition titles_unique (db : Store) : bool :=
  nodupb (map Menu.title (menus db))
  && nodupb (map SubMenu.title (submenus db))
  && nodupb (map Dish.title (dishes db)).

(** All that the tables declare: primary keys, foreign keys, unique titles *)
Definition constraints_hold (db : Store) : bool :=
  keys_and_references db && titles_unique db.

(** The projections the two single reads of a submenu and a dish give *)
Definition submenu_projection (db : Store) (s : SubMenu.t) : schemas.SubMenu.t :=
  {| schemas.SubMenu.id := SubMenu.id s;
     schemas.SubMenu.title := SubMenu.title s;
     schemas.SubMenu.description := SubMenu.description s;
     schemas.SubMenu.dishes_count := crud.count_dishes db (Some (SubMenu.id s)) |}.

(** Whether the submenu with the identifier is stored under the menu *)
Definition under (db : Store) (submenu_id menu_id : string) : bool :=
  match session_get SubMenu.id submenu_id (submenus db) with
  | Some s => String.eqb (SubMenu.menu_id s) menu_id
  | None => false
  end.

(** ** The rows of the grouped queries of menus *)

Definition bz (b : bool) : Z := if b then 1 else 0.

(** The number of joined rows of a group that count a submenu *)
Definition counted_rows (k : crud.group_key) (rows : list (crud.group_key * bool)) : Z :=
  Z.of_nat (List.length (filter (fun r => crud.group_key_eqb (fst r) k && snd r) rows)).

(** The row the grouped queries select for a joined row: the key of its
    group and whether it counts a submenu. *)
Definition selected (db : Store) (r : Menu.t * option SubMenu.t)
  : crud.group_key * bool :=
  let (m, s) := r in
  ((Menu.id m, Menu.title m, Menu.description m,
    crud.count_dishes db (option_map SubMenu.id s)),
   match s with Some _ => true | None => false end).

(** The key of the group of a menu with [n] dishes under the joined submenu *)
Definition key_of (m : Menu.t) (n : Z) : crud.group_key :=
  (Menu.id m, Menu.title m, Menu.description m, n).

(** * Properties *)

(** ** The identity validator *)

Section Chars.

Lemma starts_with_head (a b : ascii) (p s : chars) :
  a <> b -> starts_with (a :: p) (b :: s) = false.
Proof.
  intros H. simpl. destruct (Ascii.eqb a b) eqn:E; auto.
  apply Ascii.eqb_eq in E. contradiction.
Qed.

(** A text in which the first character of [old] does not occur is left
    alone by [replace]. *)
Lemma replace_absent (o : ascii) (old new s : chars) :
  forallb (fun c => negb (Ascii.eqb o c)) s = true ->
  replace (o :: old) new s = s.
Proof.
  unfold replace. induction s as [|c t IH]; simpl; auto.
  intros H. apply andb_true_iff in H. destruct H as [Hc Ht].
  destruct (Ascii.eqb o c); simpl in *; try discriminate.
  now rewrite IH.
Qed.

Lemma lstrip_keeps (set s : chars) :
  forallb (fun c => negb (existsb (Ascii.eqb c) set)) s = true ->
  lstrip set s = s.
Proof.
  destruct s as [|c t]; simpl; auto.
  intros H. apply andb_true_iff in H. destruct H as [Hc _].
  destruct (existsb (Ascii.eqb c) set); simpl in *; auto; discriminate.
Qed.

Lemma forallb_rev {A} (f : A -> bool) (l : list A) :
  forallb f (rev l) = forallb f l.
Proof.
  induction l as [|a l IH]; simpl; auto.
  rewrite forallb_app, IH. simpl. rewrite andb_true_r. apply andb_comm.
Qed.

Lemma strip_keeps (set s : chars) :
  forallb (fun c => negb (existsb (Ascii.eqb c) set)) s = true ->
  strip set s = s.
Proof.
  intros H. unfold strip, rstrip. rewrite (lstrip_keeps _ _ H).
  rewrite lstrip_keeps by now rewrite forallb_rev.
  apply rev_involutive.
Qed.

Lemma chars_eqb_eq (a b : chars) : chars_eqb a b = true <-> a = b.
Proof.
  unfold chars_eqb. rewrite String.eqb_eq. split; intros H; [|now subst].
  rewrite <- (list_ascii_of_string_of_list_ascii a),
          <- (list_ascii_of_string_of_list_ascii b).
  now rewrite H.
Qed.

End Chars.

Section UuidBits.

Lemma forced_bit (int n : Z) :
  0 <= n ->
  Z.testbit (forced 4 int) n =
    ((Z.testbit int n && negb ((62 =? n) || (63 =? n)) || (63 =? n))
     && negb ((76 =? n) || (77 =? n) || (78 =? n) || (79 =? n))
     || (78 =? n)).
Proof.
  intros Hn. unfold forced.
  change (Z.shiftl 0xc000 48) with (Z.lor (2 ^ 62) (2 ^ 63)).
  change (Z.shiftl 0x8000 48) with (2 ^ 63).
  change (Z.shiftl 0xf000 64)
    with (Z.lor (Z.lor (Z.lor (2 ^ 76) (2 ^ 77)) (2 ^ 78)) (2 ^ 79)).
  change (Z.shiftl 4 76) with (2 ^ 78).
  repeat first [ rewrite Z.lor_spec | rewrite Z.land_spec
               | rewrite Z.lnot_spec by assumption ].
  rewrite !Z.pow2_bits_eqb by lia.
  reflexivity.
Qed.

Lemma nibble_bit (x k i : Z) :
  0 <= k -> 0 <= i < 4 ->
  Z.testbit ((x / 2 ^ k) mod 2 ^ 4) i = Z.testbit x (i + k).
Proof.
  intros Hk Hi.
  rewrite Z.mod_pow2_bits_low by lia.
  apply Z.div_pow2_bits; lia.
Qed.

Lemma forced_version (int : Z) : (forced 4 int / 16 ^ 19) mod 16 = 4.
Proof.
  change (16 ^ 19) with (2 ^ 76). change 16 with (2 ^ 4).
  apply Z.bits_inj'. intros n Hn.
  destruct (Z.lt_ge_cases n 4) as [Hlt|Hge].
  - rewrite nibble_bit by lia. rewrite forced_bit by lia.
    assert (n = 0 \/ n = 1 \/ n = 2 \/ n = 3) as [-> | [-> | [-> | ->]]] by lia;
      simpl; rewrite ?andb_false_r, ?orb_true_r; reflexivity.
  - rewrite Z.mod_pow2_bits_high by lia.
    change 4 with (2 ^ 2). rewrite Z.pow2_bits_eqb by lia.
    symmetry. apply Z.eqb_neq. lia.
Qed.

Lemma forced_variant (int : Z) : (forced 4 int / 16 ^ 15 / 4) mod 4 = 2.
Proof.
  rewrite Z.div_div by lia.
  change (16 ^ 15 * 4) with (2 ^ 62).
  change ((forced 4 int / 2 ^ 62) mod 4) with ((forced 4 int / 2 ^ 62) mod 2 ^ 2).
  apply Z.bits_inj'. intros n Hn.
  destruct (Z.lt_ge_cases n 2) as [Hlt|Hge].
  - rewrite Z.mod_pow2_bits_low by lia.
    rewrite Z.div_pow2_bits by lia. rewrite forced_bit by lia.
    assert (n = 0 \/ n = 1) as [-> | ->] by lia;
      simpl; rewrite ?andb_false_r, ?orb_true_r; reflexivity.
  - rewrite Z.mod_pow2_bits_high by lia.
    change (Z.testbit 2 n) with (Z.testbit (2 ^ 1) n).
    rewrite Z.pow2_bits_eqb by lia.
    symmetry. apply Z.eqb_neq. lia.
Qed.

Lemma nibble_split (q : Z) : q mod 16 = q mod 4 + 4 * ((q / 4) mod 4).
Proof. change 16 with (4 * 4). apply Z.rem_mul_r; lia. Qed.

Lemma forced_variant_range (int : Z) : 8 <= (forced 4 int / 16 ^ 15) mod 16 < 12.
Proof.
  rewrite nibble_split, forced_variant.
  pose proof (Z.mod_pos_bound (forced 4 int / 16 ^ 15) 4). lia.
Qed.

(** An integer that already has version 4 and the RFC 4122 variant is left
    as it is. *)
Lemma forced_fixpoint (int : Z) :
  (int / 16 ^ 19) mod 16 = 4 ->
  8 <= (int / 16 ^ 15) mod 16 < 12 ->
  forced 4 int = int.
Proof.
  intros Hver Hvar.
  assert (Hq : (int / 16 ^ 15 / 4) mod 4 = 2).
  { rewrite nibble_split in Hvar.
    pose proof (Z.mod_pos_bound (int / 16 ^ 15) 4).
    pose proof (Z.mod_pos_bound (int / 16 ^ 15 / 4) 4). lia. }
  rewrite Z.div_div in Hq by lia.
  change (16 ^ 15 * 4) with (2 ^ 62) in Hq. change (16 ^ 19) with (2 ^ 76) in Hver.
  assert (Bver : forall i, 0 <= i < 4 -> Z.testbit int (i + 76) = Z.testbit 4 i).
  { intros i Hi. rewrite <- Hver. change 16 with (2 ^ 4).
    symmetry. apply nibble_bit; lia. }
  assert (Bvar : forall i, 0 <= i < 2 -> Z.testbit int (i + 62) = Z.testbit 2 i).
  { intros i Hi. rewrite <- Hq. change 4 with (2 ^ 2).
    rewrite Z.mod_pow2_bits_low by lia.
    rewrite Z.div_pow2_bits by lia. reflexivity. }
  apply Z.bits_inj'. intros n Hn. rewrite forced_bit by assumption.
  assert (V0 : Z.testbit int 76 = false) by (apply (Bver 0); lia).
  assert (V1 : Z.testbit int 77 = false) by (apply (Bver 1); lia).
  assert (V2 : Z.testbit int 78 = true) by (apply (Bver 2); lia).
  assert (V3 : Z.testbit int 79 = false) by (apply (Bver 3); lia).
  assert (R0 : Z.testbit int 62 = false) by (apply (Bvar 0); lia).
  assert (R1 : Z.testbit int 63 = true) by (apply (Bvar 1); lia).
  destruct (Z.eqb_spec 62 n) as [<-|]; [rewrite R0; reflexivity|].
  destruct (Z.eqb_spec 63 n) as [<-|]; [rewrite R1; reflexivity|].
  destruct (Z.eqb_spec 76 n) as [<-|]; [rewrite V0; reflexivity|].
  destruct (Z.eqb_spec 77 n) as [<-|]; [rewrite V1; reflexivity|].
  destruct (Z.eqb_spec 78 n) as [<-|]; [rewrite V2; reflexivity|].
  destruct (Z.eqb_spec 79 n) as [<-|]; [rewrite V3; reflexivity|].
  simpl. now rewrite !andb_true_r, !orb_false_r.
Qed.

End UuidBits.

Section Hex.

Import pyint uuid.

Lemma lower_hex_plain (c : ascii) :
  is_lower_hex c = true -> plain_hex_digit c = true.
Proof.
  destruct c as [[] [] [] [] [] [] [] []]; vm_compute; intros H;
    first [reflexivity | discriminate H].
Qed.

Lemma hexchar_lower (d : Z) :
  0 <= d < 16 -> is_lower_hex (hexchar d) = true /\ digit_value (hexchar d) = d.
Proof.
  intros H.
  assert (d = 0 \/ d = 1 \/ d = 2 \/ d = 3 \/ d = 4 \/ d = 5 \/ d = 6 \/ d = 7 \/
          d = 8 \/ d = 9 \/ d = 10 \/ d = 11 \/ d = 12 \/ d = 13 \/ d = 14 \/ d = 15)
    as E by lia.
  repeat (destruct E as [E|E]; [subst d; split; reflexivity|]).
  subst d; split; reflexivity.
Qed.

Lemma lower_hex_facts (c : ascii) :
  is_lower_hex c = true ->
  0 <= digit_value c < 16 /\ hexchar (digit_value c) = c
  /\ to_ascii_digits_and_space c = c /\ is_space c = false
  /\ Ascii.eqb c "+" = false /\ Ascii.eqb c "-" = false
  /\ Ascii.eqb c "x" = false /\ Ascii.eqb c "X" = false
  /\ Ascii.eqb c "_" = false /\ Ascii.eqb "u" c = false
  /\ existsb (Ascii.eqb c) ["{"; "}"]%char = false.
Proof.
  intros H. apply lower_hex_plain in H. unfold plain_hex_digit in H.
  repeat match type of H with
         | (_ && _) = true => apply andb_true_iff in H; destruct H as [H ?]
         end.
  repeat match goal with
         | E : negb _ = true |- _ => apply negb_true_iff in E
         | E : Ascii.eqb _ _ = true |- _ => apply Ascii.eqb_eq in E
         | E : (_ <=? _) = true |- _ => apply Z.leb_le in E
         | E : (_ <? _) = true |- _ => apply Z.ltb_lt in E
         end.
  repeat split; assumption.
Qed.

Lemma scan_hex (s : chars) :
  forallb is_lower_hex s = true ->
  forall acc n,
    scan_digits 16 false acc n s = Some (hexvalue_from acc s, (n + List.length s)%nat, []).
Proof.
  induction s as [|c t IH]; intros Hs acc n; simpl.
  - now rewrite Nat.add_0_r.
  - simpl in Hs. apply andb_true_iff in Hs. destruct Hs as [Hc Ht].
    destruct (lower_hex_facts c Hc) as (Hr & _ & _ & _ & _ & _ & _ & _ & Hus & _).
    rewrite Hus. destruct (Z.ltb_spec (digit_value c) 16); [|lia].
    rewrite (IH Ht). now rewrite Nat.add_succ_r.
Qed.

Lemma map_to_ascii_hex (s : chars) :
  forallb is_lower_hex s = true -> map to_ascii_digits_and_space s = s.
Proof.
  induction s as [|c t IH]; simpl; auto.
  intros Hs. apply andb_true_iff in Hs. destruct Hs as [Hc Ht].
  destruct (lower_hex_facts c Hc) as (_ & _ & Ha & _). now rewrite Ha, IH.
Qed.

Lemma skip_prefix16_hex (s : chars) :
  forallb is_lower_hex s = true -> skip_prefix16 s = s.
Proof.
  destruct s as [|c [|x t]]; simpl; auto.
  intros Hs. apply andb_true_iff in Hs. destruct Hs as [_ Hs].
  apply andb_true_iff in Hs. destruct Hs as [Hx _].
  destruct (lower_hex_facts x Hx) as (_ & _ & _ & _ & _ & _ & Hx1 & Hx2 & _).
  rewrite Hx1, Hx2. now rewrite andb_false_r.
Qed.

Lemma int16_hex (s : chars) :
  s <> [] -> forallb is_lower_hex s = true -> int16 s = Some (hexvalue s).
Proof.
  intros Hne Hs. unfold int16.
  rewrite (map_to_ascii_hex s Hs).
  destruct s as [|c t]; [contradiction|].
  pose proof Hs as Hall.
  simpl in Hs. apply andb_true_iff in Hs. destruct Hs as [Hc Ht].
  destruct (lower_hex_facts c Hc)
    as (_ & _ & _ & Hsp & Hplus & Hminus & _ & _ & Hus & _).
  assert (Hsk : skip_spaces (c :: t) = c :: t) by (simpl; now rewrite Hsp).
  rewrite Hsk. unfold skip_sign. rewrite Hplus, Hminus.
  rewrite (skip_prefix16_hex _ Hall). simpl starts_with_underscore. rewrite Hus.
  rewrite (scan_hex _ Hall). cbv zeta iota beta. simpl skip_spaces. cbv iota.
  change (0 + Datatypes.length (c :: t))%nat with (S (Datatypes.length t)).
  cbv iota. unfold hexvalue. f_equal. lia.
Qed.

End Hex.

Section HexPad.

Import pyint uuid.

Lemma hexpad_acc (w : nat) : forall n acc, hexpad w n acc = hexpad w n [] ++ acc.
Proof.
  induction w as [|w IH]; intros n acc; simpl; auto.
  rewrite (IH (n / 16) (_ :: acc)), (IH (n / 16) [_]).
  now rewrite <- app_assoc.
Qed.

Lemma hexpad_S (w : nat) (n : Z) :
  hexpad (S w) n [] = hexpad w (n / 16) [] ++ [hexchar (n mod 16)].
Proof. simpl. apply hexpad_acc. Qed.

Lemma hexpad_length (w : nat) : forall n, List.length (hexpad w n []) = w.
Proof.
  induction w as [|w IH]; intros n; auto.
  rewrite hexpad_S, length_app, IH. simpl. lia.
Qed.

Lemma hexpad_lower (w : nat) : forall n, forallb is_lower_hex (hexpad w n []) = true.
Proof.
  induction w as [|w IH]; intros n; auto.
  rewrite hexpad_S, forallb_app, IH. simpl.
  destruct (hexchar_lower (n mod 16)) as [H _].
  - apply Z.mod_pos_bound. lia.
  - now rewrite H.
Qed.

(** The digit at place [i] from the left is the digit of weight
    [16 ^ (w - 1 - i)]. *)
Lemma hexpad_nth (w : nat) : forall n i d,
  (i < w)%nat ->
  nth i (hexpad w n []) d = hexchar ((n / 16 ^ Z.of_nat (w - 1 - i)) mod 16).
Proof.
  induction w as [|w IH]; intros n i d Hi; [lia|].
  rewrite hexpad_S.
  destruct (Nat.eq_dec i w) as [->|Hne].
  - pose proof (nth_middle (hexpad w (n / 16) []) [] (hexchar (n mod 16)) d) as H.
    rewrite hexpad_length in H. rewrite H.
    replace (S w - 1 - w)%nat with O by lia. simpl. now rewrite Z.div_1_r.
  - rewrite app_nth1 by (rewrite hexpad_length; lia).
    rewrite IH by lia.
    replace (S w - 1 - i)%nat with (S (w - 1 - i)) by lia.
    rewrite Nat2Z.inj_succ, Z.pow_succ_r by lia.
    rewrite Z.div_div by lia. reflexivity.
Qed.

Lemma hexvalue_snoc (acc : Z) (s : chars) (c : ascii) :
  hexvalue_from acc (s ++ [c]) = hexvalue_from acc s * 16 + digit_value c.
Proof. unfold hexvalue_from. now rewrite fold_left_app. Qed.

Lemma hexvalue_range (s : chars) :
  forallb is_lower_hex s = true ->
  0 <= hexvalue s < 16 ^ Z.of_nat (List.length s).
Proof.
  unfold hexvalue. induction s as [|c s IH] using rev_ind; intros Hs.
  - simpl. lia.
  - rewrite forallb_app in Hs. apply andb_true_iff in Hs. destruct Hs as [Hs Hc].
    simpl in Hc. rewrite andb_true_r in Hc.
    destruct (lower_hex_facts c Hc) as (Hr & _).
    specialize (IH Hs).
    rewrite hexvalue_snoc, length_app. simpl List.length.
    rewrite Nat2Z.inj_add, Z.pow_add_r by lia.
    change (16 ^ Z.of_nat 1) with 16. nia.
Qed.

(** Formatting the value of a run of lower-case digits gives the run back. *)
Lemma hexpad_hexvalue (s : chars) :
  forallb is_lower_hex s = true ->
  hexpad (List.length s) (hexvalue s) [] = s.
Proof.
  unfold hexvalue. induction s as [|c s IH] using rev_ind; intros Hs; auto.
  rewrite forallb_app in Hs. apply andb_true_iff in Hs. destruct Hs as [Hs Hc].
  simpl in Hc. rewrite andb_true_r in Hc.
  destruct (lower_hex_facts c Hc) as (Hr & Hh & _).
  rewrite hexvalue_snoc, length_app. simpl List.length.
  rewrite Nat.add_1_r, hexpad_S.
  replace ((hexvalue_from 0 s * 16 + digit_value c) / 16) with (hexvalue_from 0 s)
    by (apply Z.div_unique with (r := digit_value c); lia).
  replace ((hexvalue_from 0 s * 16 + digit_value c) mod 16) with (digit_value c)
    by (apply Z.mod_unique with (q := hexvalue_from 0 s); lia).
  now rewrite IH, Hh.
Qed.

End HexPad.

Section Canonical.

Import pyint uuid.

Local Arguments Ascii.eqb : simpl never.
Local Arguments is_lower_hex : simpl never.
Local Arguments is_variant : simpl never.
Local Arguments no_dash : simpl never.

Lemma variant_lower (c : ascii) : is_variant c = true -> is_lower_hex c = true.
Proof.
  unfold is_variant. intros H.
  repeat (apply orb_true_iff in H; destruct H as [H|H]);
    apply Ascii.eqb_eq in H; subst; reflexivity.
Qed.

Lemma pat_ok_char (q : uuid_pat) (c : ascii) :
  pat_ok q c = true -> is_lower_hex c = true \/ c = "-"%char.
Proof.
  destruct q; simpl; intros H.
  - now left.
  - right. now apply Ascii.eqb_eq.
  - left. apply Ascii.eqb_eq in H. subst. reflexivity.
  - left. now apply variant_lower.
Qed.

Lemma matches_chars (p : list uuid_pat) : forall s,
  matches p s = true ->
  forall c, In c s -> is_lower_hex c = true \/ c = "-"%char.
Proof.
  induction p as [|q p IH]; intros [|x s] H c Hin; simpl in *;
    try discriminate; try contradiction.
  apply andb_true_iff in H. destruct H as [Hq Hp].
  destruct Hin as [<-|Hin]; [now apply pat_ok_char with q | eauto].
Qed.

Lemma replace_dash (s : chars) : replace ["-"%char] [] s = filter no_dash s.
Proof.
  unfold replace, no_dash. induction s as [|c t IH]; simpl; auto.
  rewrite andb_true_r. destruct (Ascii.eqb "-" c); simpl; now rewrite IH.
Qed.

Lemma filter_hex (c : ascii) (t : chars) :
  is_lower_hex c = true -> filter no_dash (c :: t) = c :: filter no_dash t.
Proof.
  intros H. destruct (lower_hex_facts c H) as (_ & _ & _ & _ & _ & Hm & _).
  simpl. unfold no_dash at 1. rewrite Ascii.eqb_sym, Hm. reflexivity.
Qed.

Lemma filter_dash (t : chars) : filter no_dash ("-"%char :: t) = filter no_dash t.
Proof. reflexivity. Qed.

(** A text of the canonical form is the grouping of its 32 digits. *)
Lemma canonical_split (s : chars) :
  matches uuid4_pattern s = true ->
  s = dashed (filter no_dash s)
  /\ List.length (filter no_dash s) = 32%nat
  /\ forallb is_lower_hex (filter no_dash s) = true
  /\ nth 12 (filter no_dash s) "0"%char = "4"%char
  /\ is_variant (nth 16 (filter no_dash s) "0"%char) = true.
Proof.
  intros H. unfold uuid4_pattern in H. simpl in H.
  do 36 (destruct s as [|? s]; [discriminate H|]; simpl in H;
         apply andb_true_iff in H; destruct H as [? H]).
  destruct s; [|discriminate H]. clear H.
  repeat match goal with
         | E : Ascii.eqb _ _ = true |- _ => apply Ascii.eqb_eq in E; subst
         end.
  match goal with
  | E : Ascii.eqb ?v _ || _ || _ || _ = true |- _ =>
      change (is_variant v = true) in E; pose proof (variant_lower _ E)
  end.
  repeat first [ rewrite filter_dash
               | rewrite filter_hex by first [assumption | reflexivity] ].
  simpl filter.
  repeat split; try reflexivity; try assumption.
  simpl. repeat (apply andb_true_iff; split); first [assumption | reflexivity].
Qed.

Lemma matches_dashed (h : chars) :
  List.length h = 32%nat ->
  forallb is_lower_hex h = true ->
  nth 12 h "0"%char = "4"%char ->
  is_variant (nth 16 h "0"%char) = true ->
  matches uuid4_pattern (dashed h) = true.
Proof.
  intros Hlen Hall Hver Hvar.
  do 32 (destruct h as [|? h]; [discriminate Hlen|]).
  destruct h; [|discriminate Hlen]. clear Hlen.
  simpl in Hver, Hvar, Hall. subst.
  repeat (apply andb_true_iff in Hall; destruct Hall as [? Hall]).
  unfold uuid4_pattern, dashed. simpl.
  repeat (apply andb_true_iff; split); first [assumption | reflexivity].
Qed.

End Canonical.

Section Validator.

Import pyint uuid.

Local Arguments Ascii.eqb : simpl never.

Lemma uuid_str_dashed (int : Z) : uuid.str int = dashed (hexpad 32 int []).
Proof. reflexivity. Qed.

Lemma hexchar_inj_digit (d : Z) (c : ascii) :
  0 <= d < 16 -> hexchar d = c -> d = digit_value c.
Proof.
  intros Hd <-. destruct (hexchar_lower d Hd) as [_ H]. now rewrite H.
Qed.

Lemma valid_of_canonical (cs : chars) :
  matches uuid4_pattern cs = true -> is_valid_uuid_chars cs 4 = true.
Proof.
  intros H.
  destruct (canonical_split cs H) as (Hs & Hlen & Hall & Hver & Hvar).
  pose proof (matches_chars _ _ H) as Hch.
  set (h := filter no_dash cs) in *.
  assert (Hu : forallb (fun c => negb (Ascii.eqb "u" c)) cs = true).
  { apply forallb_forall. intros c Hc. destruct (Hch c Hc) as [Hl| ->].
    - destruct (lower_hex_facts c Hl) as (_ & _ & _ & _ & _ & _ & _ & _ & _ & E & _).
      now rewrite E.
    - reflexivity. }
  assert (Hb : forallb (fun c => negb (existsb (Ascii.eqb c) ["{"; "}"]%char)) cs = true).
  { apply forallb_forall. intros c Hc. destruct (Hch c Hc) as [Hl| ->].
    - destruct (lower_hex_facts c Hl) as (_ & _ & _ & _ & _ & _ & _ & _ & _ & _ & E).
      now rewrite E.
    - reflexivity. }
  assert (Hne : h <> []) by (intros E; rewrite E in Hlen; discriminate).
  pose proof (hexvalue_range h Hall) as Hrange. rewrite Hlen in Hrange.
  pose proof (hexpad_hexvalue h Hall) as Hpad. rewrite Hlen in Hpad.
  set (v := hexvalue h) in *.
  assert (Hv12 : (v / 16 ^ 19) mod 16 = 4).
  { pose proof (hexpad_nth 32 v 12 "0"%char ltac:(lia)) as E.
    rewrite Hpad, Hver in E. symmetry in E.
    apply hexchar_inj_digit in E; [exact E|].
    apply Z.mod_pos_bound. lia. }
  assert (Hv16 : 8 <= (v / 16 ^ 15) mod 16 < 12).
  { pose proof (hexpad_nth 32 v 16 "0"%char ltac:(lia)) as E.
    symmetry in E. rewrite Hpad in E.
    apply hexchar_inj_digit in E; [|apply Z.mod_pos_bound; lia].
    change (Z.of_nat (32 - 1 - 16)) with 15 in E. rewrite E.
    unfold is_variant in Hvar.
    repeat (apply orb_true_iff in Hvar; destruct Hvar as [Hvar|Hvar]);
      apply Ascii.eqb_eq in Hvar; rewrite Hvar; vm_compute; split; congruence. }
  unfold is_valid_uuid_chars, UUID.
  rewrite (replace_absent _ _ _ _ Hu), (replace_absent _ _ _ _ Hu).
  rewrite (strip_keeps _ _ Hb), replace_dash.
  fold h. rewrite Hlen, (int16_hex h Hne Hall). fold v.
  change (Z.shiftl 1 128) with (16 ^ Z.of_nat 32).
  destruct (Z.leb_spec 0 v); [|lia].
  destruct (Z.ltb_spec v (16 ^ Z.of_nat 32)); [|lia].
  cbn [Nat.eqb negb andb Z.leb Z.compare Pos.compare Pos.compare_cont].
  change (Z.lor _ (Z.shiftl 4 76)) with (forced 4 v).
  rewrite (forced_fixpoint v Hv12 Hv16).
  rewrite uuid_str_dashed, Hpad, <- Hs.
  now apply chars_eqb_eq.
Qed.

Lemma canonical_of_valid (cs : chars) :
  is_valid_uuid_chars cs 4 = true -> matches uuid4_pattern cs = true.
Proof.
  unfold is_valid_uuid_chars, UUID. intros H.
  destruct (negb (Nat.eqb _ 32)); [discriminate|].
  destruct (int16 _) as [int|]; [|discriminate].
  destruct (negb ((0 <=? int) && _)); [discriminate|].
  cbn [negb andb Z.leb Z.compare Pos.compare Pos.compare_cont] in H.
  change (Z.lor _ (Z.shiftl 4 76)) with (forced 4 int) in H.
  apply chars_eqb_eq in H. rewrite <- H, uuid_str_dashed.
  apply matches_dashed.
  - apply hexpad_length.
  - apply hexpad_lower.
  - rewrite hexpad_nth by lia.
    change (Z.of_nat (32 - 1 - 12)) with 19. now rewrite forced_version.
  - rewrite hexpad_nth by lia.
    change (Z.of_nat (32 - 1 - 16)) with 15.
    pose proof (forced_variant_range int) as R.
    set (d := (forced 4 int / 16 ^ 15) mod 16) in *.
    assert (d = 8 \/ d = 9 \/ d = 10 \/ d = 11) as [-> | [-> | [-> | ->]]] by lia;
      reflexivity.
Qed.

(** C6. For every text, [is_valid_uuid] returns a boolean (it is a total
    function: the only exception the constructor raises on a text is the
    [ValueError] it catches), and the boolean is [true] exactly when the
    text has the canonical form of a version 4 identifier,
    [xxxxxxxx-xxxx-4xxx-yxxx-xxxxxxxxxxxx] in lower-case hexadecimal digits
    with [y] among 8, 9, a, b. *)
Theorem is_valid_uuid_canonical (s : string) :
  is_valid_uuid s = is_canonical_uuid4 s.
Proof.
  unfold is_valid_uuid, is_canonical_uuid4.
  destruct (matches uuid4_pattern (list_ascii_of_string s)) eqn:E.
  - now apply valid_of_canonical.
  - destruct (is_valid_uuid_chars (list_ascii_of_string s) 4) eqn:V; auto.
    apply canonical_of_valid in V. congruence.
Qed.

End Validator.

(** ** Prices *)

Section Prices.

Import decimal.

Lemma round_digit (m k : Z) :
  0 <= m -> 0 < k ->
  (if 5 <=? (m / 10 ^ (k - 1)) mod 10 then m / 10 ^ k + 1 else m / 10 ^ k)
  = (2 * m + 10 ^ k) / (2 * 10 ^ k).
Proof.
  intros Hm Hk.
  assert (Ek : 10 ^ k = 10 * 10 ^ (k - 1)).
  { rewrite <- Z.pow_succ_r by lia. f_equal. lia. }
  rewrite Ek. clear Ek.
  set (P := 10 ^ (k - 1)).
  assert (HP : 0 < P) by (apply Z.pow_pos_nonneg; lia).
  rewrite (Z.mul_comm 10 P), <- Z.div_div by lia.
  pose proof (Z.div_mod m P ltac:(lia)) as E1.
  pose proof (Z.mod_pos_bound m P HP) as B1.
  set (a := m / P) in *. set (b := m mod P) in *.
  pose proof (Z.div_mod a 10 ltac:(lia)) as E2.
  pose proof (Z.mod_pos_bound a 10 ltac:(lia)) as B2.
  set (q := a / 10) in *. set (nx := a mod 10) in *.
  destruct (Z.leb_spec 5 nx).
  - apply Z.div_unique with (r := 2 * m + P * 10 - 2 * (P * 10) * (q + 1)); nia.
  - apply Z.div_unique with (r := 2 * m + P * 10 - 2 * (P * 10) * q); nia.
Qed.

(** The rounding of the column is rounding half up. *)
Lemma round_var_half_up (d : Decimal) : round_var d 2 = half_up_hundredths d.
Proof.
  unfold round_var, half_up_hundredths.
  destruct (0 <=? exponent d + 2) eqn:E; auto.
  apply Z.leb_gt in E. f_equal.
  apply round_digit; lia.
Qed.





End Prices.

(** ** The number a price text denotes *)

Section PriceText.

Import decimal.










End PriceText.

(** ** The stored state *)

Section Tables.

Import storage.

Context {R : Type} (col : R -> string).

Lemma has_true (v : string) (rows : list R) :
  has col v rows = true <-> exists r, In r rows /\ col r = v.
Proof.
  unfold has. rewrite existsb_exists.
  split; intros (r & Hin & H); exists r; split; auto; now apply String.eqb_eq.
Qed.

Lemma has_false (v : string) (rows : list R) :
  has col v rows = false <-> forall r, In r rows -> col r <> v.
Proof.
  split.
  - intros H r Hin E.
    assert (has col v rows = true) by (apply has_true; eauto). congruence.
  - intros H. destruct (has col v rows) eqn:E; auto.
    apply has_true in E. destruct E as (r & Hin & E). now apply H in Hin.
Qed.

Lemma has_in_map (v : string) (rows : list R) :
  has col v rows = true <-> In v (map col rows).
Proof.
  rewrite has_true, in_map_iff.
  split; intros (r & A & B); exists r; auto.
Qed.

Lemma in_without (pk : string) (rows : list R) (r : R) :
  In r (without col pk rows) <-> In r rows /\ col r <> pk.
Proof.
  unfold without. rewrite filter_In, negb_true_iff, String.eqb_neq. reflexivity.
Qed.

Lemma in_set_row (pk : string) (new : R) (rows : list R) (r : R) :
  In r (set_row col pk new rows) ->
  (r = new /\ has col pk rows = true) \/ (In r rows /\ col r <> pk).
Proof.
  unfold set_row. rewrite in_map_iff. intros (x & E & Hin).
  destruct (String.eqb_spec (col x) pk).
  - left. split; [now subst|]. apply has_true. eauto.
  - right. subst. auto.
Qed.

Lemma set_row_in (pk : string) (new : R) (rows : list R) (x : R) :
  In x rows ->
  In (if String.eqb (col x) pk then new else x) (set_row col pk new rows).
Proof.
  intros H. unfold set_row. apply in_map_iff. exists x. auto.
Qed.

Lemma NoDup_map_filter (p : R -> bool) (rows : list R) :
  NoDup (map col rows) -> NoDup (map col (filter p rows)).
Proof.
  induction rows as [|r rows IH]; simpl; intros H; [constructor|].
  inversion H as [|? ? Hn Hd]; subst.
  destruct (p r); simpl; auto.
  constructor; auto.
  rewrite in_map_iff in *. intros (x & E & Hin). apply Hn.
  exists x. split; auto. apply filter_In in Hin. tauto.
Qed.

Lemma NoDup_map_snoc (rows : list R) (r : R) :
  NoDup (map col rows) -> has col (col r) rows = false ->
  NoDup (map col (rows ++ [r])).
Proof.
  intros Hd Hn. rewrite map_app. simpl.
  apply NoDup_app; auto.
  - repeat constructor. auto.
  - intros x Hin [<-|[]]. apply has_in_map in Hin. congruence.
Qed.

(** An UPDATE keeps a column unique when its new value is not the value of
    another row. *)
Lemma NoDup_set_row (pk : string) (new : R) (rows : list R) :
  NoDup (map col rows) ->
  has col (col new) (without col pk rows) = false ->
  NoDup (map col (set_row col pk new rows)).
Proof.
  intros Hd Hn.
  assert (Hn' : forall x, In x rows -> col x <> pk -> col x <> col new).
  { intros x Hx Hne. rewrite has_false in Hn. apply Hn. now apply in_without. }
  clear Hn.
  induction rows as [|r rows IH]; [constructor|].
  inversion Hd as [|? ? Hnin Hd']; subst.
  change (NoDup (col (if String.eqb (col r) pk then new else r)
                 :: map col (set_row col pk new rows))).
  constructor.
  - rewrite in_map_iff. intros (x & E & Hx).
    apply in_set_row in Hx.
    destruct (String.eqb_spec (col r) pk) as [Er|Er];
      destruct Hx as [[-> Hhas]|[Hx Hne]].
    + apply has_true in Hhas. destruct Hhas as (y & Hy & Ey).
      apply Hnin. apply in_map_iff. exists y. split; [congruence | assumption].
    + apply (Hn' x); [now right | assumption | assumption].
    + apply (Hn' r); [now left | assumption | congruence].
    + apply Hnin. apply in_map_iff. eauto.
  - apply IH; auto. intros x Hx. apply Hn'. now right.
Qed.

End Tables.

Section WellFormed.

Import storage.

Lemma nodupb_NoDup (l : list string) : nodupb l = true <-> NoDup l.
Proof.
  induction l as [|x l IH]; simpl.
  - split; [constructor | reflexivity].
  - rewrite andb_true_iff, negb_true_iff, IH. split.
    + intros [Hn Hd]. constructor; auto. intros Hin.
      assert (existsb (String.eqb x) l = true); [|congruence].
      apply existsb_exists. exists x. split; auto. apply String.eqb_refl.
    + intros H. inversion H as [|? ? Hn Hd]; subst. split; auto.
      destruct (existsb (String.eqb x) l) eqn:E; auto.
      apply existsb_exists in E. destruct E as (y & Hy & E).
      apply String.eqb_eq in E. subst. contradiction.
Qed.

Lemma well_formed_iff (db : Store) :
  well_formed db <->
  NoDup (map Menu.id (menus db))
  /\ NoDup (map SubMenu.id (submenus db))
  /\ NoDup (map Dish.id (dishes db))
  /\ (forall s, In s (submenus db) ->
        has Menu.id (SubMenu.menu_id s) (menus db) = true)
  /\ (forall d, In d (dishes db) ->
        has SubMenu.id (Dish.submenu_id d) (submenus db) = true).
Proof.
  unfold well_formed, keys_and_references.
  rewrite !andb_true_iff, !nodupb_NoDup, !forallb_forall. tauto.
Qed.

Lemma has_snoc {R} (col : R -> string) (v : string) (rows : list R) (r : R) :
  has col v rows = true -> has col v (rows ++ [r]) = true.
Proof.
  rewrite !has_true. intros (x & Hin & E). exists x. split; auto.
  apply in_or_app. auto.
Qed.

Lemma has_snoc_new {R} (col : R -> string) (rows : list R) (r : R) :
  has col (col r) (rows ++ [r]) = true.
Proof. apply has_true. exists r. split; auto. apply in_or_app. simpl. auto. Qed.

Ltac unpack H :=
  apply well_formed_iff in H;
  destruct H as (?Hm & ?Hs & ?Hd & ?Hsp & ?Hdp).

Lemma insert_menu_wf (m : Menu.t) (db db' : Store) :
  well_formed db -> insert_menu m db = inr db' -> well_formed db'.
Proof.
  intros W E. unpack W. unfold insert_menu in E.
  destruct (has Menu.id (Menu.id m) (menus db)) eqn:E1; [discriminate|].
  destruct (has Menu.title _ _); [discriminate|].
  inversion E; subst; clear E. apply well_formed_iff; simpl.
  repeat split; auto.
  - now apply NoDup_map_snoc.
  - intros s Hin. apply has_snoc. auto.
Qed.

Lemma insert_submenu_wf (s : SubMenu.t) (db db' : Store) :
  well_formed db -> insert_submenu s db = inr db' -> well_formed db'.
Proof.
  intros W E. unpack W. unfold insert_submenu in E.
  destruct (has SubMenu.id (SubMenu.id s) (submenus db)) eqn:E1; [discriminate|].
  destruct (has SubMenu.title _ _); [discriminate|].
  destruct (has Menu.id (SubMenu.menu_id s) (menus db)) eqn:E2; [|discriminate].
  inversion E; subst; clear E. apply well_formed_iff; simpl.
  repeat split; auto.
  - now apply NoDup_map_snoc.
  - intros x Hin. apply in_app_or in Hin. destruct Hin as [Hin|[<-|[]]]; auto.
  - intros d Hin. apply has_snoc. auto.
Qed.

Lemma insert_dish_wf (d : Dish.t) (db db' : Store) :
  well_formed db -> insert_dish d db = inr db' -> well_formed db'.
Proof.
  intros W E. unpack W. unfold insert_dish in E.
  destruct (decimal.apply_typmod 10 2 (Dish.price d)) as [p|]; [|discriminate].
  destruct (has Dish.id (Dish.id d) (dishes db)) eqn:E1; [discriminate|].
  destruct (has Dish.title _ _); [discriminate|].
  destruct (has SubMenu.id (Dish.submenu_id d) (submenus db)) eqn:E2; [|discriminate].
  inversion E; subst; clear E. apply well_formed_iff; simpl.
  repeat split; auto.
  - now apply NoDup_map_snoc.
  - intros x Hin. apply in_app_or in Hin. destruct Hin as [Hin|[<-|[]]]; auto.
Qed.

Lemma update_menu_wf (pk : string) (m : Menu.t) (db db' : Store) :
  well_formed db -> storage.update_menu pk m db = inr db' -> well_formed db'.
Proof.
  intros W E. unpack W. unfold storage.update_menu in E.
  destruct (has Menu.id (Menu.id m) (without Menu.id pk (menus db))) eqn:E1;
    [discriminate|].
  destruct (has Menu.title _ _); [discriminate|].
  destruct (negb (String.eqb (Menu.id m) pk) && has SubMenu.menu_id pk (submenus db))
    eqn:E2; [discriminate|].
  inversion E; subst; clear E. apply well_formed_iff; simpl.
  repeat split; auto.
  - now apply NoDup_set_row.
  - intros s Hin. specialize (Hsp s Hin).
    apply has_true in Hsp. destruct Hsp as (p & Hp & Ep).
    apply has_true.
    pose proof (set_row_in Menu.id pk m (menus db) p Hp) as Hrow.
    destruct (String.eqb_spec (Menu.id p) pk) as [Epk|Epk].
    + exists m. split; auto.
      apply andb_false_iff in E2. destruct E2 as [E2|E2].
      * apply negb_false_iff, String.eqb_eq in E2. congruence.
      * assert (has SubMenu.menu_id pk (submenus db) = true)
          by (apply has_true; exists s; split; congruence).
        congruence.
    + exists p. auto.
Qed.

Lemma update_submenu_wf (pk : string) (s : SubMenu.t) (db db' : Store) :
  well_formed db ->
  has Menu.id (SubMenu.menu_id s) (menus db) = true ->
  storage.update_submenu pk s db = inr db' -> well_formed db'.
Proof.
  intros W Hpar E. unpack W. unfold storage.update_submenu in E.
  destruct (has SubMenu.id (SubMenu.id s) (without SubMenu.id pk (submenus db)))
    eqn:E1; [discriminate|].
  destruct (has SubMenu.title _ _); [discriminate|].
  destruct (negb (String.eqb (SubMenu.id s) pk) && has Dish.submenu_id pk (dishes db))
    eqn:E2; [discriminate|].
  inversion E; subst; clear E. apply well_formed_iff; simpl.
  repeat split; auto.
  - now apply NoDup_set_row.
  - intros x Hin. apply in_set_row in Hin.
    destruct Hin as [[-> _]|[Hin _]]; auto.
  - intros d Hin. specialize (Hdp d Hin).
    apply has_true in Hdp. destruct Hdp as (p & Hp & Ep).
    apply has_true.
    pose proof (set_row_in SubMenu.id pk s (submenus db) p Hp) as Hrow.
    destruct (String.eqb_spec (SubMenu.id p) pk) as [Epk|Epk].
    + exists s. split; auto.
      apply andb_false_iff in E2. destruct E2 as [E2|E2].
      * apply negb_false_iff, String.eqb_eq in E2. congruence.
      * assert (has Dish.submenu_id pk (dishes db) = true)
          by (apply has_true; exists d; split; congruence).
        congruence.
    + exists p. auto.
Qed.

Lemma update_dish_wf (pk : string) (d : Dish.t) (db db' : Store) :
  well_formed db ->
  has SubMenu.id (Dish.submenu_id d) (submenus db) = true ->
  storage.update_dish pk d db = inr db' -> well_formed db'.
Proof.
  intros W Hpar E. unpack W. unfold storage.update_dish in E.
  destruct (decimal.apply_typmod 10 2 (Dish.price d)) as [p|]; [|discriminate].
  destruct (has Dish.id (Dish.id d) (without Dish.id pk (dishes db))) eqn:E1;
    [discriminate|].
  destruct (has Dish.title _ _); [discriminate|].
  inversion E; subst; clear E. apply well_formed_iff; simpl.
  repeat split; auto.
  - now apply (NoDup_set_row Dish.id pk (with_price d p)).
  - intros x Hin. apply in_set_row in Hin.
    destruct Hin as [[-> _]|[Hin _]]; auto.
Qed.

Lemma delete_menu_wf (pk : string) (db db' : Store) :
  well_formed db -> storage.delete_menu pk db = inr db' -> well_formed db'.
Proof.
  intros W E. unpack W. unfold storage.delete_menu in E.
  inversion E; subst; clear E. apply well_formed_iff; simpl.
  repeat split; try (now apply NoDup_map_filter).
  - intros s Hin. apply in_without in Hin. destruct Hin as [Hin Hne].
    specialize (Hsp s Hin). apply has_true in Hsp. destruct Hsp as (p & Hp & Ep).
    apply has_true. exists p. split; auto. apply in_without. split; congruence.
  - intros d Hin. apply filter_In in Hin. destruct Hin as [Hin Hgone].
    apply negb_true_iff in Hgone.
    specialize (Hdp d Hin). apply has_true in Hdp. destruct Hdp as (p & Hp & Ep).
    apply has_true. exists p. split; auto. apply in_without. split; auto.
    intros Epk. rewrite has_false in Hgone. apply (Hgone p); auto.
    apply filter_In. split; auto. now apply String.eqb_eq.
Qed.

Lemma delete_submenu_wf (pk : string) (db db' : Store) :
  well_formed db -> storage.delete_submenu pk db = inr db' -> well_formed db'.
Proof.
  intros W E. unpack W. unfold storage.delete_submenu in E.
  inversion E; subst; clear E. apply well_formed_iff; simpl.
  repeat split; auto; try (now apply NoDup_map_filter).
  - intros s Hin. apply in_without in Hin. destruct Hin as [Hin _]. auto.
  - intros d Hin. apply in_without in Hin. destruct Hin as [Hin Hne].
    specialize (Hdp d Hin). apply has_true in Hdp. destruct Hdp as (p & Hp & Ep).
    apply has_true. exists p. split; auto. apply in_without. split; congruence.
Qed.

Lemma delete_dish_wf (pk : string) (db db' : Store) :
  well_formed db -> storage.delete_dish pk db = inr db' -> well_formed db'.
Proof.
  intros W E. unpack W. unfold storage.delete_dish in E.
  inversion E; subst; clear E. apply well_formed_iff; simpl.
  repeat split; auto; try (now apply NoDup_map_filter).
  intros d Hin. apply in_without in Hin. destruct Hin as [Hin _]. auto.
Qed.

End WellFormed.

(** ** What a successful request did to the store *)

Ltac unfold_monad :=
  repeat progress
    (unfold bind, commit, query, ret, raise, crud.raise_if_not_exist, mapped,
       try_except, setattrs_on in *);
  cbn beta iota in *.

Ltac split_match H :=
  repeat match type of H with
         | context [match ?x with _ => _ end] =>
             match x with
             | context [match _ with _ => _ end] => fail 1
             | _ => destruct x eqn:?; try discriminate H
             end
         end.

Section Requests.

Lemma session_get_some {R} (col : R -> string) (pk : string) (rows : list R) (r : R) :
  session_get col pk rows = Some r -> In r rows /\ col r = pk.
Proof.
  unfold session_get. intros H. apply find_some in H.
  destruct H as [Hin E]. now apply String.eqb_eq in E.
Qed.

Lemma session_get_none {R} (col : R -> string) (pk : string) (rows : list R) :
  session_get col pk rows = None <-> storage.has col pk rows = false.
Proof.
  unfold session_get. split.
  - intros H. apply has_false. intros r Hin E.
    apply (find_none _ _ H) in Hin. apply String.eqb_neq in Hin. contradiction.
  - intros H. destruct (find _ rows) eqn:E; auto.
    apply find_some in E. destruct E as [Hin E]. apply String.eqb_eq in E.
    rewrite has_false in H. now apply H in Hin.
Qed.

Lemma create_menu_inv db menu uuid4 r db' :
  routers.create_menu db menu uuid4 = Return r db' ->
  exists row, storage.insert_menu row db = inr db'.
Proof.
  unfold routers.create_menu, crud.create_menu. unfold_monad. intros H.
  split_match H. inversion H; subst. eauto.
Qed.

Lemma create_submenu_inv db menu_id submenu uuid4 r db' :
  routers.create_submenu db menu_id submenu uuid4 = Return r db' ->
  exists row, storage.insert_submenu row db = inr db'.
Proof.
  unfold routers.create_submenu, crud.check_menu_by_id, crud.create_submenu.
  unfold_monad. intros H.
  destruct (is_valid_uuid menu_id); [|discriminate].
  split_match H. inversion H; subst. eauto.
Qed.

Lemma setattrs_menu_dump (old : Menu.t) (p : schemas.MenuBase.t) :
  setattrs setattr_menu old (schemas.MenuBase.model_dump p)
  = {| Menu.id := match schemas.MenuBase.id p with Some v => v | None => Menu.id old end;
       Menu.title := schemas.MenuBase.title p;
       Menu.description := schemas.MenuBase.description p |}.
Proof. unfold schemas.MenuBase.model_dump. destruct (schemas.MenuBase.id p); reflexivity. Qed.

Lemma setattrs_submenu_dump (old : SubMenu.t) (p : schemas.MenuBase.t) :
  setattrs setattr_submenu old (schemas.MenuBase.model_dump p)
  = {| SubMenu.id := match schemas.MenuBase.id p with
                     | Some v => v | None => SubMenu.id old end;
       SubMenu.title := schemas.MenuBase.title p;
       SubMenu.description := schemas.MenuBase.description p;
       SubMenu.menu_id := SubMenu.menu_id old |}.
Proof. unfold schemas.MenuBase.model_dump. destruct (schemas.MenuBase.id p); reflexivity. Qed.

Lemma setattrs_dish_create (old : Dish.t) (p : schemas.DishCreate.t) :
  setattrs setattr_dish old (schemas.DishCreate.model_dump p)
  = {| Dish.id := match schemas.DishCreate.id p with
                  | Some v => v | None => Dish.id old end;
       Dish.title := schemas.DishCreate.title p;
       Dish.description := schemas.DishCreate.description p;
       Dish.price := schemas.DishCreate.price p;
       Dish.submenu_id := Dish.submenu_id old |}.
Proof. unfold schemas.DishCreate.model_dump. destruct (schemas.DishCreate.id p); reflexivity. Qed.

Lemma setattrs_dish_update (old : Dish.t) (p : schemas.DishUpdate.t) :
  setattrs setattr_dish old (schemas.DishUpdate.model_dump p)
  = {| Dish.id := match schemas.DishUpdate.id p with
                  | Some v => v | None => Dish.id old end;
       Dish.title := schemas.DishUpdate.title p;
       Dish.description := schemas.DishUpdate.description p;
       Dish.price := schemas.DishUpdate.price p;
       Dish.submenu_id := Dish.submenu_id old |}.
Proof. unfold schemas.DishUpdate.model_dump. destruct (schemas.DishUpdate.id p); reflexivity. Qed.

Lemma hd_error_in {A} (l : list A) (x : A) : hd_error l = Some x -> In x l.
Proof. destruct l; simpl; intros H; inversion H; auto. Qed.

Lemma dishes_joined_in db ds submenu_id menu_id x :
  In x (crud.dishes_joined db ds submenu_id menu_id) -> In x ds.
Proof.
  unfold crud.dishes_joined. rewrite in_flat_map. intros (d & Hd & H).
  rewrite in_flat_map in H. destruct H as (s & _ & H).
  rewrite in_flat_map in H. destruct H as (m & _ & H).
  destruct (_ && _); simpl in H; [|contradiction].
  destruct H as [<-|[]]. assumption.
Qed.

Lemma get_dish_by_id_in db submenu_id menu_id dish_id x :
  crud.get_dish_by_id db submenu_id menu_id dish_id = Some x ->
  In x (dishes db) /\ Dish.id x = dish_id.
Proof.
  unfold crud.get_dish_by_id. intros H.
  apply hd_error_in, dishes_joined_in, filter_In in H.
  destruct H as [Hin E]. now apply String.eqb_eq in E.
Qed.

(** The row a successful [create_dish] stores, and what it returns. *)
Lemma create_dish_inv db menu_id submenu_id dish uuid4 r db' :
  routers.create_dish db menu_id submenu_id dish uuid4 = Return r db' ->
  exists row p,
    storage.insert_dish row db = inr db'
    /\ Dish.price row = schemas.DishCreate.price dish
    /\ decimal.apply_typmod 10 2 (Dish.price row) = Some p
    /\ dishes db' = dishes db ++ [storage.with_price row p]
    /\ forall d, r = Some d ->
         d = schemas.Dish.model_validate (storage.with_price row p).
Proof.
  unfold routers.create_dish, crud.check_menu_by_id, crud.check_submenu_by_id,
    crud.create_dish.
  unfold_monad. intros H.
  destruct (is_valid_uuid menu_id); [|discriminate].
  destruct (find _ (menus db)); simpl in H; [|discriminate].
  destruct (is_valid_uuid submenu_id); [|discriminate].
  destruct (find _ (submenus db)); simpl in H; [|discriminate].
  rewrite setattrs_dish_create in H. cbn [Dish.id Dish.title Dish.description
    Dish.price Dish.submenu_id] in H.
  match type of H with
  | context [storage.insert_dish ?x db] => set (row := x) in *
  end.
  destruct (storage.insert_dish row db) as [e|db1] eqn:E.
  - destruct (crud.handled_by_create_dish e); discriminate.
  - inversion H; subst; clear H.
    pose proof E as E'. unfold storage.insert_dish in E'.
    destruct (decimal.apply_typmod 10 2 (Dish.price row)) as [p|] eqn:Ep;
      [|discriminate].
    destruct (storage.has Dish.id (Dish.id row) (dishes db)) eqn:Eid;
      [discriminate|].
    destruct (storage.has Dish.title _ _); [discriminate|].
    destruct (negb _); [discriminate|].
    inversion E'; subst; clear E'. cbn [dishes] in *.
    exists row, p. repeat split; auto.
    intros d Hd.
    destruct (crud.get_dish_by_id _ _ _ _) as [x|] eqn:Ex; [|discriminate].
    simpl in Hd. inversion Hd; subst; clear Hd. f_equal.
    apply get_dish_by_id_in in Ex. cbn [dishes] in Ex. destruct Ex as [Hin Ex].
    apply in_app_or in Hin. destruct Hin as [Hin|[<-|[]]]; auto.
    exfalso. rewrite has_false in Eid. now apply (Eid x).
Qed.

Lemma update_menu_inv db menu_id menu r db' :
  routers.update_menu db menu_id menu = Return r db' ->
  exists old,
    session_get Menu.id menu_id (menus db) = Some old
    /\ storage.update_menu menu_id
         (setattrs setattr_menu old (schemas.MenuBase.model_dump menu)) db = inr db'.
Proof.
  unfold routers.update_menu, crud.update_menu. unfold_monad. intros H.
  destruct (session_get Menu.id menu_id (menus db)) as [old|].
  - destruct (storage.update_menu _ _ db) eqn:E; [discriminate|].
    inversion H; subst. eauto.
  - unfold schemas.MenuBase.model_dump in H.
    destruct (schemas.MenuBase.id menu); discriminate.
Qed.

Lemma update_submenu_inv db menu_id submenu_id submenu r db' :
  routers.update_submenu db menu_id submenu_id submenu = Return r db' ->
  exists old,
    session_get SubMenu.id submenu_id (submenus db) = Some old
    /\ storage.update_submenu submenu_id
         (setattrs setattr_submenu old (schemas.MenuBase.model_dump submenu)) db
       = inr db'.
Proof.
  unfold routers.update_submenu, crud.update_submenu. unfold_monad. intros H.
  destruct (session_get Menu.id menu_id (menus db)); [|discriminate].
  destruct (session_get SubMenu.id submenu_id (submenus db)) as [old|]; [|discriminate].
  destruct (storage.update_submenu _ _ db) eqn:E; [discriminate|].
  inversion H; subst. eauto.
Qed.

(** The row a successful [update_dish] stores, and what it returns. *)
Lemma update_dish_inv db menu_id submenu_id dish_id dish r db' :
  routers.update_dish db menu_id submenu_id dish_id dish = Return r db' ->
  exists old p,
    session_get Dish.id dish_id (dishes db) = Some old
    /\ let new := setattrs setattr_dish old (schemas.DishUpdate.model_dump dish) in
       storage.update_dish dish_id new db = inr db'
       /\ decimal.apply_typmod 10 2 (schemas.DishUpdate.price dish) = Some p
       /\ dishes db' = storage.set_row Dish.id dish_id (storage.with_price new p) (dishes db)
       /\ menus db' = menus db /\ submenus db' = submenus db
       /\ forall d, r = Some d ->
            d = schemas.Dish.model_validate (storage.with_price new p).
Proof.
  unfold routers.update_dish, crud.update_dish. unfold_monad. intros H.
  destruct (session_get Menu.id menu_id (menus db)); [|discriminate].
  destruct (session_get SubMenu.id submenu_id (submenus db)); [|discriminate].
  destruct (session_get Dish.id dish_id (dishes db)) as [old|] eqn:Eold; [|discriminate].
  set (new := setattrs setattr_dish old (schemas.DishUpdate.model_dump dish)) in *.
  destruct (storage.update_dish dish_id new db) as [e|db1] eqn:E; [discriminate|].
  inversion H; subst; clear H.
  pose proof E as E'. unfold storage.update_dish in E'.
  assert (Hprice : Dish.price new = schemas.DishUpdate.price dish)
    by (unfold new; now rewrite setattrs_dish_update).
  rewrite Hprice in E'.
  destruct (decimal.apply_typmod 10 2 _) as [p|] eqn:Ep; [|discriminate].
  destruct (storage.has Dish.id (Dish.id new) _) eqn:Eid; [discriminate|].
  destruct (storage.has Dish.title _ _); [discriminate|].
  inversion E'; subst; clear E'. cbn [dishes menus submenus] in *.
  exists old, p. repeat split; auto.
  intros d Hd.
  destruct (crud.get_dish_by_id _ _ _ _) as [x|] eqn:Ex; [|discriminate].
  simpl in Hd. inversion Hd; subst; clear Hd. f_equal.
  apply get_dish_by_id_in in Ex. cbn [dishes] in Ex. destruct Ex as [Hin Ex].
  apply in_set_row in Hin. destruct Hin as [[-> _]|[Hin Hne]]; auto.
  exfalso. rewrite has_false in Eid. apply (Eid x); auto.
  now apply in_without.
Qed.

Lemma delete_menu_inv db menu_id r db' :
  routers.delete_menu_by_id db menu_id = Return r db' ->
  is_valid_uuid menu_id = true
  /\ storage.has Menu.id menu_id (menus db) = true
  /\ storage.delete_menu menu_id db = inr db'.
Proof.
  unfold routers.delete_menu_by_id, crud.delete_menu_by_id. unfold_monad. intros H.
  destruct (is_valid_uuid menu_id); [|discriminate].
  destruct (session_get Menu.id menu_id (menus db)) as [m|] eqn:Em; [|discriminate].
  apply session_get_some in Em. destruct Em as [Hin Em]. rewrite Em in H.
  simpl in H. inversion H; subst. repeat split; auto.
  apply has_true. eauto.
Qed.

Lemma delete_submenu_inv db menu_id submenu_id r db' :
  routers.delete_submenu_by_id db menu_id submenu_id = Return r db' ->
  storage.delete_submenu submenu_id db = inr db'.
Proof.
  unfold routers.delete_submenu_by_id, crud.delete_submenu_by_id. unfold_monad.
  intros H.
  destruct (is_valid_uuid menu_id && is_valid_uuid submenu_id); [|discriminate].
  destruct (session_get Menu.id menu_id (menus db)); [|discriminate].
  destruct (session_get SubMenu.id submenu_id (submenus db)) as [s|] eqn:Es;
    [|discriminate].
  apply session_get_some in Es. destruct Es as [_ Es]. rewrite Es in H.
  simpl in H. now inversion H.
Qed.

Lemma delete_dish_inv db menu_id submenu_id dish_id r db' :
  routers.delete_dish_by_id db menu_id submenu_id dish_id = Return r db' ->
  storage.delete_dish dish_id db = inr db'.
Proof.
  unfold routers.delete_dish_by_id, crud.delete_dish_by_id. unfold_monad.
  intros H.
  destruct (is_valid_uuid menu_id && is_valid_uuid submenu_id && is_valid_uuid dish_id);
    [|discriminate].
  destruct (session_get Menu.id menu_id (menus db)); [|discriminate].
  destruct (session_get SubMenu.id submenu_id (submenus db)); [|discriminate].
  destruct (session_get Dish.id dish_id (dishes db)) as [d|] eqn:Ed; [|discriminate].
  apply session_get_some in Ed. destruct Ed as [_ Ed]. rewrite Ed in H.
  simpl in H. now inversion H.
Qed.

End Requests.

(** ** No orphan, and the cascade of a deleted menu *)

Section Cascade.

Import storage.

Lemma well_formed_no_orphans (db : Store) : well_formed db -> no_orphans db.
Proof.
  intros W. apply well_formed_iff in W. destruct W as (_ & _ & _ & Hsp & Hdp).
  split.
  - intros s Hin. apply Hsp, has_true in Hin. exact Hin.
  - intros d Hin. apply Hdp, has_true in Hin. exact Hin.
Qed.

(** Every request that succeeds keeps the keys unique and the references
    whole. *)
Lemma after_well_formed (db : Store) (r : request) (db' : Store) :
  well_formed db -> after db r = Some db' -> well_formed db'.
Proof.
  intros W H. destruct r; simpl in H;
    match type of H with
    | store_of ?o = _ => destruct o as [res db1|] eqn:E; [|discriminate]
    end; inversion H; subst; clear H.
  - apply create_menu_inv in E. destruct E as (row & E).
    eapply insert_menu_wf; eauto.
  - apply create_submenu_inv in E. destruct E as (row & E).
    eapply insert_submenu_wf; eauto.
  - apply create_dish_inv in E. destruct E as (row & p & E & _).
    eapply insert_dish_wf; eauto.
  - apply update_menu_inv in E. destruct E as (old & _ & E).
    eapply update_menu_wf; eauto.
  - apply update_submenu_inv in E. destruct E as (old & Hold & E).
    eapply update_submenu_wf; eauto.
    rewrite setattrs_submenu_dump. simpl.
    apply session_get_some in Hold. destruct Hold as [Hin _].
    apply well_formed_iff in W. destruct W as (_ & _ & _ & Hsp & _). auto.
  - apply update_dish_inv in E. destruct E as (old & p & Hold & E & _).
    eapply update_dish_wf; eauto.
    rewrite setattrs_dish_update. simpl.
    apply session_get_some in Hold. destruct Hold as [Hin _].
    apply well_formed_iff in W. destruct W as (_ & _ & _ & _ & Hdp). auto.
  - apply delete_menu_inv in E. destruct E as (_ & _ & E).
    eapply delete_menu_wf; eauto.
  - apply delete_submenu_inv in E. eapply delete_submenu_wf; eauto.
  - apply delete_dish_inv in E. eapply delete_dish_wf; eauto.
Qed.

(** Every store the requests reach from the empty one is well formed. *)
Lemma reachable_well_formed (db : Store) : reachable db -> well_formed db.
Proof.
  induction 1 as [|db r db' _ IH H].
  - reflexivity.
  - now apply after_well_formed with db r.
Qed.

Lemma unique_row {R} (col : R -> string) (rows : list R) (x y : R) :
  NoDup (map col rows) -> In x rows -> In y rows -> col x = col y -> x = y.
Proof.
  induction rows as [|r rows IH]; simpl; intros Hd Hx Hy E; [contradiction|].
  inversion Hd as [|? ? Hn Hd']; subst.
  destruct Hx as [->|Hx], Hy as [->|Hy]; auto.
  - exfalso. apply Hn. rewrite E. now apply in_map.
  - exfalso. apply Hn. rewrite <- E. now apply in_map.
Qed.

Lemma hd_error_map_some {A B} (f : A -> B) (l : list A) (y : B) :
  hd_error (map f l) = Some y -> exists x, In x l /\ y = f x.
Proof.
  destruct l as [|x l]; simpl; intros H; inversion H. eauto.
Qed.

Lemma delete_menu_subtree (db db' : Store) (menu_id : string) :
  well_formed db -> storage.delete_menu menu_id db = inr db' ->
  subtree_gone db db' menu_id.
Proof.
  intros W E. apply well_formed_iff in W. destruct W as (_ & Hs & Hd & _ & _).
  unfold storage.delete_menu in E. inversion E; subst; clear E.
  split; [|split]; cbn [menus submenus dishes].
  - intros m Hin. apply in_without in Hin. tauto.
  - intros s Hin Hm.
    assert (Hgone : forall x, In x (without SubMenu.menu_id menu_id (submenus db)) ->
                              SubMenu.id x <> SubMenu.id s).
    { intros x Hx Ex. apply in_without in Hx. destruct Hx as [Hx Hne].
      apply Hne. rewrite (unique_row SubMenu.id _ x s Hs Hx Hin Ex). exact Hm. }
    split.
    + intros Hin'. now apply (Hgone s).
    + intros path_menu _.
      unfold routers.get_submenu_by_id. unfold_monad.
      destruct (crud.get_submenu_by_id _ _ _) as [y|] eqn:Ey; auto.
      exfalso. unfold crud.get_submenu_by_id in Ey. cbn [submenus] in Ey.
      apply hd_error_map_some in Ey. destruct Ey as (x & Hx & _).
      apply filter_In in Hx. destruct Hx as [Hx Ex].
      apply andb_true_iff in Ex. destruct Ex as [_ Ex].
      apply String.eqb_eq in Ex. now apply (Hgone x).
  - intros s d Hs_in Hm Hd_in Hsub.
    set (gone := filter (fun s => String.eqb (SubMenu.menu_id s) menu_id) (submenus db)).
    assert (Hgone : forall x,
              In x (filter (fun d => negb (has SubMenu.id (Dish.submenu_id d) gone))
                           (dishes db)) ->
              Dish.id x <> Dish.id d).
    { intros x Hx Ex. apply filter_In in Hx. destruct Hx as [Hx Hkeep].
      rewrite (unique_row Dish.id _ x d Hd Hx Hd_in Ex) in Hkeep.
      apply negb_true_iff in Hkeep. rewrite has_false in Hkeep.
      apply (Hkeep s); auto.
      apply filter_In. split; auto. now apply String.eqb_eq. }
    split.
    + intros Hin'. now apply (Hgone d).
    + intros path_menu path_submenu _ _.
      unfold routers.get_dish_by_id. unfold_monad.
      destruct (crud.get_dish_by_id _ _ _ _) as [y|] eqn:Ey; auto.
      exfalso. apply get_dish_by_id_in in Ey. cbn [dishes] in Ey.
      destruct Ey as [Hy Ey]. now apply (Hgone y).
Qed.

(** C3. After a request that succeeds on a well-formed store, every
    submenu references a stored menu and every dish a stored submenu; and
    when the request is the delete of a menu, the one step from [db] to
    [db'] removed the menu, its submenus and their dishes, whose single
    reads now raise not-found. *)
Theorem no_orphan_after_success (db : Store) (r : request) (db' : Store) :
  well_formed db -> after db r = Some db' ->
  no_orphans db'
  /\ forall menu_id, r = delete_menu_by_id menu_id -> subtree_gone db db' menu_id.
Proof.
  intros W H. split.
  - apply well_formed_no_orphans. eapply after_well_formed; eauto.
  - intros menu_id ->. simpl in H.
    destruct (routers.delete_menu_by_id db menu_id) as [res db1|] eqn:E;
      [|discriminate].
    inversion H; subst; clear H.
    apply delete_menu_inv in E. destruct E as (_ & _ & E).
    now apply delete_menu_subtree.
Qed.

End Cascade.

(** ** Scenarios *)

Section Counts.

Import scenario.
Local Open Scope string_scope.

Example run_two_submenus_one_dish_each :
  run two_submenus_one_dish_each empty_store
  = Some {| menus := [ {| Menu.id := menu1; Menu.title := "menu1";
                          Menu.description := "about menu1" |} ];
            submenus :=
              [ {| SubMenu.id := submenu1; SubMenu.title := "submenu1";
                   SubMenu.description := "about submenu1";
                   SubMenu.menu_id := menu1 |};
                {| SubMenu.id := submenu2; SubMenu.title := "submenu2";
                   SubMenu.description := "about submenu2";
                   SubMenu.menu_id := menu1 |} ];
            dishes :=
              [ {| Dish.id := dish1; Dish.title := "dish1";
                   Dish.description := "about dish1";
                   Dish.price := dec 1350 (-2); Dish.submenu_id := submenu1 |};
                {| Dish.id := dish2; Dish.title := "dish2";
                   Dish.description := "about dish2";
                   Dish.price := dec 1250 (-2); Dish.submenu_id := submenu2 |} ] |}.
Proof. vm_compute. reflexivity. Qed.

Lemma outer_join_other (db : Store) (menu_id : string) (ms : list Menu.t) :
  storage.has Menu.id menu_id ms = false ->
  filter (fun r : Menu.t * option SubMenu.t => String.eqb (Menu.id (fst r)) menu_id)
         (crud.outer_join db ms) = [].
Proof.
  intros H. rewrite has_false in H.
  unfold crud.outer_join.
  induction ms as [|x ms IH]; [reflexivity|].
  cbn [flat_map]. rewrite filter_app, IH by (intros r Hr; apply H; now right).
  rewrite app_nil_r.
  assert (Hx : String.eqb (Menu.id x) menu_id = false)
    by (apply String.eqb_neq, H; now left).
  destruct (filter _ (submenus db)) as [|s ss].
  - simpl. now rewrite Hx.
  - generalize (s :: ss). intros l.
    induction l as [|y l IHl]; simpl; [reflexivity | now rewrite Hx].
Qed.

(** A stored menu without submenus is shown with both counts 0. *)
Lemma get_menu_by_id_no_submenu (db : Store) (m : Menu.t) :
  NoDup (map Menu.id (menus db)) -> In m (menus db) ->
  storage.has SubMenu.menu_id (Menu.id m) (submenus db) = false ->
  crud.get_menu_by_id db (Menu.id m)
  = Some {| schemas.Menu.id := Menu.id m; schemas.Menu.title := Menu.title m;
            schemas.Menu.description := Menu.description m;
            schemas.Menu.submenus_count := 0; schemas.Menu.dishes_count := 0 |}.
Proof.
  intros Hd Hin Hs. unfold crud.get_menu_by_id.
  assert (Hrows : filter (fun r : Menu.t * option SubMenu.t =>
                            String.eqb (Menu.id (fst r)) (Menu.id m))
                         (crud.outer_join db (menus db)) = [(m, None)]).
  { assert (Hnone : filter (fun s => String.eqb (Menu.id m) (SubMenu.menu_id s))
                           (submenus db) = []).
    { rewrite has_false in Hs.
      destruct (filter _ (submenus db)) as [|s ss] eqn:E; auto.
      assert (Hin' : In s (s :: ss)) by now left.
      rewrite <- E in Hin'. apply filter_In in Hin'. destruct Hin' as [Hs' Es].
      apply String.eqb_eq in Es. symmetry in Es. now apply Hs in Hs'. }
    induction (menus db) as [|x ms IH]; [contradiction|].
    inversion Hd as [|? ? Hn Hd']; subst.
    unfold crud.outer_join in *. cbn [flat_map]. rewrite filter_app.
    destruct Hin as [->|Hin].
    - rewrite Hnone. cbn [filter fst]. rewrite String.eqb_refl.
      fold (crud.outer_join db ms).
      rewrite outer_join_other; [reflexivity|].
      apply has_false. intros r Hr E. apply Hn. rewrite <- E. now apply in_map.
    - rewrite (IH Hd' Hin).
      assert (Hx : String.eqb (Menu.id x) (Menu.id m) = false).
      { apply String.eqb_neq. intros E. apply Hn. rewrite E. now apply in_map. }
      destruct (filter (fun s => String.eqb (Menu.id x) (SubMenu.menu_id s))
                       (submenus db)) as [|s ss].
      + simpl. now rewrite Hx.
      + generalize (s :: ss). intros l.
        induction l as [|y l IHl]; simpl; [reflexivity | now rewrite Hx]. }
  rewrite Hrows. reflexivity.
Qed.

(** The second sentence of C1 holds: one menu, one submenu and two dishes
    give the counts 1 and 2. *)
Example get_menu_one_submenu_two_dishes :
  exists db,
    run one_submenu_two_dishes empty_store = Some db
    /\ routers.get_menu_by_id db menu1
       = Return {| schemas.Menu.id := menu1; schemas.Menu.title := "menu1";
                   schemas.Menu.description := "about menu1";
                   schemas.Menu.submenus_count := 1;
                   schemas.Menu.dishes_count := 2 |} db.
Proof. eexists. split; vm_compute; reflexivity. Qed.

(** C1, at a menu with two submenus and one dish under each: the store is
    reached through the requests, the menu has two submenus and two dishes,
    and [get_menu_by_id] returns the single row of the query with
    [dishes_count] 1, the count of one submenu. *)
Theorem get_menu_by_id_two_submenus :
  run two_submenus_one_dish_each empty_store = Some store_two_submenus_one_dish_each
  /\ count_submenus_of_menu store_two_submenus_one_dish_each menu1 = 2
  /\ count_dishes_of_menu store_two_submenus_one_dish_each menu1 = 2
  /\ crud.get_menu_by_id store_two_submenus_one_dish_each menu1
     = Some {| schemas.Menu.id := menu1; schemas.Menu.title := "menu1";
               schemas.Menu.description := "about menu1";
               schemas.Menu.submenus_count := 2;
               schemas.Menu.dishes_count := 1 |}.
Proof. repeat split; vm_compute; reflexivity. Qed.

(** C2, at a menu with two submenus of which one has a dish: the single
    stored menu comes out of [get_menus] twice, once for each value of the
    grouped [dishes_count], each time with [submenus_count] 1. *)
Theorem get_menus_two_rows_for_one_menu :
  run two_submenus_one_dish empty_store = Some store_two_submenus_one_dish
  /\ List.length (menus store_two_submenus_one_dish) = 1%nat
  /\ count_submenus_of_menu store_two_submenus_one_dish menu1 = 2
  /\ List.length (crud.get_menus store_two_submenus_one_dish) = 2%nat
  /\ forallb (fun row => String.eqb (schemas.Menu.id row) menu1
                         && (schemas.Menu.submenus_count row =? 1)%Z)
              (crud.get_menus store_two_submenus_one_dish) = true.
Proof. repeat split; vm_compute; reflexivity. Qed.

End Counts.

(** ** Errors of delete, update and create *)

Section Errors.

Import scenario.
Local Open Scope string_scope.

(** The checks of a delete that are made: a malformed identifier stops the
    request before any row is looked up, and a missing menu is reported
    before the submenu is looked up. *)
Lemma delete_dish_levels (db : Store) (menu_id submenu_id dish_id : string) :
  is_valid_uuid menu_id = true -> is_valid_uuid submenu_id = true ->
  is_valid_uuid dish_id = true ->
  routers.delete_dish_by_id db menu_id submenu_id dish_id =
    match session_get Menu.id menu_id (menus db) with
    | None => Raise (HTTPException 404 "Menu not found")
    | Some _ =>
        match session_get SubMenu.id submenu_id (submenus db) with
        | None => Raise (HTTPException 404 "Submenu not found")
        | Some _ =>
            match session_get Dish.id dish_id (dishes db) with
            | None => Raise (HTTPException 404 "Dish not found")
            | Some _ =>
                Return {| crud.status := true;
                          crud.message := "The dish has been deleted" |}
                       {| menus := menus db; submenus := submenus db;
                          dishes := storage.without Dish.id dish_id (dishes db) |}
            end
        end
    end.
Proof.
  intros V1 V2 V3.
  unfold routers.delete_dish_by_id, crud.delete_dish_by_id. unfold_monad.
  rewrite V1, V2, V3. simpl.
  destruct (session_get Menu.id menu_id (menus db)); auto.
  destruct (session_get SubMenu.id submenu_id (submenus db)); auto.
  destruct (session_get Dish.id dish_id (dishes db)) as [d|] eqn:E; auto.
  apply session_get_some in E. destruct E as [_ ->]. reflexivity.
Qed.

(** [delete_submenu_by_id] looks the submenu up and deletes what it found
    without [raise_if_not_exist]: a missing submenu under a stored menu
    ends in [UnmappedInstanceError]. *)
Lemma delete_submenu_missing (db : Store) (menu_id submenu_id : string) :
  is_valid_uuid menu_id = true -> is_valid_uuid submenu_id = true ->
  storage.has Menu.id menu_id (menus db) = true ->
  storage.has SubMenu.id submenu_id (submenus db) = false ->
  routers.delete_submenu_by_id db menu_id submenu_id = Raise UnmappedInstanceError.
Proof.
  intros V1 V2 Hm Hs.
  unfold routers.delete_submenu_by_id, crud.delete_submenu_by_id. unfold_monad.
  rewrite V1, V2. simpl.
  destruct (session_get Menu.id menu_id (menus db)) eqn:Em.
  - apply session_get_none in Hs. now rewrite Hs.
  - apply session_get_none in Em. congruence.
Qed.

(** C4, at a stored menu and a well-formed submenu identifier that matches
    no row: the delete of the submenu raises [UnmappedInstanceError], not
    the 404 "Submenu not found" that the delete of a dish raises at the
    same level. *)
Theorem delete_submenu_by_id_missing_submenu :
  run one_menu empty_store = Some store_one_menu
  /\ is_valid_uuid menu1 = true /\ is_valid_uuid submenu1 = true
  /\ routers.delete_submenu_by_id store_one_menu menu1 submenu1
     = Raise UnmappedInstanceError
  /\ routers.delete_dish_by_id store_one_menu menu1 submenu1 dish1
     = Raise (HTTPException 404 "Submenu not found").
Proof. repeat split; vm_compute; reflexivity. Qed.

(** [update_submenu] reports a missing submenu under a stored menu. *)
Lemma update_submenu_missing (db : Store) (menu_id submenu_id : string)
  (submenu : schemas.MenuBase.t) :
  storage.has Menu.id menu_id (menus db) = true ->
  storage.has SubMenu.id submenu_id (submenus db) = false ->
  routers.update_submenu db menu_id submenu_id submenu
  = Raise (HTTPException 404 "Submenu not found").
Proof.
  intros Hm Hs.
  unfold routers.update_submenu, crud.update_submenu. unfold_monad.
  destruct (session_get Menu.id menu_id (menus db)) eqn:Em.
  - apply session_get_none in Hs. now rewrite Hs.
  - apply session_get_none in Em. congruence.
Qed.

(** [update_menu] on a menu that is not stored: the payload passes
    [raise_if_not_exist], and the first [setattr] on [None] raises. *)
Lemma update_menu_missing (db : Store) (menu_id : string) (menu : schemas.MenuBase.t) :
  storage.has Menu.id menu_id (menus db) = false ->
  routers.update_menu db menu_id menu = Raise AttributeError.
Proof.
  intros Hm. apply session_get_none in Hm.
  unfold routers.update_menu, crud.update_menu. unfold_monad. rewrite Hm.
  unfold schemas.MenuBase.model_dump. destruct (schemas.MenuBase.id menu); reflexivity.
Qed.

(** [update_dish] on a dish that is not stored, under a stored menu and a
    stored submenu: the message names the submenu. *)
Lemma update_dish_missing (db : Store) (menu_id submenu_id dish_id : string)
  (dish : schemas.DishUpdate.t) :
  storage.has Menu.id menu_id (menus db) = true ->
  storage.has SubMenu.id submenu_id (submenus db) = true ->
  storage.has Dish.id dish_id (dishes db) = false ->
  routers.update_dish db menu_id submenu_id dish_id dish
  = Raise (HTTPException 404 "Submenu not found").
Proof.
  intros Hm Hs Hd.
  unfold routers.update_dish, crud.update_dish. unfold_monad.
  destruct (session_get Menu.id menu_id (menus db)) eqn:Em;
    [|apply session_get_none in Em; congruence].
  destruct (session_get SubMenu.id submenu_id (submenus db)) eqn:Es;
    [|apply session_get_none in Es; congruence].
  apply session_get_none in Hd. now rewrite Hd.
Qed.

(** C5, at a menu identifier that matches no row, and at a dish identifier
    that matches no row under a stored menu and submenu: the update of the
    menu raises [AttributeError] and the update of the dish raises a 404
    whose message is "Submenu not found"; the update of a submenu that is
    not stored raises the 404 "Submenu not found". *)
Theorem update_missing_target :
  routers.update_menu empty_store menu1 (menu_payload menu1 "menu1" "changed")
  = Raise AttributeError
  /\ run two_submenus_one_dish empty_store = Some store_two_submenus_one_dish
  /\ routers.update_dish store_two_submenus_one_dish menu1 submenu1 dish2
       {| schemas.DishUpdate.id := Some dish2;
          schemas.DishUpdate.title := "dish2";
          schemas.DishUpdate.description := "changed";
          schemas.DishUpdate.price := dec 7777 (-3) |}
     = Raise (HTTPException 404 "Submenu not found")
  /\ routers.update_submenu store_one_menu menu1 submenu1
       (menu_payload submenu1 "submenu1" "changed")
     = Raise (HTTPException 404 "Submenu not found").
Proof. repeat split; vm_compute; reflexivity. Qed.

(** [create_dish] turns every [IntegrityError] of the insert into the 500
    "A duplicate record already exists". *)
Lemma create_dish_duplicate (db : Store) (menu_id submenu_id : string)
  (dish : schemas.DishCreate.t) (uuid4 : string) (row : Dish.t) :
  is_valid_uuid menu_id = true -> is_valid_uuid submenu_id = true ->
  row = {| Dish.id := match schemas.DishCreate.id dish with
                      | Some v => v | None => uuid4 end;
           Dish.title := schemas.DishCreate.title dish;
           Dish.description := schemas.DishCreate.description dish;
           Dish.price := schemas.DishCreate.price dish;
           Dish.submenu_id := submenu_id |} ->
  storage.insert_dish row db = inl IntegrityError ->
  crud.create_dish db menu_id submenu_id dish uuid4
  = Raise (HTTPException 500 "A duplicate record already exists").
Proof.
  intros V1 V2 -> E.
  unfold crud.create_dish. unfold_monad. rewrite V1, V2. simpl.
  rewrite setattrs_dish_create. simpl. now rewrite E.
Qed.

(** C7, at a payload whose title is new and whose [id] is the [id] of a
    stored row: the title check of the router passes, the primary key
    rejects the insert, and [create_menu] and [create_submenu] let the
    [IntegrityError] through, where [create_dish] raises the 500
    "A duplicate record already exists". *)
Theorem create_unique_violation_not_caught :
  run two_submenus_one_dish empty_store = Some store_two_submenus_one_dish
  /\ crud.get_menu_by_title store_two_submenus_one_dish "menu2" = None
  /\ routers.create_menu store_two_submenus_one_dish
       (menu_payload menu1 "menu2" "") unused
     = Raise IntegrityError
  /\ crud.get_submenu_by_title store_two_submenus_one_dish "submenu3" = None
  /\ routers.create_submenu store_two_submenus_one_dish menu1
       (menu_payload submenu1 "submenu3" "") unused
     = Raise IntegrityError
  /\ routers.create_dish store_two_submenus_one_dish menu1 submenu1
       (dish_payload dish1 "dish3" "" (dec 100 (-2))) unused
     = Raise (HTTPException 500 "A duplicate record already exists").
Proof. repeat split; vm_compute; reflexivity. Qed.

End Errors.

(** ** Updates *)

Section Updates.

Import scenario.
Local Open Scope string_scope.

(** The loop of [setattr] leaves an attribute alone when no entry of the
    dictionary has its key. *)
Lemma setattrs_dish_frame (data : list item) : forall (d : Dish.t) (f : field),
  ~ In f (map key data) ->
  getattr_dish (setattrs setattr_dish d data) f = getattr_dish d f
  /\ Dish.submenu_id (setattrs setattr_dish d data) = Dish.submenu_id d.
Proof.
  unfold setattrs.
  induction data as [|i data IH]; intros d f Hf; simpl; [auto|].
  simpl in Hf. apply Decidable.not_or in Hf. destruct Hf as [Hi Hf].
  destruct (IH (setattr_dish d i) f Hf) as [IH1 IH2]. rewrite IH1, IH2.
  destruct i, f; simpl in *; try congruence; auto.
Qed.

Lemma setattrs_submenu_frame (data : list item) : forall (s : SubMenu.t) (f : field),
  ~ In f (map key data) ->
  getattr_submenu (setattrs setattr_submenu s data) f = getattr_submenu s f
  /\ SubMenu.menu_id (setattrs setattr_submenu s data) = SubMenu.menu_id s.
Proof.
  unfold setattrs.
  induction data as [|i data IH]; intros s f Hf; simpl; [auto|].
  simpl in Hf. apply Decidable.not_or in Hf. destruct Hf as [Hi Hf].
  destruct (IH (setattr_submenu s i) f Hf) as [IH1 IH2]. rewrite IH1, IH2.
  destruct i, f; simpl in *; try congruence; auto.
Qed.

Lemma setattrs_menu_frame (data : list item) : forall (m : Menu.t) (f : field),
  ~ In f (map key data) ->
  getattr_menu (setattrs setattr_menu m data) f = getattr_menu m f.
Proof.
  unfold setattrs.
  induction data as [|i data IH]; intros m f Hf; simpl; [auto|].
  simpl in Hf. apply Decidable.not_or in Hf. destruct Hf as [Hi Hf].
  rewrite (IH (setattr_menu m i) f Hf).
  destruct i, f; simpl in *; try congruence; auto.
Qed.

(** C8. An update that succeeds replaces the target row, and only it, by a
    row in which every attribute whose key is absent from the dumped
    payload has its prior value, as has the reference to the parent. The
    three conjuncts are the updates of a menu, a submenu and a dish. *)
Theorem update_keeps_absent_fields :
  (forall db menu_id menu r db',
     routers.update_menu db menu_id menu = Return r db' ->
     exists old new,
       session_get Menu.id menu_id (menus db) = Some old
       /\ menus db' = storage.set_row Menu.id menu_id new (menus db)
       /\ submenus db' = submenus db /\ dishes db' = dishes db
       /\ forall f, ~ In f (map key (schemas.MenuBase.model_dump menu)) ->
                    getattr_menu new f = getattr_menu old f)
  /\ (forall db menu_id submenu_id submenu r db',
        routers.update_submenu db menu_id submenu_id submenu = Return r db' ->
        exists old new,
          session_get SubMenu.id submenu_id (submenus db) = Some old
          /\ submenus db' = storage.set_row SubMenu.id submenu_id new (submenus db)
          /\ menus db' = menus db /\ dishes db' = dishes db
          /\ SubMenu.menu_id new = SubMenu.menu_id old
          /\ forall f, ~ In f (map key (schemas.MenuBase.model_dump submenu)) ->
                       getattr_submenu new f = getattr_submenu old f)
  /\ (forall db menu_id submenu_id dish_id dish r db',
        routers.update_dish db menu_id submenu_id dish_id dish = Return r db' ->
        exists old new,
          session_get Dish.id dish_id (dishes db) = Some old
          /\ dishes db' = storage.set_row Dish.id dish_id new (dishes db)
          /\ menus db' = menus db /\ submenus db' = submenus db
          /\ Dish.submenu_id new = Dish.submenu_id old
          /\ forall f, ~ In f (map key (schemas.DishUpdate.model_dump dish)) ->
                       getattr_dish new f = getattr_dish old f).
Proof.
  split; [|split].
  - intros db menu_id menu r db' H.
    apply update_menu_inv in H. destruct H as (old & Hold & E).
    exists old, (setattrs setattr_menu old (schemas.MenuBase.model_dump menu)).
    unfold storage.update_menu in E.
    destruct (_ || _); [discriminate|]. destruct (_ && _); [discriminate|].
    inversion E; subst; clear E. simpl.
    repeat split; auto. intros f Hf. now apply setattrs_menu_frame.
  - intros db menu_id submenu_id submenu r db' H.
    apply update_submenu_inv in H. destruct H as (old & Hold & E).
    exists old, (setattrs setattr_submenu old (schemas.MenuBase.model_dump submenu)).
    unfold storage.update_submenu in E.
    destruct (_ || _); [discriminate|]. destruct (_ && _); [discriminate|].
    inversion E; subst; clear E. simpl.
    repeat split; auto.
    + now rewrite setattrs_submenu_dump.
    + intros f Hf. now apply setattrs_submenu_frame.
  - intros db menu_id submenu_id dish_id dish r db' H.
    apply update_dish_inv in H.
    destruct H as (old & p & Hold & H). cbv zeta in H.
    destruct H as (_ & _ & Hd & Hm & Hs & _).
    exists old, (storage.with_price
                   (setattrs setattr_dish old (schemas.DishUpdate.model_dump dish)) p).
    repeat split; auto.
    + simpl. now rewrite setattrs_dish_update.
    + intros f Hf.
      destruct (setattrs_dish_frame _ old f Hf) as [Hframe _].
      rewrite <- Hframe.
      destruct f; try reflexivity.
      exfalso. apply Hf. unfold schemas.DishUpdate.model_dump.
      rewrite map_app, in_app_iff. right. simpl. auto.
Qed.

End Updates.

Section UpdatePrice.

Import scenario.
Local Open Scope string_scope.

Lemma apply_typmod_half_up (d p : decimal.Decimal) :
  decimal.apply_typmod 10 2 d = Some p ->
  p = {| decimal.coefficient := decimal.half_up_hundredths d;
         decimal.exponent := -2 |}.
Proof.
  unfold decimal.apply_typmod. rewrite round_var_half_up.
  destruct (_ <? _)%Z; intros H; inversion H. reflexivity.
Qed.


Lemma storage_update_menu_error pk m db e :
  storage.update_menu pk m db = inl e -> e = IntegrityError.
Proof.
  unfold storage.update_menu.
  destruct (_ || _); [intros H; now inversion H|].
  destruct (_ && _); intros H; now inversion H.
Qed.

Lemma storage_update_submenu_error pk s db e :
  storage.update_submenu pk s db = inl e -> e = IntegrityError.
Proof.
  unfold storage.update_submenu.
  destruct (_ || _); [intros H; now inversion H|].
  destruct (_ && _); intros H; now inversion H.
Qed.

Lemma storage_update_dish_error pk d db e :
  storage.update_dish pk d db = inl e -> e = IntegrityError \/ e = DataError.
Proof.
  unfold storage.update_dish.
  destruct (decimal.apply_typmod _ _ _); [|intros H; inversion H; auto].
  destruct (_ || _); intros H; inversion H; auto.
Qed.

Lemma has_title_other {R} (id title : R -> string) (pk t : string)
  (rows : list R) (other : R) :
  In other rows -> id other <> pk -> title other = t ->
  storage.has title t (storage.without id pk rows) = true.
Proof.
  intros Hin Hne Ht. apply has_true. exists other. split; auto.
  now apply in_without.
Qed.

(** C10. No update raises a 400: the title is not looked up before the
    commit. When the target row is stored (with the rows of its path) and
    the title of the payload is the title of another row of the table, the
    update ends in the [IntegrityError] of the unique constraint, which
    nothing catches; for a dish, whose price is coerced first, it ends in
    that or in the [DataError] of a price out of range. *)
Theorem update_has_no_title_check :
  (forall db menu_id menu detail,
     routers.update_menu db menu_id menu <> Raise (HTTPException 400 detail))
  /\ (forall db menu_id submenu_id submenu detail,
        routers.update_submenu db menu_id submenu_id submenu
        <> Raise (HTTPException 400 detail))
  /\ (forall db menu_id submenu_id dish_id dish detail,
        routers.update_dish db menu_id submenu_id dish_id dish
        <> Raise (HTTPException 400 detail))
  /\ (forall db menu_id menu other,
        storage.has Menu.id menu_id (menus db) = true ->
        In other (menus db) -> Menu.id other <> menu_id ->
        Menu.title other = schemas.MenuBase.title menu ->
        routers.update_menu db menu_id menu = Raise IntegrityError)
  /\ (forall db menu_id submenu_id submenu other,
        storage.has Menu.id menu_id (menus db) = true ->
        storage.has SubMenu.id submenu_id (submenus db) = true ->
        In other (submenus db) -> SubMenu.id other <> submenu_id ->
        SubMenu.title other = schemas.MenuBase.title submenu ->
        routers.update_submenu db menu_id submenu_id submenu = Raise IntegrityError)
  /\ (forall db menu_id submenu_id dish_id dish other,
        storage.has Menu.id menu_id (menus db) = true ->
        storage.has SubMenu.id submenu_id (submenus db) = true ->
        storage.has Dish.id dish_id (dishes db) = true ->
        In other (dishes db) -> Dish.id other <> dish_id ->
        Dish.title other = schemas.DishUpdate.title dish ->
        routers.update_dish db menu_id submenu_id dish_id dish = Raise IntegrityError
        \/ routers.update_dish db menu_id submenu_id dish_id dish = Raise DataError).
Proof.
  repeat apply conj.
  - intros db menu_id menu detail.
    unfold routers.update_menu, crud.update_menu. unfold_monad.
    destruct (session_get Menu.id menu_id (menus db)).
    + destruct (storage.update_menu _ _ db) eqn:E; [|discriminate].
      apply storage_update_menu_error in E. subst. discriminate.
    + unfold schemas.MenuBase.model_dump.
      destruct (schemas.MenuBase.id menu); discriminate.
  - intros db menu_id submenu_id submenu detail.
    unfold routers.update_submenu, crud.update_submenu. unfold_monad.
    destruct (session_get Menu.id menu_id (menus db)); [|discriminate].
    destruct (session_get SubMenu.id submenu_id (submenus db)); [|discriminate].
    destruct (storage.update_submenu _ _ db) eqn:E; [|discriminate].
    apply storage_update_submenu_error in E. subst. discriminate.
  - intros db menu_id submenu_id dish_id dish detail.
    unfold routers.update_dish, crud.update_dish. unfold_monad.
    destruct (session_get Menu.id menu_id (menus db)); [|discriminate].
    destruct (session_get SubMenu.id submenu_id (submenus db)); [|discriminate].
    destruct (session_get Dish.id dish_id (dishes db)); [|discriminate].
    destruct (storage.update_dish _ _ db) eqn:E; [|discriminate].
    apply storage_update_dish_error in E. destruct E; subst; discriminate.
  - intros db menu_id menu other Hm Hin Hne Ht.
    unfold routers.update_menu, crud.update_menu. unfold_monad.
    destruct (session_get Menu.id menu_id (menus db)) eqn:Em;
      [|apply session_get_none in Em; congruence].
    unfold storage.update_menu. rewrite setattrs_menu_dump. cbn [Menu.title].
    rewrite (has_title_other Menu.id Menu.title _ _ _ other Hin Hne Ht).
    now rewrite orb_true_r.
  - intros db menu_id submenu_id submenu other Hm Hs Hin Hne Ht.
    unfold routers.update_submenu, crud.update_submenu. unfold_monad.
    destruct (session_get Menu.id menu_id (menus db)) eqn:Em;
      [|apply session_get_none in Em; congruence].
    destruct (session_get SubMenu.id submenu_id (submenus db)) eqn:Es;
      [|apply session_get_none in Es; congruence].
    unfold storage.update_submenu. rewrite setattrs_submenu_dump. cbn [SubMenu.title].
    rewrite (has_title_other SubMenu.id SubMenu.title _ _ _ other Hin Hne Ht).
    now rewrite orb_true_r.
  - intros db menu_id submenu_id dish_id dish other Hm Hs Hd Hin Hne Ht.
    unfold routers.update_dish, crud.update_dish. unfold_monad.
    destruct (session_get Menu.id menu_id (menus db)) eqn:Em;
      [|apply session_get_none in Em; congruence].
    destruct (session_get SubMenu.id submenu_id (submenus db)) eqn:Es;
      [|apply session_get_none in Es; congruence].
    destruct (session_get Dish.id dish_id (dishes db)) eqn:Ed;
      [|apply session_get_none in Ed; congruence].
    unfold storage.update_dish. rewrite setattrs_dish_update.
    cbn [Dish.title Dish.price].
    destruct (decimal.apply_typmod _ _ _); [|now right].
    rewrite (has_title_other Dish.id Dish.title _ _ _ other Hin Hne Ht).
    rewrite orb_true_r. now left.
Qed.

End UpdatePrice.

(** ** The theorems at concrete requests *)

Section AtRequests.

Import scenario.
Local Open Scope string_scope.

Example is_valid_uuid_accepts : is_valid_uuid menu1 = true.
Proof. vm_compute. reflexivity. Qed.

Example is_valid_uuid_rejects :
  is_valid_uuid "" = false /\ is_valid_uuid "11111" = false
  /\ is_valid_uuid "2E9B4F3A-B9D4-4168-8697-1F51DE26DD1E" = false
  /\ is_valid_uuid "2e9b4f3ab9d4416886971f51de26dd1e" = false
  /\ is_valid_uuid "{2e9b4f3a-b9d4-4168-8697-1f51de26dd1e}" = false
  /\ is_valid_uuid "2e9b4f3a-b9d4-1168-8697-1f51de26dd1e" = false
  /\ is_valid_uuid "2e9b4f3a-b9d4-4168-c697-1f51de26dd1e" = false.
Proof. repeat split; vm_compute; reflexivity. Qed.

Example price_7_777 :
  option_map decimal.str (decimal.apply_typmod 10 2 (dec 7777 (-3)))
  = Some (list_ascii_of_string "7.78")
  /\ option_map decimal.str (decimal.apply_typmod 10 2 (dec 115455 (-3)))
     = Some (list_ascii_of_string "115.46")
  /\ option_map decimal.str (decimal.apply_typmod 10 2 (dec 5 (-3)))
     = Some (list_ascii_of_string "0.01")
  /\ option_map decimal.str (decimal.apply_typmod 10 2 (dec (-1) (-3)))
     = Some (list_ascii_of_string "0.00")
  /\ option_map decimal.str (decimal.apply_typmod 10 2 (dec 12 0))
     = Some (list_ascii_of_string "12.00")
  /\ decimal.apply_typmod 10 2 (dec 1 8) = None.
Proof. repeat split; vm_compute; reflexivity. Qed.

Lemma no_orphan_after_success_witness :
  (well_formed store_one_submenu_two_dishes
   /\ after store_one_submenu_two_dishes (delete_menu_by_id menu1) = Some empty_store)
  /\ no_orphans empty_store
  /\ subtree_gone store_one_submenu_two_dishes empty_store menu1.
Proof.
  assert (W : well_formed store_one_submenu_two_dishes) by (vm_compute; reflexivity).
  assert (A : after store_one_submenu_two_dishes (delete_menu_by_id menu1)
              = Some empty_store) by (vm_compute; reflexivity).
  destruct (no_orphan_after_success _ _ _ W A) as [N S].
  split; [split; [exact W | exact A] | split; [exact N | exact (S menu1 eq_refl)]].
Defined.

Lemma update_keeps_absent_fields_witness :
  routers.update_dish store_one_submenu_two_dishes menu1 submenu1 dish1
    partial_dish_update
  = Return (Some dish1_returned) store_dish1_updated
  /\ exists old new,
       session_get Dish.id dish1 (dishes store_one_submenu_two_dishes) = Some old
       /\ dishes store_dish1_updated
          = storage.set_row Dish.id dish1 new (dishes store_one_submenu_two_dishes)
       /\ menus store_dish1_updated = menus store_one_submenu_two_dishes
       /\ submenus store_dish1_updated = submenus store_one_submenu_two_dishes
       /\ Dish.submenu_id new = Dish.submenu_id old
       /\ forall f,
            ~ In f (map key (schemas.DishUpdate.model_dump partial_dish_update)) ->
            getattr_dish new f = getattr_dish old f.
Proof.
  assert (H : routers.update_dish store_one_submenu_two_dishes menu1 submenu1 dish1
                partial_dish_update
              = Return (Some dish1_returned) store_dish1_updated)
    by (vm_compute; reflexivity).
  split; [exact H|].
  exact (proj2 (proj2 update_keeps_absent_fields) _ _ _ _ _ _ _ H).
Defined.


Lemma update_has_no_title_check_witness :
  (storage.has Menu.id menu2 (menus store_two_menus) = true
   /\ In menu1_row (menus store_two_menus)
   /\ Menu.id menu1_row <> menu2
   /\ Menu.title menu1_row
      = schemas.MenuBase.title (menu_payload menu2 "menu1" "about menu2"))
  /\ routers.update_menu store_two_menus menu2 (menu_payload menu2 "menu1" "about menu2")
     = Raise IntegrityError.
Proof.
  assert (H1 : storage.has Menu.id menu2 (menus store_two_menus) = true)
    by (vm_compute; reflexivity).
  assert (H2 : In menu1_row (menus store_two_menus)) by (left; reflexivity).
  assert (H3 : Menu.id menu1_row <> menu2) by (vm_compute; discriminate).
  assert (H4 : Menu.title menu1_row
               = schemas.MenuBase.title (menu_payload menu2 "menu1" "about menu2"))
    by reflexivity.
  split; [repeat split; assumption|].
  exact (proj1 (proj2 (proj2 (proj2 update_has_no_title_check))) _ _ _ _ H1 H2 H3 H4).
Defined.

End AtRequests.

(** * Further properties of the requests *)

(** ** The constraints of the tables, along any run of requests *)

Section Titles.

Import storage.

Context {R : Type} (id title : R -> string).

Lemma set_row_absent (pk : string) (new : R) (rows : list R) :
  has id pk rows = false -> set_row id pk new rows = rows.
Proof.
  rewrite has_false. unfold set_row. intros H.
  induction rows as [|r rows IH]; simpl; [reflexivity|].
  rewrite IH by (intros x Hx; apply H; now right).
  destruct (String.eqb_spec (id r) pk) as [E|E]; [|reflexivity].
  exfalso. apply (H r); [now left | assumption].
Qed.

(** An UPDATE found by primary key keeps another column unique when the
    new value of that column is not the value of another row. *)
Lemma NoDup_set_row_other (pk : string) (new : R) (rows : list R) :
  NoDup (map id rows) -> NoDup (map title rows) ->
  has title (title new) (without id pk rows) = false ->
  NoDup (map title (set_row id pk new rows)).
Proof.
  intros Hid Ht Hn.
  assert (Hn' : forall x, In x rows -> id x <> pk -> title x <> title new).
  { intros x Hx Hne. rewrite has_false in Hn. apply Hn. now apply in_without. }
  clear Hn.
  induction rows as [|r rows IH]; [constructor|].
  inversion Hid as [|? ? Hnid Hid']; subst.
  inversion Ht as [|? ? Hnt Ht']; subst.
  change (NoDup (title (if String.eqb (id r) pk then new else r)
                 :: map title (set_row id pk new rows))).
  destruct (String.eqb_spec (id r) pk) as [Er|Er].
  - assert (Habs : has id pk rows = false).
    { apply has_false. intros x Hx Ex. apply Hnid.
      rewrite Er, <- Ex. now apply in_map. }
    rewrite (set_row_absent pk new rows Habs).
    constructor; auto.
    rewrite in_map_iff. intros (x & Ex & Hx).
    rewrite has_false in Habs.
    apply (Hn' x); [now right | now apply Habs | assumption].
  - constructor.
    + rewrite in_map_iff. intros (x & Ex & Hx).
      apply in_set_row in Hx. destruct Hx as [[-> _]|[Hx _]].
      * apply (Hn' r); [now left | assumption | congruence].
      * apply Hnt. rewrite <- Ex. now apply in_map.
    + apply IH; auto. intros x Hx. apply Hn'. now right.
Qed.

End Titles.

Section Constraints.

Import storage.

Lemma titles_unique_iff (db : Store) :
  titles_unique db = true <->
  NoDup (map Menu.title (menus db))
  /\ NoDup (map SubMenu.title (submenus db))
  /\ NoDup (map Dish.title (dishes db)).
Proof.
  unfold titles_unique. rewrite !andb_true_iff, !nodupb_NoDup. tauto.
Qed.

Lemma after_titles_unique (db : Store) (r : request) (db' : Store) :
  well_formed db -> titles_unique db = true -> after db r = Some db' ->
  titles_unique db' = true.
Proof.
  intros W T H.
  apply well_formed_iff in W. destruct W as (Wm & Ws & Wd & _ & _).
  apply titles_unique_iff in T. destruct T as (Tm & Ts & Td).
  apply titles_unique_iff.
  destruct r; simpl in H;
    match type of H with
    | store_of ?o = _ => destruct o as [res db1|] eqn:E; [|discriminate]
    end; inversion H; subst; clear H.
  - apply create_menu_inv in E. destruct E as (row & E).
    unfold insert_menu in E.
    destruct (has Menu.id _ _); [discriminate|].
    destruct (has Menu.title _ _) eqn:Et; [discriminate|].
    inversion E; subst; clear E. simpl. repeat split; auto.
    now apply NoDup_map_snoc.
  - apply create_submenu_inv in E. destruct E as (row & E).
    unfold insert_submenu in E.
    destruct (has SubMenu.id _ _); [discriminate|].
    destruct (has SubMenu.title _ _) eqn:Et; [discriminate|].
    destruct (negb _); [discriminate|].
    inversion E; subst; clear E. simpl. repeat split; auto.
    now apply NoDup_map_snoc.
  - apply create_dish_inv in E. destruct E as (row & p & E & _).
    unfold insert_dish in E.
    destruct (decimal.apply_typmod _ _ _) as [q|]; [|discriminate].
    destruct (has Dish.id _ _); [discriminate|].
    destruct (has Dish.title _ _) eqn:Et; [discriminate|].
    destruct (negb _); [discriminate|].
    inversion E; subst; clear E. simpl. repeat split; auto.
    now apply (NoDup_map_snoc Dish.title (dishes db) (with_price row q)).
  - apply update_menu_inv in E. destruct E as (old & _ & E).
    unfold storage.update_menu in E.
    destruct (has Menu.id _ _); [discriminate|].
    destruct (has Menu.title _ _) eqn:Et; [discriminate|].
    destruct (_ && _); [discriminate|].
    inversion E; subst; clear E. simpl. repeat split; auto.
    now apply NoDup_set_row_other.
  - apply update_submenu_inv in E. destruct E as (old & _ & E).
    unfold storage.update_submenu in E.
    destruct (has SubMenu.id _ _); [discriminate|].
    destruct (has SubMenu.title _ _) eqn:Et; [discriminate|].
    destruct (_ && _); [discriminate|].
    inversion E; subst; clear E. simpl. repeat split; auto.
    now apply NoDup_set_row_other.
  - apply update_dish_inv in E. destruct E as (old & p & _ & E).
    cbv zeta in E. destruct E as (E & _).
    unfold storage.update_dish in E.
    destruct (decimal.apply_typmod _ _ _) as [q|]; [|discriminate].
    destruct (has Dish.id _ _); [discriminate|].
    destruct (has Dish.title _ _) eqn:Et; [discriminate|].
    inversion E; subst; clear E. simpl. repeat split; auto.
    now apply (NoDup_set_row_other Dish.id Dish.title).
  - apply delete_menu_inv in E. destruct E as (_ & _ & E).
    unfold storage.delete_menu in E. inversion E; subst; clear E. simpl.
    repeat split; now apply NoDup_map_filter.
  - apply delete_submenu_inv in E.
    unfold storage.delete_submenu in E. inversion E; subst; clear E. simpl.
    repeat split; auto; now apply NoDup_map_filter.
  - apply delete_dish_inv in E.
    unfold storage.delete_dish in E. inversion E; subst; clear E. simpl.
    repeat split; auto; now apply NoDup_map_filter.
Qed.

(** X1. Whatever requests are run one after the other from a store that
    satisfies the constraints of the tables (unique primary keys, every
    foreign key pointing at a stored parent, unique titles in each table),
    the store they leave satisfies them too. *)
Theorem run_keeps_constraints (rs : list request) : forall (db db' : Store),
  constraints_hold db = true -> scenario.run rs db = Some db' ->
  constraints_hold db' = true.
Proof.
  induction rs as [|r rs IH]; intros db db' C H; simpl in H.
  - inversion H; subst. assumption.
  - destruct (after db r) as [db1|] eqn:E; [|discriminate].
    apply (IH db1 db'); auto.
    unfold constraints_hold in *. apply andb_true_iff in C. destruct C as [W T].
    apply andb_true_iff. split.
    + now apply after_well_formed with db r.
    + now apply after_titles_unique with db r.
Qed.

Lemma run_keeps_constraints_witness :
  (constraints_hold empty_store = true
   /\ scenario.run scenario.one_submenu_two_dishes empty_store
      = Some scenario.store_one_submenu_two_dishes)
  /\ constraints_hold scenario.store_one_submenu_two_dishes = true.
Proof.
  assert (C : constraints_hold empty_store = true) by reflexivity.
  assert (H : scenario.run scenario.one_submenu_two_dishes empty_store
              = Some scenario.store_one_submenu_two_dishes)
    by (vm_compute; reflexivity).
  split; [split; [exact C | exact H]|].
  exact (run_keeps_constraints _ _ _ C H).
Defined.

End Constraints.

(** ** Reads by identifier *)

Section Lookup.

Import storage.

Context {R : Type} (col : R -> string).

Lemma filter_absent (p : R -> bool) (v : string) (rows : list R) :
  has col v rows = false ->
  filter (fun r => p r && String.eqb (col r) v) rows = [].
Proof.
  rewrite has_false. intros H.
  induction rows as [|r rows IH]; simpl; [reflexivity|].
  rewrite IH by (intros x Hx; apply H; now right).
  destruct (String.eqb_spec (col r) v) as [E|E].
  - exfalso. apply (H r); [now left | assumption].
  - now rewrite andb_false_r.
Qed.

(** Under a unique column, the rows with the value of a stored row are
    that row alone. *)
Lemma filter_unique (p : R -> bool) (x : R) (rows : list R) :
  NoDup (map col rows) -> In x rows ->
  filter (fun r => p r && String.eqb (col r) (col x)) rows
  = if p x then [x] else [].
Proof.
  induction rows as [|r rows IH]; simpl; intros Hd Hin; [contradiction|].
  inversion Hd as [|? ? Hn Hd']; subst.
  destruct Hin as [->|Hin].
  - rewrite String.eqb_refl, andb_true_r.
    rewrite filter_absent.
    + destruct (p x); reflexivity.
    + apply has_false. intros y Hy E. apply Hn. rewrite <- E. now apply in_map.
  - rewrite (IH Hd' Hin).
    destruct (String.eqb_spec (col r) (col x)) as [E|E].
    + exfalso. apply Hn. rewrite E. now apply in_map.
    + now rewrite andb_false_r.
Qed.

Lemma filter_unique_eq (x : R) (rows : list R) :
  NoDup (map col rows) -> In x rows ->
  filter (fun r => String.eqb (col r) (col x)) rows = [x].
Proof.
  intros Hd Hin.
  exact (filter_unique (fun _ => true) x rows Hd Hin).
Qed.

Lemma session_get_unique (x : R) (rows : list R) :
  NoDup (map col rows) -> In x rows -> session_get col (col x) rows = Some x.
Proof.
  intros Hd Hin. destruct (session_get col (col x) rows) as [y|] eqn:E.
  - apply session_get_some in E. destruct E as [Hy E].
    f_equal. now apply (unique_row col rows).
  - apply session_get_none in E. rewrite has_false in E.
    exfalso. now apply (E x).
Qed.

End Lookup.

Section ScopedReads.

Import storage.
Local Open Scope string_scope.

(** The read of a submenu by identifier, where the identifiers of the
    submenus are unique. *)
Lemma get_submenu_by_id_found (db : Store) (menu_id : string) (s : SubMenu.t) :
  NoDup (map SubMenu.id (submenus db)) -> In s (submenus db) ->
  crud.get_submenu_by_id db menu_id (SubMenu.id s)
  = if String.eqb (SubMenu.menu_id s) menu_id
    then Some (submenu_projection db s) else None.
Proof.
  intros Hd Hin. unfold crud.get_submenu_by_id.
  rewrite (filter_unique SubMenu.id
             (fun x => String.eqb (SubMenu.menu_id x) menu_id) s _ Hd Hin).
  destruct (String.eqb (SubMenu.menu_id s) menu_id); reflexivity.
Qed.

Lemma get_submenu_by_id_absent (db : Store) (menu_id submenu_id : string) :
  has SubMenu.id submenu_id (submenus db) = false ->
  crud.get_submenu_by_id db menu_id submenu_id = None.
Proof.
  intros H. unfold crud.get_submenu_by_id.
  now rewrite (filter_absent SubMenu.id _ submenu_id _ H).
Qed.

(** The join of one dish with its submenu and the menu of the submenu *)
Lemma dishes_joined_one (db : Store) (d : Dish.t) (s : SubMenu.t)
  (submenu_id menu_id : string) :
  well_formed db -> In s (submenus db) -> SubMenu.id s = Dish.submenu_id d ->
  crud.dishes_joined db [d] submenu_id menu_id
  = if String.eqb (SubMenu.id s) submenu_id && String.eqb (SubMenu.menu_id s) menu_id
    then [d] else [].
Proof.
  intros W Hs Es.
  apply well_formed_iff in W. destruct W as (Wm & Ws & _ & Wsp & _).
  unfold crud.dishes_joined. cbn [flat_map]. rewrite app_nil_r.
  rewrite <- Es, (filter_unique_eq SubMenu.id s _ Ws Hs).
  cbn [flat_map]. rewrite app_nil_r.
  specialize (Wsp s Hs). apply has_true in Wsp. destruct Wsp as (m & Hm & Em).
  rewrite <- Em, (filter_unique_eq Menu.id m _ Wm Hm).
  cbn [flat_map]. rewrite app_nil_r. reflexivity.
Qed.

(** The read of a dish by identifier on a well-formed store: the dish is
    found when its submenu is the submenu of the path and that submenu is
    under the menu of the path. *)
Lemma get_dish_by_id_found (db : Store) (submenu_id menu_id : string)
  (d : Dish.t) (s : SubMenu.t) :
  well_formed db -> In d (dishes db) -> In s (submenus db) ->
  SubMenu.id s = Dish.submenu_id d ->
  crud.get_dish_by_id db submenu_id menu_id (Dish.id d)
  = if String.eqb (SubMenu.id s) submenu_id && String.eqb (SubMenu.menu_id s) menu_id
    then Some d else None.
Proof.
  intros W Hd Hs Es. unfold crud.get_dish_by_id.
  pose proof W as W'. apply well_formed_iff in W'.
  destruct W' as (_ & _ & Wd & _ & _).
  rewrite (filter_unique_eq Dish.id d _ Wd Hd).
  rewrite (dishes_joined_one db d s _ _ W Hs Es).
  destruct (_ && _); reflexivity.
Qed.

Lemma get_dish_by_id_absent (db : Store) (submenu_id menu_id dish_id : string) :
  has Dish.id dish_id (dishes db) = false ->
  crud.get_dish_by_id db submenu_id menu_id dish_id = None.
Proof.
  intros H. unfold crud.get_dish_by_id.
  pose proof (filter_absent Dish.id (fun _ => true) dish_id _ H) as E.
  cbn [andb] in E. rewrite E. reflexivity.
Qed.

(** X2. On a well-formed store the read of a single submenu, with
    well-formed identifiers in the path, is scoped to the path: it returns
    the projection of the stored submenu with that identifier when the
    submenu belongs to the menu of the path, and raises the 404 "submenu
    not found" when no submenu has the identifier or the submenu belongs
    to another menu. *)
Theorem get_submenu_by_id_scoped (db : Store) (menu_id submenu_id : string) :
  well_formed db ->
  is_valid_uuid menu_id = true -> is_valid_uuid submenu_id = true ->
  routers.get_submenu_by_id db menu_id submenu_id
  = match session_get SubMenu.id submenu_id (submenus db) with
    | Some s =>
        if String.eqb (SubMenu.menu_id s) menu_id
        then Return (submenu_projection db s) db
        else Raise (HTTPException 404 "submenu not found")
    | None => Raise (HTTPException 404 "submenu not found")
    end.
Proof.
  intros W _ _. apply well_formed_iff in W. destruct W as (_ & Ws & _).
  unfold routers.get_submenu_by_id. unfold_monad.
  destruct (session_get SubMenu.id submenu_id (submenus db)) as [s|] eqn:E.
  - apply session_get_some in E. destruct E as [Hin <-].
    rewrite (get_submenu_by_id_found db menu_id s Ws Hin).
    destruct (String.eqb (SubMenu.menu_id s) menu_id); reflexivity.
  - apply session_get_none in E.
    now rewrite (get_submenu_by_id_absent db menu_id submenu_id E).
Qed.

(** X3. On a well-formed store the read of a single dish, with well-formed
    identifiers in the path, is scoped to the path: it returns the stored
    dish with that identifier when the dish belongs to the submenu of the
    path and that submenu to the menu of the path, and raises the 404 "dish
    not found" otherwise. *)
Theorem get_dish_by_id_scoped (db : Store) (menu_id submenu_id dish_id : string) :
  well_formed db ->
  is_valid_uuid menu_id = true -> is_valid_uuid submenu_id = true ->
  is_valid_uuid dish_id = true ->
  routers.get_dish_by_id db menu_id submenu_id dish_id
  = match session_get Dish.id dish_id (dishes db) with
    | Some d =>
        if String.eqb (Dish.submenu_id d) submenu_id
           && match session_get SubMenu.id submenu_id (submenus db) with
              | Some s => String.eqb (SubMenu.menu_id s) menu_id
              | None => false
              end
        then Return (schemas.Dish.model_validate d) db
        else Raise (HTTPException 404 "dish not found")
    | None => Raise (HTTPException 404 "dish not found")
    end.
Proof.
  intros W _ _ _. pose proof W as W'. apply well_formed_iff in W'.
  destruct W' as (_ & Ws & _ & _ & Wdp).
  unfold routers.get_dish_by_id. unfold_monad.
  destruct (session_get Dish.id dish_id (dishes db)) as [d|] eqn:E.
  - apply session_get_some in E. destruct E as [Hin <-].
    pose proof (Wdp d Hin) as Hp. apply has_true in Hp.
    destruct Hp as (s & Hs & Es).
    rewrite (get_dish_by_id_found db submenu_id menu_id d s W Hin Hs Es).
    rewrite Es.
    destruct (String.eqb_spec (Dish.submenu_id d) submenu_id) as [E|E].
    + rewrite <- E, <- Es, (session_get_unique SubMenu.id s _ Ws Hs).
      destruct (String.eqb (SubMenu.menu_id s) menu_id); reflexivity.
    + reflexivity.
  - apply session_get_none in E.
    now rewrite (get_dish_by_id_absent db submenu_id menu_id dish_id E).
Qed.

End ScopedReads.

(** ** What a create stores and returns *)

Section Creates.

Import storage.

(** X4. A menu created on a well-formed store is appended to [menus] with
    the title and the description of the payload and with the [id] of the
    payload or, when the payload sets none, the generated one; nothing else
    changes; the projection returned shows it with both counts 0, and the
    read of the menu by that [id] then returns the same projection. *)
Theorem create_menu_round_trip (db : Store) (menu : schemas.MenuBase.t)
  (uuid4 : string) (r : option schemas.Menu.t) (db' : Store) :
  well_formed db ->
  routers.create_menu db menu uuid4 = Return r db' ->
  let new_id := match schemas.MenuBase.id menu with Some v => v | None => uuid4 end in
  let shown :=
    {| schemas.Menu.id := new_id;
       schemas.Menu.title := schemas.MenuBase.title menu;
       schemas.Menu.description := schemas.MenuBase.description menu;
       schemas.Menu.submenus_count := 0; schemas.Menu.dishes_count := 0 |} in
  menus db' = menus db ++ [ {| Menu.id := new_id;
                               Menu.title := schemas.MenuBase.title menu;
                               Menu.description := schemas.MenuBase.description menu |} ]
  /\ submenus db' = submenus db /\ dishes db' = dishes db
  /\ r = Some shown
  /\ routers.get_menu_by_id db' new_id = Return shown db'.
Proof.
  intros W H new_id shown.
  unfold routers.create_menu, crud.create_menu in H. unfold_monad.
  destruct (crud.get_menu_by_title _ _); [discriminate|].
  rewrite setattrs_menu_dump in H. cbn [Menu.id new_menu] in H. fold new_id in H.
  match type of H with
  | context [insert_menu ?x db] => set (row := x) in *
  end.
  destruct (insert_menu row db) as [e|db1] eqn:E; [discriminate|].
  inversion H; subst; clear H.
  pose proof (insert_menu_wf row db db' W E) as W'.
  unfold insert_menu in E.
  destruct (has Menu.id (Menu.id row) (menus db)) eqn:Eid; [discriminate|].
  destruct (has Menu.title _ _); [discriminate|].
  inversion E; subst; clear E.
  assert (Hget : crud.get_menu_by_id
                   {| menus := menus db ++ [row]; submenus := submenus db;
                      dishes := dishes db |} new_id = Some shown).
  { apply well_formed_iff in W'. destruct W' as (Wm & _).
    apply well_formed_iff in W. destruct W as (_ & _ & _ & Wsp & _).
    apply (get_menu_by_id_no_submenu _ row); cbn [menus submenus]; auto.
    - apply in_or_app. right. now left.
    - apply has_false. intros s Hs Es. specialize (Wsp s Hs).
      rewrite Es in Wsp. cbn [Menu.id row] in Wsp. cbn [Menu.id row] in Eid.
      congruence. }
  cbn [menus submenus dishes]. repeat split; auto.
  unfold routers.get_menu_by_id. unfold_monad. now rewrite Hget.
Qed.

(** X5. A submenu created on a well-formed store is appended to [submenus]
    under the menu of the path, which is stored and whose identifier is
    well formed; nothing else changes, and the projection returned shows
    the submenu with [dishes_count] 0. *)
Theorem create_submenu_round_trip (db : Store) (menu_id : string)
  (submenu : schemas.MenuBase.t) (uuid4 : string)
  (r : option schemas.SubMenu.t) (db' : Store) :
  well_formed db ->
  routers.create_submenu db menu_id submenu uuid4 = Return r db' ->
  let new_id := match schemas.MenuBase.id submenu with Some v => v | None => uuid4 end in
  is_valid_uuid menu_id = true
  /\ has Menu.id menu_id (menus db) = true
  /\ submenus db' = submenus db
                    ++ [ {| SubMenu.id := new_id;
                            SubMenu.title := schemas.MenuBase.title submenu;
                            SubMenu.description := schemas.MenuBase.description submenu;
                            SubMenu.menu_id := menu_id |} ]
  /\ menus db' = menus db /\ dishes db' = dishes db
  /\ r = Some {| schemas.SubMenu.id := new_id;
                 schemas.SubMenu.title := schemas.MenuBase.title submenu;
                 schemas.SubMenu.description := schemas.MenuBase.description submenu;
                 schemas.SubMenu.dishes_count := 0 |}.
Proof.
  intros W H new_id.
  unfold routers.create_submenu, crud.check_menu_by_id, crud.create_submenu in H.
  unfold_monad.
  destruct (is_valid_uuid menu_id) eqn:V; [|discriminate].
  destruct (find _ (menus db)) as [m|] eqn:Em; simpl in H; [|discriminate].
  destruct (crud.get_submenu_by_title _ _); [discriminate|].
  rewrite setattrs_submenu_dump in H.
  cbn [SubMenu.id SubMenu.title SubMenu.description new_submenu] in H.
  fold new_id in H.
  match type of H with
  | context [insert_submenu ?x db] => set (row := x) in *
  end.
  destruct (insert_submenu row db) as [e|db1] eqn:E; [discriminate|].
  inversion H; subst; clear H.
  unfold insert_submenu in E.
  destruct (has SubMenu.id (SubMenu.id row) (submenus db)) eqn:Eid; [discriminate|].
  destruct (has SubMenu.title _ _); [discriminate|].
  destruct (has Menu.id (SubMenu.menu_id row) (menus db)) eqn:Ep; [|discriminate].
  inversion E; subst; clear E.
  cbn [menus submenus dishes]. repeat split; auto.
  unfold crud.get_submenu_by_id. cbn [submenus].
  rewrite filter_app.
  rewrite (filter_absent SubMenu.id _ _ _ Eid).
  cbn [filter app SubMenu.id SubMenu.menu_id row].
  rewrite !String.eqb_refl. cbn [andb map hd_error]. do 2 f_equal.
  unfold crud.count_dishes. cbn [dishes].
  apply well_formed_iff in W. destruct W as (_ & _ & _ & _ & Wdp).
  assert (Hnone : filter (fun d => String.eqb new_id (Dish.submenu_id d)) (dishes db) = []).
  { destruct (filter _ (dishes db)) as [|d ds] eqn:Ef; auto.
    assert (Hin : In d (d :: ds)) by now left.
    rewrite <- Ef in Hin. apply filter_In in Hin. destruct Hin as [Hin Ed].
    apply String.eqb_eq in Ed. specialize (Wdp d Hin). rewrite <- Ed in Wdp.
    cbn [SubMenu.id row] in Eid. congruence. }
  change (SubMenu.id row) with new_id. now rewrite Hnone.
Qed.

(** X6. A dish created on a well-formed store is appended to [dishes]
    under the submenu of the path with its price rounded to hundredths,
    whether or not that submenu belongs to the menu of the path: the
    handler checks that the menu and the submenu are stored, not that one
    is the parent of the other. The stored dish is returned when the
    submenu belongs to the menu of the path; otherwise the request stores
    the dish and returns [None]. *)
Theorem create_dish_stored_and_returned (db : Store) (menu_id submenu_id : string)
  (dish : schemas.DishCreate.t) (uuid4 : string)
  (r : option schemas.Dish.t) (db' : Store) :
  well_formed db ->
  routers.create_dish db menu_id submenu_id dish uuid4 = Return r db' ->
  exists s row,
    session_get SubMenu.id submenu_id (submenus db) = Some s
    /\ has Menu.id menu_id (menus db) = true
    /\ row = {| Dish.id := match schemas.DishCreate.id dish with
                           | Some v => v | None => uuid4 end;
                Dish.title := schemas.DishCreate.title dish;
                Dish.description := schemas.DishCreate.description dish;
                Dish.price :=
                  {| decimal.coefficient :=
                       decimal.half_up_hundredths (schemas.DishCreate.price dish);
                     decimal.exponent := -2 |};
                Dish.submenu_id := submenu_id |}
    /\ dishes db' = dishes db ++ [row]
    /\ menus db' = menus db /\ submenus db' = submenus db
    /\ r = if String.eqb (SubMenu.menu_id s) menu_id
           then Some (schemas.Dish.model_validate row) else None.
Proof.
  intros W H.
  unfold routers.create_dish, crud.check_menu_by_id, crud.check_submenu_by_id,
    crud.create_dish in H.
  unfold_monad.
  destruct (is_valid_uuid menu_id); [|discriminate].
  destruct (find _ (menus db)) as [m|] eqn:Em; simpl in H; [|discriminate].
  destruct (is_valid_uuid submenu_id); [|discriminate].
  destruct (find _ (submenus db)) as [s|] eqn:Es; simpl in H; [|discriminate].
  change (session_get SubMenu.id submenu_id (submenus db) = Some s) in Es.
  change (session_get Menu.id menu_id (menus db) = Some m) in Em.
  rewrite setattrs_dish_create in H.
  cbn [Dish.id Dish.title Dish.description Dish.price Dish.submenu_id new_dish] in H.
  match type of H with
  | context [insert_dish ?x db] => set (row0 := x) in *
  end.
  destruct (insert_dish row0 db) as [e|db1] eqn:E.
  - destruct (crud.handled_by_create_dish e); discriminate.
  - pose proof (insert_dish_wf row0 db db1 W E) as W1.
    unfold insert_dish in E.
    destruct (decimal.apply_typmod 10 2 (Dish.price row0)) as [p|] eqn:Ep;
      [|discriminate].
    apply apply_typmod_half_up in Ep. cbn [Dish.price row0] in Ep. subst p.
    set (p := {| decimal.coefficient :=
                   decimal.half_up_hundredths (schemas.DishCreate.price dish);
                 decimal.exponent := -2 |}) in *.
    destruct (has Dish.id (Dish.id row0) (dishes db)) eqn:Eid; [discriminate|].
    destruct (has Dish.title _ _); [discriminate|].
    destruct (negb _); [discriminate|].
    inversion E; subst db1; clear E.
    exists s, (with_price row0 p).
    apply session_get_some in Em. destruct Em as [Hm Em].
    pose proof Es as Es'. apply session_get_some in Es'. destruct Es' as [Hs Eids].
    assert (Hget : crud.get_dish_by_id
                     {| menus := menus db; submenus := submenus db;
                        dishes := dishes db ++ [with_price row0 p] |}
                     submenu_id menu_id (Dish.id row0)
                   = if String.eqb (SubMenu.menu_id s) menu_id
                     then Some (with_price row0 p) else None).
    { change (Dish.id row0) with (Dish.id (with_price row0 p)).
      rewrite (get_dish_by_id_found _ submenu_id menu_id (with_price row0 p) s W1).
      - now rewrite Eids, String.eqb_refl.
      - cbn [dishes]. apply in_or_app. right. now left.
      - exact Hs.
      - exact Eids. }
    change (Dish.id row0)
      with (match schemas.DishCreate.id dish with Some v => v | None => uuid4 end)
      in Hget.
    rewrite Hget in H. injection H as <- <-.
    cbn [menus submenus dishes].
    split; [exact Es|]. split; [apply has_true; eauto|].
    split; [reflexivity|]. split; [reflexivity|].
    split; [reflexivity|]. split; [reflexivity|].
    destruct (String.eqb (SubMenu.menu_id s) menu_id); reflexivity.
Qed.

End Creates.

(** ** What a delete checks and removes *)

Section Deletes.

Import storage.
Local Open Scope string_scope.

(** X7. The whole outcome of the delete of a dish. With a malformed
    identifier among the three the request raises the 422 "One or more
    wrong types id" before any row is looked up. Otherwise the menu, the
    submenu and the dish are looked up in that order, each by its own
    identifier alone, the first that is not stored raises the 404 of its
    level, and when all three are stored the dish is removed. *)
Theorem delete_dish_by_id_outcome (db : Store) (menu_id submenu_id dish_id : string) :
  routers.delete_dish_by_id db menu_id submenu_id dish_id =
    if is_valid_uuid menu_id && is_valid_uuid submenu_id && is_valid_uuid dish_id then
      match session_get Menu.id menu_id (menus db) with
      | None => Raise (HTTPException 404 "Menu not found")
      | Some _ =>
          match session_get SubMenu.id submenu_id (submenus db) with
          | None => Raise (HTTPException 404 "Submenu not found")
          | Some _ =>
              match session_get Dish.id dish_id (dishes db) with
              | None => Raise (HTTPException 404 "Dish not found")
              | Some _ =>
                  Return {| crud.status := true;
                            crud.message := "The dish has been deleted" |}
                         {| menus := menus db; submenus := submenus db;
                            dishes := without Dish.id dish_id (dishes db) |}
              end
          end
      end
    else Raise (HTTPException 422 "One or more wrong types id").
Proof.
  destruct (is_valid_uuid menu_id && is_valid_uuid submenu_id && is_valid_uuid dish_id)
    eqn:V.
  - apply andb_true_iff in V. destruct V as [V V3].
    apply andb_true_iff in V. destruct V as [V1 V2].
    now apply delete_dish_levels.
  - unfold routers.delete_dish_by_id, crud.delete_dish_by_id. unfold_monad.
    now rewrite V.
Qed.

Lemma without_absent {R} (col : R -> string) (v : string) (rows : list R) :
  ~ In v (map col rows) -> without col v rows = rows.
Proof.
  unfold without. induction rows as [|y rows IH]; simpl; intros Hn; [reflexivity|].
  destruct (String.eqb_spec (col y) v) as [E|E].
  - exfalso. apply Hn. now left.
  - simpl. rewrite IH; [reflexivity|]. intros H. apply Hn. now right.
Qed.

Lemma length_filter_without {R} (col : R -> string) (p : R -> bool) (x : R)
  (rows : list R) :
  NoDup (map col rows) -> In x rows ->
  List.length (filter p rows)
  = (List.length (filter p (without col (col x) rows)) + if p x then 1 else 0)%nat.
Proof.
  unfold without.
  induction rows as [|r rows IH]; simpl; intros Hd Hin; [contradiction|].
  inversion Hd as [|? ? Hn Hd']; subst.
  destruct Hin as [->|Hin].
  - rewrite String.eqb_refl. simpl.
    change (filter (fun r => negb (String.eqb (col r) (col x))) rows)
      with (without col (col x) rows).
    rewrite without_absent by exact Hn.
    destruct (p x); simpl; lia.
  - destruct (String.eqb_spec (col r) (col x)) as [E|E].
    + exfalso. apply Hn. rewrite E. now apply in_map.
    + simpl. destruct (p r); simpl; rewrite (IH Hd' Hin); lia.
Qed.

(** X8. A delete of a dish that succeeds on a well-formed store removes
    the stored dish with that identifier and nothing else: menus, submenus
    and every other dish stay, the dish is no longer found by a read under
    any path of well-formed identifiers, the count of dishes of its submenu
    goes down by one and the count of every other submenu is unchanged. *)
Theorem delete_dish_by_id_removes_one (db : Store)
  (menu_id submenu_id dish_id : string) (r : crud.deleted) (db' : Store) :
  well_formed db ->
  routers.delete_dish_by_id db menu_id submenu_id dish_id = Return r db' ->
  exists d,
    session_get Dish.id dish_id (dishes db) = Some d
    /\ menus db' = menus db /\ submenus db' = submenus db
    /\ (forall x, In x (dishes db') <-> In x (dishes db) /\ x <> d)
    /\ (forall path_menu path_submenu,
          is_valid_uuid path_menu = true -> is_valid_uuid path_submenu = true ->
          routers.get_dish_by_id db' path_menu path_submenu dish_id
          = Raise (HTTPException 404 "dish not found"))
    /\ crud.count_dishes db' (Some (Dish.submenu_id d))
       = crud.count_dishes db (Some (Dish.submenu_id d)) - 1
    /\ (forall other, other <> Dish.submenu_id d ->
          crud.count_dishes db' (Some other) = crud.count_dishes db (Some other)).
Proof.
  intros W H.
  pose proof (delete_dish_inv _ _ _ _ _ _ H) as E.
  unfold routers.delete_dish_by_id, crud.delete_dish_by_id in H. unfold_monad.
  destruct (_ && _); [|discriminate].
  destruct (session_get Menu.id _ _); [|discriminate].
  destruct (session_get SubMenu.id _ _); [|discriminate].
  destruct (session_get Dish.id dish_id (dishes db)) as [d|] eqn:Ed; [|discriminate].
  clear H. exists d.
  apply session_get_some in Ed. destruct Ed as [Hin Eid].
  apply well_formed_iff in W. destruct W as (_ & _ & Wd & _ & _).
  unfold storage.delete_dish in E. inversion E; subst db'; clear E.
  cbn [menus submenus dishes].
  assert (Hgone : has Dish.id dish_id (without Dish.id dish_id (dishes db)) = false).
  { apply has_false. intros x Hx. apply in_without in Hx. tauto. }
  split; [reflexivity|].
  split; [reflexivity|]. split; [reflexivity|].
  split; [|split; [|split]].
  - intros x. rewrite in_without. split.
    + intros [Hx Hne]. split; auto. intros ->. contradiction.
    + intros [Hx Hne]. split; auto. intros Ex. apply Hne.
      apply (unique_row Dish.id (dishes db)); auto. congruence.
  - intros path_menu path_submenu _ _.
    unfold routers.get_dish_by_id. unfold_monad.
    now rewrite get_dish_by_id_absent.
  - unfold crud.count_dishes. cbn [dishes].
    rewrite (length_filter_without Dish.id _ d (dishes db) Wd Hin).
    rewrite Eid, String.eqb_refl. lia.
  - intros other Hne. unfold crud.count_dishes. cbn [dishes].
    rewrite (length_filter_without Dish.id _ d (dishes db) Wd Hin).
    rewrite Eid.
    destruct (String.eqb_spec other (Dish.submenu_id d)); [contradiction|]. lia.
Qed.

(** X9. A delete of a submenu that succeeds on a well-formed store removes
    the submenu and, with it, exactly the dishes under it: the submenu and
    those dishes are no longer found by a read under any path of
    well-formed identifiers, every other row stays, and the store is still
    well formed. *)
Theorem delete_submenu_by_id_cascade (db : Store) (menu_id submenu_id : string)
  (r : crud.deleted) (db' : Store) :
  well_formed db ->
  routers.delete_submenu_by_id db menu_id submenu_id = Return r db' ->
  well_formed db'
  /\ menus db' = menus db
  /\ (forall s, In s (submenus db') <-> In s (submenus db) /\ SubMenu.id s <> submenu_id)
  /\ (forall d, In d (dishes db') <-> In d (dishes db) /\ Dish.submenu_id d <> submenu_id)
  /\ (forall path_menu,
        is_valid_uuid path_menu = true ->
        routers.get_submenu_by_id db' path_menu submenu_id
        = Raise (HTTPException 404 "submenu not found"))
  /\ (forall d path_menu path_submenu,
        In d (dishes db) -> Dish.submenu_id d = submenu_id ->
        is_valid_uuid path_menu = true -> is_valid_uuid path_submenu = true ->
        routers.get_dish_by_id db' path_menu path_submenu (Dish.id d)
        = Raise (HTTPException 404 "dish not found")).
Proof.
  intros W H. apply delete_submenu_inv in H.
  pose proof (delete_submenu_wf _ _ _ W H) as W'.
  apply well_formed_iff in W. destruct W as (_ & _ & Wd & _ & _).
  unfold storage.delete_submenu in H. inversion H; subst db'; clear H.
  cbn [menus submenus dishes].
  split; [exact W'|]. split; [reflexivity|].
  split; [intros s; apply in_without|]. split; [intros d; apply in_without|].
  split.
  - intros path_menu _. unfold routers.get_submenu_by_id. unfold_monad.
    rewrite get_submenu_by_id_absent; [reflexivity|].
    apply has_false. intros x Hx. apply in_without in Hx. tauto.
  - intros d path_menu path_submenu Hin Ed _ _.
    unfold routers.get_dish_by_id. unfold_monad.
    rewrite get_dish_by_id_absent; [reflexivity|].
    apply has_false. cbn [dishes]. intros x Hx Ex.
    apply in_without in Hx. destruct Hx as [Hx Hne]. apply Hne.
    rewrite (unique_row Dish.id (dishes db) x d Wd Hx Hin Ex). exact Ed.
Qed.

(** X10. The deletes and updates below a menu use the identifiers of the
    path above the target only to check that rows with them are stored:
    with any other stored menu named in the path (and, for a dish, any
    other stored submenu) the outcome is the same, so a submenu or a dish
    is deleted or updated through the path of a menu it is not under. *)
Theorem path_above_target_only_checked_for_existence
  (db : Store) (menu_id menu_id' submenu_id submenu_id' : string) :
  is_valid_uuid menu_id = true -> is_valid_uuid menu_id' = true ->
  has Menu.id menu_id (menus db) = true -> has Menu.id menu_id' (menus db) = true ->
  is_valid_uuid submenu_id = true -> is_valid_uuid submenu_id' = true ->
  has SubMenu.id submenu_id (submenus db) = true ->
  has SubMenu.id submenu_id' (submenus db) = true ->
  (forall target,
     routers.delete_submenu_by_id db menu_id target
     = routers.delete_submenu_by_id db menu_id' target)
  /\ (forall target,
        routers.delete_dish_by_id db menu_id submenu_id target
        = routers.delete_dish_by_id db menu_id' submenu_id' target)
  /\ (forall target payload,
        store_of (routers.update_submenu db menu_id target payload)
        = store_of (routers.update_submenu db menu_id' target payload))
  /\ (forall target payload,
        store_of (routers.update_dish db menu_id submenu_id target payload)
        = store_of (routers.update_dish db menu_id' submenu_id' target payload)).
Proof.
  intros V V' Hm Hm' Vs Vs' Hs Hs'.
  destruct (session_get Menu.id menu_id (menus db)) as [m|] eqn:Em;
    [|apply session_get_none in Em; congruence].
  destruct (session_get Menu.id menu_id' (menus db)) as [m'|] eqn:Em';
    [|apply session_get_none in Em'; congruence].
  destruct (session_get SubMenu.id submenu_id (submenus db)) as [s|] eqn:Es;
    [|apply session_get_none in Es; congruence].
  destruct (session_get SubMenu.id submenu_id' (submenus db)) as [s'|] eqn:Es';
    [|apply session_get_none in Es'; congruence].
  repeat split; intros.
  - unfold routers.delete_submenu_by_id, crud.delete_submenu_by_id. unfold_monad.
    rewrite V, V'. cbn [andb].
    destruct (is_valid_uuid target); [|reflexivity].
    cbn beta. now rewrite Em, Em'.
  - unfold routers.delete_dish_by_id, crud.delete_dish_by_id. unfold_monad.
    rewrite V, V', Vs, Vs'. cbn [andb].
    destruct (is_valid_uuid target); [|reflexivity].
    cbn beta. now rewrite Em, Em', Es, Es'.
  - unfold routers.update_submenu, crud.update_submenu. unfold_monad.
    rewrite Em, Em'.
    destruct (session_get SubMenu.id target (submenus db)); [|reflexivity].
    destruct (storage.update_submenu _ _ db); reflexivity.
  - unfold routers.update_dish, crud.update_dish. unfold_monad.
    rewrite Em, Em', Es, Es'.
    destruct (session_get Dish.id target (dishes db)); [|reflexivity].
    destruct (storage.update_dish _ _ db); reflexivity.
Qed.

End Deletes.

(** ** The rows of the grouped query of menus *)

Section Groups.

Import crud.

Lemma group_key_eqb_eq (a b : group_key) : group_key_eqb a b = true <-> a = b.
Proof.
  destruct a as [[[i t] d] n], b as [[[i' t'] d'] n']. unfold group_key_eqb.
  rewrite !andb_true_iff, !String.eqb_eq, Z.eqb_eq.
  split; [intros [[[-> ->] ->] ->]; reflexivity | intros H; inversion H; auto].
Qed.

Lemma group_key_eqb_refl (a : group_key) : group_key_eqb a a = true.
Proof. now apply group_key_eqb_eq. Qed.

Lemma group_key_eqb_neq (a b : group_key) : a <> b -> group_key_eqb a b = false.
Proof.
  intros H. destruct (group_key_eqb a b) eqn:E; auto.
  apply group_key_eqb_eq in E. contradiction.
Qed.

Lemma group_add_keys (k0 : group_key) (b : bool) (g : list (group_key * Z)) :
  map fst (group_add k0 b g)
  = if existsb (fun e => group_key_eqb (fst e) k0) g
    then map fst g else map fst g ++ [k0].
Proof.
  induction g as [|[k c] g IH]; simpl; [reflexivity|].
  destruct (group_key_eqb k k0) eqn:E; simpl; [reflexivity|].
  rewrite IH. destruct (existsb _ g); reflexivity.
Qed.

Lemma group_add_NoDup (k0 : group_key) (b : bool) (g : list (group_key * Z)) :
  NoDup (map fst g) -> NoDup (map fst (group_add k0 b g)).
Proof.
  intros H. rewrite group_add_keys.
  destruct (existsb _ g) eqn:E; auto.
  apply NoDup_app; auto.
  - repeat constructor. simpl. tauto.
  - intros k Hk [Ek|[]]. subst k.
    apply in_map_iff in Hk. destruct Hk as (e & Ee & He).
    assert (existsb (fun e => group_key_eqb (fst e) k0) g = true); [|congruence].
    apply existsb_exists. exists e. split; auto. rewrite Ee.
    apply group_key_eqb_refl.
Qed.

(** The count of a key after one more row: the count before, or 0 when the
    key is new, plus one when the row is of that key and counts. *)
Lemma group_add_in (k0 : group_key) (b : bool) (g : list (group_key * Z))
  (k : group_key) (c : Z) :
  NoDup (map fst g) ->
  In (k, c) (group_add k0 b g) <->
  (k <> k0 /\ In (k, c) g)
  \/ (k = k0 /\ ((exists c0, In (k0, c0) g /\ c = c0 + bz b)
                 \/ (~ In k0 (map fst g) /\ c = bz b))).
Proof.
  induction g as [|[k1 c1] g IH]; intros Hd.
  - simpl. split.
    + intros [H|[]]. inversion H; subst. right. split; auto.
    + intros [[_ []]|[Hk [(c0 & [] & _)|[_ Hc]]]]. subst. now left.
  - inversion Hd as [|? ? Hn Hd']; subst. specialize (IH Hd').
    cbn [group_add]. destruct (group_key_eqb k1 k0) eqn:E.
    + apply group_key_eqb_eq in E. subst k1.
      assert (Hc1 : (if b then c1 + 1 else c1) = c1 + bz b)
        by (unfold bz; destruct b; lia).
      rewrite Hc1. split.
      * intros [H|H].
        -- inversion H; subst. right. split; auto. left. exists c1.
           split; auto. now left.
        -- left. split; [|now right]. intros ->. apply Hn.
           apply in_map_iff. exists (k0, c). auto.
      * intros [[Hne H]|[Hk H]].
        -- destruct H as [H|H]; [inversion H; subst; contradiction | now right].
        -- subst k. destruct H as [(c0 & H & Hc)|[Hnin _]].
           ++ destruct H as [H|H].
              ** inversion H; subst. now left.
              ** exfalso. apply Hn. apply in_map_iff. exists (k0, c0). auto.
           ++ exfalso. apply Hnin. now left.
    + assert (Hne : k1 <> k0).
      { intros ->. rewrite group_key_eqb_refl in E. discriminate. }
      split.
      * intros [H|H].
        -- inversion H; subst. left. split; auto. now left.
        -- apply IH in H. destruct H as [[Hk H]|[Hk H]].
           ++ left. split; auto. now right.
           ++ right. split; auto. destruct H as [(c0 & H & Hc)|[Hnin Hc]].
              ** left. exists c0. split; auto. now right.
              ** right. split; auto. simpl. intros [H|H]; auto.
      * intros [[Hk H]|[Hk H]].
        -- destruct H as [H|H]; [now left|].
           right. apply IH. left. auto.
        -- right. apply IH. right. split; auto.
           destruct H as [(c0 & H & Hc)|[Hnin Hc]].
           ++ destruct H as [H|H]; [inversion H; subst; contradiction|].
              left. exists c0. auto.
           ++ right. split; auto. intros H. apply Hnin. now right.
Qed.

Lemma counted_rows_snoc (k : group_key) (rows : list (group_key * bool))
  (k0 : group_key) (b : bool) :
  counted_rows k (rows ++ [(k0, b)])
  = counted_rows k rows + if group_key_eqb k0 k then bz b else 0.
Proof.
  unfold counted_rows. rewrite filter_app, length_app, Nat2Z.inj_add. f_equal.
  simpl. destruct (group_key_eqb k0 k), b; reflexivity.
Qed.

Lemma counted_rows_absent (k : group_key) (rows : list (group_key * bool)) :
  ~ In k (map fst rows) -> counted_rows k rows = 0.
Proof.
  intros H. unfold counted_rows.
  replace (filter _ rows) with (@nil (group_key * bool)); [reflexivity|].
  symmetry. induction rows as [|r rows IH]; simpl; [reflexivity|].
  rewrite group_key_eqb_neq by (intros E; apply H; now left).
  simpl. apply IH. intros Hin. apply H. now right.
Qed.

(** What GROUP BY with [count] gives: one group for each key of the rows,
    with the number of its rows that count. *)
Lemma group_by_spec (rows : list (group_key * bool)) :
  NoDup (map fst (group_by rows))
  /\ forall k c, In (k, c) (group_by rows) <->
                 In k (map fst rows) /\ c = counted_rows k rows.
Proof.
  unfold group_by.
  induction rows as [|[k0 b] rows IH] using rev_ind.
  - simpl. split; [constructor|]. intros k c. tauto.
  - destruct IH as [Hd IH]. rewrite fold_left_app. cbn [fold_left fst snd].
    set (g := fold_left _ rows []) in *.
    split; [now apply group_add_NoDup|].
    intros k c. rewrite (group_add_in k0 b g k c Hd).
    rewrite map_app, in_app_iff, counted_rows_snoc. cbn [map fst In].
    assert (Hkeys : forall k', In k' (map fst g) <-> In k' (map fst rows)).
    { intros k'. split.
      - intros H. apply in_map_iff in H. destruct H as ([k1 c1] & <- & H).
        now apply IH in H.
      - intros H. apply in_map_iff. exists (k', counted_rows k' rows).
        split; auto. now apply IH. }
    split.
    + intros [[Hne H]|[-> [(c0 & H & ->)|[Hnin ->]]]].
      * apply IH in H. destruct H as [Hin ->]. split; auto.
        rewrite group_key_eqb_neq by congruence. lia.
      * apply IH in H. destruct H as [Hin ->]. split; auto.
        now rewrite group_key_eqb_refl.
      * split; auto. rewrite group_key_eqb_refl.
        rewrite counted_rows_absent; [lia|]. now rewrite <- Hkeys.
    + intros [Hin ->].
      destruct (group_key_eqb k0 k) eqn:E.
      * apply group_key_eqb_eq in E. subst k0. right. split; auto.
        destruct (in_dec (fun a b : group_key =>
                            match Bool.bool_dec (group_key_eqb a b) true with
                            | left e => left (proj1 (group_key_eqb_eq a b) e)
                            | right n =>
                                right (fun e => n (proj2 (group_key_eqb_eq a b) e))
                            end) k (map fst rows)) as [Hk|Hk].
        -- left. exists (counted_rows k rows). split; auto. now apply IH.
        -- right. split; [now rewrite Hkeys|].
           rewrite counted_rows_absent by assumption. lia.
      * assert (Hne : k <> k0).
        { intros ->. rewrite group_key_eqb_refl in E. discriminate. }
        left. split; auto. apply IH. split; [|lia].
        destruct Hin as [Hin|[->|[]]]; [assumption | contradiction].
Qed.

End Groups.

Section MenuRows.

Import storage crud.

Lemma get_menus_selected (db : Store) :
  get_menus db = map menu_projection (group_by (map (selected db) (outer_join db (menus db)))).
Proof. reflexivity. Qed.

Lemma get_menu_by_id_selected (db : Store) (menu_id : string) :
  get_menu_by_id db menu_id
  = hd_error (map menu_projection
                (group_by (map (selected db)
                   (filter (fun r => String.eqb (Menu.id (fst r)) menu_id)
                           (outer_join db (menus db)))))).
Proof. reflexivity. Qed.

Lemma rows_of_menu_in (db : Store) (m : Menu.t) (so : option SubMenu.t) :
  In (m, so)
     match filter (fun s => String.eqb (Menu.id m) (SubMenu.menu_id s)) (submenus db) with
     | [] => [(m, None)]
     | ss => map (fun s => (m, Some s)) ss
     end
  <-> match so with
      | Some s => In s (submenus db) /\ Menu.id m = SubMenu.menu_id s
      | None => has SubMenu.menu_id (Menu.id m) (submenus db) = false
      end.
Proof.
  destruct (filter _ (submenus db)) as [|s0 ss] eqn:E.
  - assert (Hnone : has SubMenu.menu_id (Menu.id m) (submenus db) = false).
    { apply has_false. intros s Hs Es.
      assert (Hin : In s (filter (fun s => String.eqb (Menu.id m) (SubMenu.menu_id s))
                                 (submenus db))).
      { apply filter_In. split; auto. apply String.eqb_eq. auto. }
      rewrite E in Hin. contradiction. }
    destruct so as [s|]; simpl.
    + split; [intros [H|[]]; discriminate|].
      intros [Hs Es]. rewrite has_false in Hnone. exfalso. apply (Hnone s); auto.
    + split; auto.
  - rewrite <- E. rewrite in_map_iff. destruct so as [s|].
    + split.
      * intros (x & Ex & Hx). inversion Ex; subst.
        apply filter_In in Hx. destruct Hx as [Hx Em].
        apply String.eqb_eq in Em. auto.
      * intros [Hs Es]. exists s. split; auto.
        apply filter_In. split; auto. now apply String.eqb_eq.
    + split.
      * intros (x & Ex & _). discriminate.
      * intros H. rewrite has_false in H. exfalso.
        assert (Hin : In s0 (s0 :: ss)) by now left.
        rewrite <- E in Hin. apply filter_In in Hin. destruct Hin as [Hin Em].
        apply String.eqb_eq in Em. apply (H s0); auto.
Qed.

(** The rows of the outer join: every menu with each of its submenus, or
    alone when it has none. *)
Lemma outer_join_in (db : Store) (ms : list Menu.t) (m : Menu.t)
  (so : option SubMenu.t) :
  In (m, so) (outer_join db ms)
  <-> In m ms
      /\ match so with
         | Some s => In s (submenus db) /\ Menu.id m = SubMenu.menu_id s
         | None => has SubMenu.menu_id (Menu.id m) (submenus db) = false
         end.
Proof.
  unfold outer_join. rewrite in_flat_map. split.
  - intros (x & Hx & H).
    assert (x = m).
    { destruct (filter _ (submenus db)) as [|s0 ss].
      - destruct H as [H|[]]. now inversion H.
      - apply in_map_iff in H. destruct H as (y & Ey & _). now inversion Ey. }
    subst x. split; auto. now apply rows_of_menu_in.
  - intros [Hm H]. exists m. split; auto. now apply rows_of_menu_in.
Qed.

Lemma filter_andb {A} (p q : A -> bool) (l : list A) :
  filter (fun x => p x && q x) l = filter q (filter p l).
Proof.
  induction l as [|x l IH]; simpl; [reflexivity|].
  destruct (p x); simpl; [|exact IH].
  destruct (q x); now rewrite IH.
Qed.

Lemma counted_rows_app (k : group_key) (a b : list (group_key * bool)) :
  counted_rows k (a ++ b) = counted_rows k a + counted_rows k b.
Proof.
  unfold counted_rows. now rewrite filter_app, length_app, Nat2Z.inj_add.
Qed.

(** The rows of one menu that count for the group of [n] dishes *)
Lemma counted_rows_of_menu (db : Store) (m : Menu.t) (n : Z) :
  counted_rows (key_of m n)
    (map (selected db)
       match filter (fun s => String.eqb (Menu.id m) (SubMenu.menu_id s))
                    (submenus db) with
       | [] => [(m, None)]
       | ss => map (fun s => (m, Some s)) ss
       end)
  = Z.of_nat (List.length
      (filter (fun s => String.eqb (Menu.id m) (SubMenu.menu_id s)
                        && (count_dishes db (Some (SubMenu.id s)) =? n))
              (submenus db))).
Proof.
  rewrite filter_andb.
  destruct (filter _ (submenus db)) as [|s0 ss].
  - unfold counted_rows. simpl. now rewrite andb_false_r.
  - generalize (s0 :: ss). intros l. unfold counted_rows. f_equal.
    induction l as [|s l IH]; [reflexivity|].
    cbn [map filter selected fst snd option_map]. unfold key_of at 1.
    unfold group_key_eqb at 1. rewrite !String.eqb_refl. cbn [andb].
    rewrite andb_true_r.
    destruct (count_dishes db (Some (SubMenu.id s)) =? n); simpl; now rewrite IH.
Qed.

Lemma counted_rows_other_menu (db : Store) (m x : Menu.t) (n : Z) :
  Menu.id x <> Menu.id m ->
  counted_rows (key_of m n)
    (map (selected db)
       match filter (fun s => String.eqb (Menu.id x) (SubMenu.menu_id s))
                    (submenus db) with
       | [] => [(x, None)]
       | ss => map (fun s => (x, Some s)) ss
       end)
  = 0.
Proof.
  intros Hne. apply counted_rows_absent.
  rewrite map_map, in_map_iff. intros ([y so] & Ek & Hin).
  assert (y = x).
  { destruct (filter _ (submenus db)) as [|s0 ss].
    - destruct Hin as [H|[]]. now inversion H.
    - apply in_map_iff in Hin. destruct Hin as (z & Ez & _). now inversion Ez. }
  subst y. unfold selected, key_of in Ek. cbn [fst] in Ek. inversion Ek. contradiction.
Qed.

(** Where the identifiers of the menus are unique, the submenus a group of
    a menu counts are the submenus of the menu with that many dishes. *)
Lemma counted_rows_menu (db : Store) (ms : list Menu.t) (m : Menu.t) (n : Z) :
  NoDup (map Menu.id ms) -> In m ms ->
  counted_rows (key_of m n) (map (selected db) (outer_join db ms))
  = Z.of_nat (List.length
      (filter (fun s => String.eqb (Menu.id m) (SubMenu.menu_id s)
                        && (count_dishes db (Some (SubMenu.id s)) =? n))
              (submenus db))).
Proof.
  unfold outer_join.
  induction ms as [|x ms IH]; intros Hd Hin; [contradiction|].
  inversion Hd as [|? ? Hn Hd']; subst.
  cbn [flat_map]. rewrite map_app, counted_rows_app.
  destruct Hin as [->|Hin].
  - rewrite counted_rows_of_menu.
    assert (Hrest : counted_rows (key_of m n)
                      (map (selected db) (outer_join db ms)) = 0).
    { apply counted_rows_absent.
      rewrite map_map, in_map_iff. intros ([y so] & Ek & Hy).
      apply outer_join_in in Hy. destruct Hy as [Hy _].
      unfold selected, key_of in Ek. cbn [fst] in Ek. inversion Ek.
      apply Hn. rewrite <- H0. now apply in_map. }
    unfold outer_join in Hrest. rewrite Hrest. lia.
  - rewrite counted_rows_other_menu.
    + now rewrite IH.
    + intros E. apply Hn. rewrite E. now apply in_map.
Qed.

End MenuRows.

Section MenuReads.

Import storage crud.
Local Open Scope string_scope.

Lemma outer_join_has_row (db : Store) (ms : list Menu.t) (m : Menu.t) :
  In m ms -> exists so, In (m, so) (outer_join db ms).
Proof.
  intros Hm. destruct (has SubMenu.menu_id (Menu.id m) (submenus db)) eqn:E.
  - apply has_true in E. destruct E as (s & Hs & Es).
    exists (Some s). apply outer_join_in. auto.
  - exists None. apply outer_join_in. auto.
Qed.

Lemma selected_key (db : Store) (m : Menu.t) (so : option SubMenu.t) :
  fst (selected db (m, so)) = key_of m (count_dishes db (option_map SubMenu.id so)).
Proof. reflexivity. Qed.

Lemma projection_of_group (m : Menu.t) (n c : Z) (row : schemas.Menu.t) :
  menu_projection (key_of m n, c) = row <->
  schemas.Menu.id row = Menu.id m /\ schemas.Menu.title row = Menu.title m
  /\ schemas.Menu.description row = Menu.description m
  /\ schemas.Menu.submenus_count row = c /\ schemas.Menu.dishes_count row = n.
Proof.
  unfold menu_projection, key_of. split.
  - intros <-. simpl. auto.
  - destruct row. simpl. intros (-> & -> & -> & -> & ->). reflexivity.
Qed.

(** X11. What [get_menus] returns where the identifiers of the menus are
    unique: a projection for each stored menu and each number of dishes
    that one of its submenus has, showing that number as [dishes_count] and
    the number of the submenus of the menu with that many dishes as
    [submenus_count]; and for a menu without submenus one projection with
    both counts 0. *)
Theorem get_menus_rows (db : Store) (row : schemas.Menu.t) :
  NoDup (map Menu.id (menus db)) ->
  In row (crud.get_menus db) <->
  exists m,
    In m (menus db)
    /\ schemas.Menu.id row = Menu.id m /\ schemas.Menu.title row = Menu.title m
    /\ schemas.Menu.description row = Menu.description m
    /\ schemas.Menu.submenus_count row
       = Z.of_nat (List.length
           (filter (fun s => String.eqb (Menu.id m) (SubMenu.menu_id s)
                             && (count_dishes db (Some (SubMenu.id s))
                                 =? schemas.Menu.dishes_count row)%Z)
                   (submenus db)))
    /\ ((exists s, In s (submenus db) /\ Menu.id m = SubMenu.menu_id s
                   /\ count_dishes db (Some (SubMenu.id s))
                      = schemas.Menu.dishes_count row)
        \/ (has SubMenu.menu_id (Menu.id m) (submenus db) = false
            /\ schemas.Menu.dishes_count row = 0%Z)).
Proof.
  intros Hd. rewrite get_menus_selected, in_map_iff.
  destruct (group_by_spec (map (selected db) (outer_join db (menus db))))
    as [_ Hspec].
  split.
  - intros ([k c] & Erow & Hin).
    apply Hspec in Hin. destruct Hin as [Hk ->].
    rewrite map_map, in_map_iff in Hk. destruct Hk as ([m so] & Ek & Hrow).
    rewrite selected_key in Ek. subst k.
    apply outer_join_in in Hrow. destruct Hrow as [Hm Hso].
    rewrite (counted_rows_menu db (menus db) m _ Hd Hm) in Erow.
    apply projection_of_group in Erow.
    destruct Erow as (E1 & E2 & E3 & E4 & E5).
    exists m. rewrite E5. repeat split; auto.
    destruct so as [s|]; [left | right].
    + exists s. destruct Hso. auto.
    + auto.
  - intros (m & Hm & E1 & E2 & E3 & E4 & Hso).
    exists (key_of m (schemas.Menu.dishes_count row),
            counted_rows (key_of m (schemas.Menu.dishes_count row))
              (map (selected db) (outer_join db (menus db)))).
    split.
    + apply projection_of_group. repeat split; auto.
      now rewrite (counted_rows_menu db (menus db) m _ Hd Hm).
    + apply Hspec. split; auto.
      rewrite map_map, in_map_iff.
      destruct Hso as [(s & Hs & Es & En)|[Hnone En]].
      * exists (m, Some s). split.
        -- rewrite selected_key. cbn [option_map]. now rewrite En.
        -- apply outer_join_in. auto.
      * exists (m, None). split.
        -- rewrite selected_key. cbn [option_map]. rewrite En. reflexivity.
        -- apply outer_join_in. auto.
Qed.

Lemma counted_rows_filtered (db : Store) (menu_id : string) (m : Menu.t) (n : Z)
  (rows : list (Menu.t * option SubMenu.t)) :
  Menu.id m = menu_id ->
  counted_rows (key_of m n)
    (map (selected db) (filter (fun r => String.eqb (Menu.id (fst r)) menu_id) rows))
  = counted_rows (key_of m n) (map (selected db) rows).
Proof.
  intros Em. unfold counted_rows. f_equal.
  induction rows as [|[x so] rows IH]; [reflexivity|].
  cbn [filter fst]. destruct (String.eqb_spec (Menu.id x) menu_id) as [E|E].
  - cbn [map filter]. destruct (_ && _); simpl; now rewrite IH.
  - cbn [map filter]. rewrite IH.
    rewrite selected_key. unfold key_of at 2.
    rewrite group_key_eqb_neq; [reflexivity|].
    unfold key_of. intros H. inversion H. congruence.
Qed.

(** X12. The read of a single menu with a well-formed identifier raises
    the 404 "menu not found" exactly when no menu with the identifier is
    stored; otherwise it returns, leaving the store as it is, one of the
    projections [get_menus] gives for a menu with that identifier. *)
Theorem get_menu_by_id_found_iff_stored (db : Store) (menu_id : string) :
  is_valid_uuid menu_id = true ->
  match routers.get_menu_by_id db menu_id with
  | Return row db' =>
      db' = db /\ has Menu.id menu_id (menus db) = true
      /\ schemas.Menu.id row = menu_id /\ In row (crud.get_menus db)
  | Raise e =>
      e = HTTPException 404 "menu not found"
      /\ has Menu.id menu_id (menus db) = false
  end.
Proof.
  intros _.
  unfold routers.get_menu_by_id. unfold_monad.
  destruct (crud.get_menu_by_id db menu_id) as [row|] eqn:E;
    rewrite get_menu_by_id_selected in E.
  - apply hd_error_in in E. apply in_map_iff in E.
    destruct E as ([k c] & Erow & Hin).
    destruct (group_by_spec
                (map (selected db)
                   (filter (fun r => String.eqb (Menu.id (fst r)) menu_id)
                           (outer_join db (menus db))))) as [_ Hspec].
    apply Hspec in Hin. destruct Hin as [Hk ->].
    rewrite map_map, in_map_iff in Hk. destruct Hk as ([m so] & Ek & Hrow).
    apply filter_In in Hrow. destruct Hrow as [Hrow Em].
    cbn [fst] in Em. apply String.eqb_eq in Em.
    rewrite selected_key in Ek. subst k.
    pose proof Hrow as Hrow'. apply outer_join_in in Hrow'. destruct Hrow' as [Hm _].
    split; [reflexivity|]. split; [apply has_true; eauto|].
    split; [subst row; simpl; exact Em|].
    rewrite get_menus_selected. apply in_map_iff.
    eexists. split; [exact Erow|].
    apply (proj2 (group_by_spec _)). split.
    + rewrite map_map, in_map_iff. exists (m, so). auto.
    + now apply counted_rows_filtered.
  - split; [reflexivity|].
    apply has_false. intros m Hm Em.
    destruct (outer_join_has_row db (menus db) m Hm) as (so & Hrow).
    assert (Hk : In (fst (selected db (m, so)))
                    (map fst (map (selected db)
                       (filter (fun r => String.eqb (Menu.id (fst r)) menu_id)
                               (outer_join db (menus db)))))).
    { rewrite map_map, in_map_iff. exists (m, so). split; auto.
      apply filter_In. split; auto. now apply String.eqb_eq. }
    destruct (group_by_spec
                (map (selected db)
                   (filter (fun r => String.eqb (Menu.id (fst r)) menu_id)
                           (outer_join db (menus db))))) as [_ Hspec].
    assert (Hin : In (fst (selected db (m, so)),
                      counted_rows (fst (selected db (m, so)))
                        (map (selected db)
                           (filter (fun r => String.eqb (Menu.id (fst r)) menu_id)
                                   (outer_join db (menus db)))))
                     (group_by (map (selected db)
                        (filter (fun r => String.eqb (Menu.id (fst r)) menu_id)
                                (outer_join db (menus db)))))).
    { apply Hspec. auto. }
    destruct (group_by _) as [|g gs]; [contradiction | discriminate].
Qed.

End MenuReads.

Section OneSubmenu.

Import storage crud.

Lemma filter_rows_same (m : Menu.t) (l : list (Menu.t * option SubMenu.t)) :
  (forall r, In r l -> fst r = m) ->
  filter (fun r => String.eqb (Menu.id (fst r)) (Menu.id m)) l = l.
Proof.
  induction l as [|r l IH]; intros H; [reflexivity|].
  cbn [filter]. rewrite (H r) by now left. rewrite String.eqb_refl.
  f_equal. apply IH. intros r' Hr'. apply H. now right.
Qed.

Lemma filter_rows_other (m x : Menu.t) (l : list (Menu.t * option SubMenu.t)) :
  Menu.id x <> Menu.id m ->
  (forall r, In r l -> fst r = x) ->
  filter (fun r => String.eqb (Menu.id (fst r)) (Menu.id m)) l = [].
Proof.
  intros Hne. induction l as [|r l IH]; intros H; [reflexivity|].
  cbn [filter]. rewrite (H r) by now left.
  apply String.eqb_neq in Hne. rewrite Hne.
  apply IH. intros r' Hr'. apply H. now right.
Qed.

Lemma rows_of_menu_fst (db : Store) (x : Menu.t) (r : Menu.t * option SubMenu.t) :
  In r match filter (fun s => String.eqb (Menu.id x) (SubMenu.menu_id s))
                    (submenus db) with
       | [] => [(x, None)]
       | ss => map (fun s => (x, Some s)) ss
       end ->
  fst r = x.
Proof.
  destruct (filter _ (submenus db)) as [|s0 ss].
  - intros [<-|[]]. reflexivity.
  - intros H. apply in_map_iff in H. destruct H as (s & <- & _). reflexivity.
Qed.

(** Where the identifiers of the menus are unique, the joined rows with
    the identifier of a stored menu are the rows of that menu. *)
Lemma outer_join_of_menu (db : Store) (ms : list Menu.t) (m : Menu.t) :
  NoDup (map Menu.id ms) -> In m ms ->
  filter (fun r => String.eqb (Menu.id (fst r)) (Menu.id m)) (outer_join db ms)
  = match filter (fun s => String.eqb (Menu.id m) (SubMenu.menu_id s))
                 (submenus db) with
    | [] => [(m, None)]
    | ss => map (fun s => (m, Some s)) ss
    end.
Proof.
  induction ms as [|x ms IH]; intros Hd Hin; [contradiction|].
  inversion Hd as [|? ? Hn Hd']; subst.
  unfold outer_join. cbn [flat_map]. fold (outer_join db ms).
  rewrite filter_app. destruct Hin as [->|Hin].
  - rewrite filter_rows_same by apply rows_of_menu_fst.
    rewrite outer_join_other; [apply app_nil_r|].
    apply has_false. intros r Hr E. apply Hn. rewrite <- E. now apply in_map.
  - rewrite (filter_rows_other m x).
    + now apply IH.
    + intros E. apply Hn. rewrite E. now apply in_map.
    + apply rows_of_menu_fst.
Qed.

Lemma existsb_andb_filter {A} (p q : A -> bool) (l : list A) :
  existsb (fun x => p x && q x) l = existsb p (filter q l).
Proof.
  induction l as [|x l IH]; [reflexivity|].
  cbn [existsb filter]. destruct (q x).
  - cbn [existsb]. now rewrite IH, andb_true_r.
  - now rewrite andb_false_r, IH.
Qed.

Lemma filter_false {A} (l : list A) : filter (fun _ => false) l = [].
Proof. induction l; auto. Qed.

(** X13. For a stored menu with at most one submenu the read of the menu
    shows the counts of the menu: the number of its submenus and the
    number of the dishes under them. *)
Theorem get_menu_by_id_at_most_one_submenu (db : Store) (m : Menu.t) :
  NoDup (map Menu.id (menus db)) -> In m (menus db) ->
  (List.length (filter (fun s => String.eqb (SubMenu.menu_id s) (Menu.id m))
                       (submenus db)) <= 1)%nat ->
  routers.get_menu_by_id db (Menu.id m)
  = Return {| schemas.Menu.id := Menu.id m; schemas.Menu.title := Menu.title m;
              schemas.Menu.description := Menu.description m;
              schemas.Menu.submenus_count := count_submenus_of_menu db (Menu.id m);
              schemas.Menu.dishes_count := count_dishes_of_menu db (Menu.id m) |}
           db.
Proof.
  intros Hd Hin Hle.
  unfold routers.get_menu_by_id. unfold_monad.
  rewrite get_menu_by_id_selected, (outer_join_of_menu db (menus db) m Hd Hin).
  unfold count_submenus_of_menu, count_dishes_of_menu.
  rewrite (filter_ext _ (fun d => existsb (fun s => String.eqb (SubMenu.id s) (Dish.submenu_id d))
                                    (filter (fun s => String.eqb (SubMenu.menu_id s) (Menu.id m))
                                            (submenus db))))
    by (intros d; apply existsb_andb_filter).
  rewrite (filter_ext (fun s => String.eqb (Menu.id m) (SubMenu.menu_id s))
                      (fun s => String.eqb (SubMenu.menu_id s) (Menu.id m)))
    by (intros s; apply String.eqb_sym).
  destruct (filter (fun s => String.eqb (SubMenu.menu_id s) (Menu.id m)) (submenus db))
    as [|s [|s' ss]].
  - cbn [existsb]. rewrite filter_false. reflexivity.
  - cbn [existsb map selected option_map group_by fold_left fst snd group_add
         hd_error menu_projection List.length count_dishes].
    rewrite (filter_ext (fun d => String.eqb (SubMenu.id s) (Dish.submenu_id d) || false)
                        (fun d => String.eqb (SubMenu.id s) (Dish.submenu_id d)))
      by (intros d; apply orb_false_r).
    reflexivity.
  - cbn [List.length] in Hle. lia.
Qed.

End OneSubmenu.

Section Lists.

Import storage.

(** Whether the submenu of the path is stored under the menu of the path *)
Lemma dishes_joined_scoped (db : Store) (submenu_id menu_id : string)
  (ds : list Dish.t) :
  well_formed db -> (forall d, In d ds -> In d (dishes db)) ->
  crud.dishes_joined db ds submenu_id menu_id
  = if under db submenu_id menu_id
    then filter (fun d => String.eqb (Dish.submenu_id d) submenu_id) ds
    else [].
Proof.
  intros W. pose proof W as W'. apply well_formed_iff in W'.
  destruct W' as (_ & Ws & _ & _ & Wdp).
  induction ds as [|d ds IH]; intros Hds.
  - now destruct (under db submenu_id menu_id).
  - assert (E1 : crud.dishes_joined db (d :: ds) submenu_id menu_id
                 = crud.dishes_joined db [d] submenu_id menu_id
                   ++ crud.dishes_joined db ds submenu_id menu_id).
    { unfold crud.dishes_joined. cbn [flat_map]. now rewrite app_nil_r. }
    rewrite E1, IH by (intros x Hx; apply Hds; now right).
    pose proof (Wdp d (Hds d (or_introl eq_refl))) as Hp.
    apply has_true in Hp. destruct Hp as (s & Hs & Es).
    rewrite (dishes_joined_one db d s submenu_id menu_id W Hs Es).
    cbn [filter]. rewrite <- Es. unfold under.
    destruct (String.eqb_spec (SubMenu.id s) submenu_id) as [E|E].
    + rewrite <- E, (session_get_unique SubMenu.id s _ Ws Hs).
      cbn [andb]. destruct (String.eqb (SubMenu.menu_id s) menu_id); reflexivity.
    + cbn [andb app].
      destruct (match session_get SubMenu.id submenu_id (submenus db) with
                | Some s0 => String.eqb (SubMenu.menu_id s0) menu_id
                | None => false
                end); reflexivity.
Qed.

(** X14. On a well-formed store the list of the dishes of a path of
    well-formed identifiers is scoped like the read of one dish: the
    request returns, leaving the store as it is, the stored dishes under
    the submenu of the path, in some order, when that submenu is stored
    under the menu of the path, and the empty list otherwise, also for a
    path that names no stored row. *)
Theorem get_dishes_scoped (db : Store) (menu_id submenu_id : string) :
  well_formed db ->
  is_valid_uuid menu_id = true -> is_valid_uuid submenu_id = true ->
  exists listed,
    routers.get_dishes db menu_id submenu_id = Return listed db
    /\ Permutation listed
         (map schemas.Dish.model_validate
            (if under db submenu_id menu_id
             then filter (fun d => String.eqb (Dish.submenu_id d) submenu_id)
                         (dishes db)
             else [])).
Proof.
  intros W _ _. unfold routers.get_dishes, crud.get_dishes. unfold_monad.
  eexists. split; [reflexivity|].
  rewrite (dishes_joined_scoped db submenu_id menu_id (dishes db) W) by auto.
  apply Permutation_refl.
Qed.

Lemma get_submenus_in (db : Store) (menu_id : string) (row : schemas.SubMenu.t) :
  In row (crud.get_submenus db menu_id)
  <-> exists s, In s (submenus db) /\ SubMenu.menu_id s = menu_id
                /\ row = submenu_projection db s.
Proof.
  unfold crud.get_submenus. rewrite in_map_iff. split.
  - intros (s & E & Hs). apply filter_In in Hs. destruct Hs as [Hs Em].
    apply String.eqb_eq in Em. exists s. auto.
  - intros (s & Hs & Em & E). exists s. split; [now rewrite E|].
    apply filter_In. split; auto. now apply String.eqb_eq.
Qed.

(** X15. On a well-formed store the [dishes_count] that the list of the
    submenus of a menu shows for a submenu is the number of the dishes the
    list of the dishes of that submenu returns. *)
Theorem dishes_count_is_length_of_get_dishes (db : Store) (menu_id : string)
  (row : schemas.SubMenu.t) :
  well_formed db ->
  In row (crud.get_submenus db menu_id) ->
  schemas.SubMenu.dishes_count row
  = Z.of_nat (List.length (crud.get_dishes db (schemas.SubMenu.id row) menu_id)).
Proof.
  intros W Hrow. apply get_submenus_in in Hrow.
  destruct Hrow as (s & Hs & Em & ->).
  unfold crud.get_dishes.
  rewrite (dishes_joined_scoped db _ menu_id (dishes db) W) by auto.
  pose proof W as W'. apply well_formed_iff in W'. destruct W' as (_ & Ws & _).
  cbn [submenu_projection schemas.SubMenu.id schemas.SubMenu.dishes_count].
  unfold under. rewrite (session_get_unique SubMenu.id s _ Ws Hs).
  rewrite Em, String.eqb_refl. unfold crud.count_dishes.
  do 2 f_equal. apply filter_ext. intros d. apply String.eqb_sym.
Qed.

(** X16. On a well-formed store the lists and the single reads agree: a
    projection is in the list of the submenus of a menu exactly when the
    read of the submenu with its identifier through that menu returns it,
    and a dish is in the list of the dishes of a path exactly when the read
    of the dish with its identifier through that path returns it. *)
Theorem listed_iff_read (db : Store) (menu_id submenu_id : string) :
  well_formed db ->
  (forall row,
     In row (crud.get_submenus db menu_id)
     <-> crud.get_submenu_by_id db menu_id (schemas.SubMenu.id row) = Some row)
  /\ (forall d,
        In d (crud.get_dishes db submenu_id menu_id)
        <-> crud.get_dish_by_id db submenu_id menu_id (Dish.id d) = Some d).
Proof.
  intros W. pose proof W as W'. apply well_formed_iff in W'.
  destruct W' as (_ & Ws & Wd & _ & Wdp).
  split.
  - intros row. rewrite get_submenus_in. split.
    + intros (s & Hs & Em & ->).
      cbn [submenu_projection schemas.SubMenu.id].
      rewrite (get_submenu_by_id_found db menu_id s Ws Hs).
      now rewrite Em, String.eqb_refl.
    + intros H.
      destruct (has SubMenu.id (schemas.SubMenu.id row) (submenus db)) eqn:E.
      * apply has_true in E. destruct E as (s & Hs & Es).
        rewrite <- Es, (get_submenu_by_id_found db menu_id s Ws Hs) in H.
        destruct (String.eqb_spec (SubMenu.menu_id s) menu_id) as [Em|Em];
          [|discriminate].
        exists s. split; auto. split; auto. congruence.
      * rewrite (get_submenu_by_id_absent db menu_id _ E) in H. discriminate.
  - intros d. unfold crud.get_dishes.
    rewrite (dishes_joined_scoped db submenu_id menu_id (dishes db) W) by auto.
    split.
    + intros H.
      assert (Hd : In d (dishes db) /\ Dish.submenu_id d = submenu_id
                   /\ under db submenu_id menu_id = true).
      { destruct (under db submenu_id menu_id); [|contradiction].
        apply filter_In in H. destruct H as [H E]. apply String.eqb_eq in E. auto. }
      destruct Hd as (Hin & Ed & Hu).
      pose proof (Wdp d Hin) as Hp. apply has_true in Hp.
      destruct Hp as (s & Hs & Es).
      rewrite (get_dish_by_id_found db submenu_id menu_id d s W Hin Hs Es).
      subst submenu_id. unfold under in Hu. rewrite <- Es in Hu.
      rewrite (session_get_unique SubMenu.id s _ Ws Hs) in Hu.
      now rewrite Es, String.eqb_refl, Hu.
    + intros H.
      destruct (has Dish.id (Dish.id d) (dishes db)) eqn:E.
      * apply has_true in E. destruct E as (x & Hx & Ex).
        pose proof (Wdp x Hx) as Hp. apply has_true in Hp.
        destruct Hp as (s & Hs & Es).
        rewrite <- Ex, (get_dish_by_id_found db submenu_id menu_id x s W Hx Hs Es) in H.
        destruct (String.eqb_spec (SubMenu.id s) submenu_id) as [E1|E1];
          [|discriminate].
        destruct (String.eqb_spec (SubMenu.menu_id s) menu_id) as [E2|E2];
          [|discriminate].
        cbn [andb] in H. injection H as <-.
        unfold under. rewrite <- E1, (session_get_unique SubMenu.id s _ Ws Hs).
        rewrite E2, String.eqb_refl.
        apply filter_In. split; auto. apply String.eqb_eq. congruence.
      * rewrite (get_dish_by_id_absent db submenu_id menu_id _ E) in H. discriminate.
Qed.

End Lists.

Section CreateDish.

Import storage.
Local Open Scope string_scope.

(** X17. The whole outcome of the creation of a dish whose title and
    description are texts the driver takes. The identifier of
    the menu is validated and looked up, then that of the submenu, each
    with its own 422 and 400. Then the insert is tried: a price that does
    not fit NUMERIC(10, 2) ends in the [DataError] of the storage engine,
    which nothing catches; an [id] or a title that is already stored is
    reported as the 500 "A duplicate record already exists"; otherwise the
    dish is appended with its price rounded, and what is returned is the
    read of the new dish through the path. *)
Theorem create_dish_outcome (db : Store) (menu_id submenu_id : string)
  (dish : schemas.DishCreate.t) (uuid4 : string) :
  no_nul (schemas.DishCreate.title dish) = true ->
  no_nul (schemas.DishCreate.description dish) = true ->
  routers.create_dish db menu_id submenu_id dish uuid4 =
    let new_id := match schemas.DishCreate.id dish with
                  | Some v => v | None => uuid4 end in
    if negb (is_valid_uuid menu_id) then Raise (HTTPException 422 "Wrong id type")
    else if negb (has Menu.id menu_id (menus db))
    then Raise (HTTPException 400 "ID of Menu not registered")
    else if negb (is_valid_uuid submenu_id)
    then Raise (HTTPException 422 "Wrong id type")
    else if negb (has SubMenu.id submenu_id (submenus db))
    then Raise (HTTPException 400 "ID of Submenu not registered")
    else match decimal.apply_typmod 10 2 (schemas.DishCreate.price dish) with
         | None => Raise DataError
         | Some p =>
             if has Dish.id new_id (dishes db)
                || has Dish.title (schemas.DishCreate.title dish) (dishes db)
             then Raise (HTTPException 500 "A duplicate record already exists")
             else
               let db' :=
                 {| menus := menus db; submenus := submenus db;
                    dishes := dishes db
                              ++ [ {| Dish.id := new_id;
                                      Dish.title := schemas.DishCreate.title dish;
                                      Dish.description :=
                                        schemas.DishCreate.description dish;
                                      Dish.price := p;
                                      Dish.submenu_id := submenu_id |} ] |} in
               Return (option_map schemas.Dish.model_validate
                         (crud.get_dish_by_id db' submenu_id menu_id new_id))
                      db'
         end.
Proof.
  intros _ _. cbv zeta.
  unfold routers.create_dish, crud.check_menu_by_id, crud.check_submenu_by_id,
    crud.create_dish.
  unfold_monad.
  destruct (is_valid_uuid menu_id); [|reflexivity]. cbn [negb andb].
  change (find (fun m => String.eqb (Menu.id m) menu_id) (menus db))
    with (session_get Menu.id menu_id (menus db)).
  destruct (session_get Menu.id menu_id (menus db)) as [m|] eqn:Em.
  2:{ apply session_get_none in Em. rewrite Em. reflexivity. }
  assert (Hm : has Menu.id menu_id (menus db) = true).
  { apply session_get_some in Em. apply has_true. exists m. exact Em. }
  rewrite Hm. cbn [option_map negb].
  destruct (is_valid_uuid submenu_id); [|reflexivity]. cbn [negb].
  change (find (fun s => String.eqb (SubMenu.id s) submenu_id) (submenus db))
    with (session_get SubMenu.id submenu_id (submenus db)).
  destruct (session_get SubMenu.id submenu_id (submenus db)) as [s|] eqn:Es.
  2:{ apply session_get_none in Es. rewrite Es. reflexivity. }
  assert (Hs : has SubMenu.id submenu_id (submenus db) = true).
  { apply session_get_some in Es. apply has_true. exists s. exact Es. }
  rewrite Hs. cbn [negb].
  rewrite setattrs_dish_create.
  cbn [Dish.id Dish.title Dish.description Dish.price Dish.submenu_id new_dish].
  unfold insert_dish.
  cbn [Dish.id Dish.title Dish.description Dish.price Dish.submenu_id].
  destruct (decimal.apply_typmod 10 2 (schemas.DishCreate.price dish)) as [p|];
    [|reflexivity].
  destruct (has Dish.id _ (dishes db) || has Dish.title _ (dishes db));
    [reflexivity|].
  rewrite Hs. cbn [negb]. reflexivity.
Qed.

End CreateDish.

Section Host.

Import database.
Local Open Scope char_scope.

Lemma split_not_nil (sep : ascii) (s : chars) : split sep s <> [].
Proof.
  destruct s as [|c t]; simpl; [discriminate|].
  destruct (Ascii.eqb c sep); [discriminate|].
  destruct (split sep t); discriminate.
Qed.

Lemma split_head (sep : ascii) (s : chars) :
  nth_error (split sep s) 0 = Some (before (fun c => Ascii.eqb c sep) s).
Proof.
  induction s as [|c t IH]; simpl; [reflexivity|].
  destruct (Ascii.eqb c sep); [reflexivity|].
  destruct (split sep t) as [|piece pieces]; simpl in *; [discriminate|].
  now inversion IH.
Qed.

Lemma split_without (sep : ascii) (s : chars) :
  ~ In sep s -> split sep s = [s].
Proof.
  induction s as [|c t IH]; simpl; intros H; [reflexivity|].
  destruct (Ascii.eqb_spec c sep) as [E|E]; [exfalso; auto|].
  rewrite IH by tauto. reflexivity.
Qed.

Lemma split_at (sep : ascii) (a b : chars) :
  ~ In sep a -> split sep (a ++ sep :: b) = a :: split sep b.
Proof.
  induction a as [|c t IH]; simpl; intros H.
  - now rewrite Ascii.eqb_refl.
  - destruct (Ascii.eqb_spec c sep) as [E|E]; [exfalso; auto|].
    rewrite IH by tauto. reflexivity.
Qed.

Lemma split_one_piece (sep : ascii) (s : chars) :
  nth_error (split sep s) 1 = None <-> ~ In sep s.
Proof.
  split.
  - intros H Hin. apply in_split in Hin. destruct Hin as (a & b & ->).
    revert H. induction a as [|c t IH]; simpl.
    + rewrite Ascii.eqb_refl. simpl.
      pose proof (split_not_nil sep b). destruct (split sep b); [contradiction|discriminate].
    + destruct (Ascii.eqb c sep).
      * simpl. pose proof (split_not_nil sep (t ++ sep :: b)).
        destruct (split sep (t ++ sep :: b)); [contradiction|discriminate].
      * destruct (split sep (t ++ sep :: b)) as [|piece pieces] eqn:E; simpl in *.
        -- intros _. now apply (split_not_nil sep (t ++ sep :: b)).
        -- exact IH.
  - intros H. now rewrite split_without.
Qed.

Lemma before_stop (stop : ascii -> bool) (h rest : chars) :
  forallb (fun c => negb (stop c)) h = true ->
  match rest with [] => True | c :: _ => stop c = true end ->
  before stop (h ++ rest) = h.
Proof.
  induction h as [|c t IH]; simpl; intros Hh Hr.
  - destruct rest as [|c t]; [reflexivity|]. simpl. now rewrite Hr.
  - apply andb_true_iff in Hh. destruct Hh as [Hc Ht].
    apply negb_true_iff in Hc. rewrite Hc. f_equal. now apply IH.
Qed.

Lemma before_before (p q : ascii -> bool) (s : chars) :
  before p (before q s) = before (fun c => p c || q c) s.
Proof.
  induction s as [|c t IH]; simpl; [reflexivity|].
  destruct (q c); simpl.
  - now rewrite orb_true_r.
  - rewrite orb_false_r. destruct (p c); [reflexivity|]. now rewrite IH.
Qed.

Lemma string_of_chars_cons (c : ascii) (t : chars) :
  string_of_list_ascii (c :: t) = String c (string_of_list_ascii t).
Proof. reflexivity. Qed.

(** X18. The host of the connection taken from [DATABASE_URL]: for a URL
    with a first ['@'], the host is the text that follows it up to the next
    [':'] or ['@'] or the end of the URL. *)
Theorem DB_is_host_after_first_at (a h rest : chars) (DB_HOST : option string) :
  ~ In "@" a ->
  forallb (fun c => negb (Ascii.eqb c ":" || Ascii.eqb c "@")) h = true ->
  match rest with
  | [] => True
  | c :: _ => Ascii.eqb c ":" || Ascii.eqb c "@" = true
  end ->
  DB (Some (string_of_list_ascii (a ++ "@" :: h ++ rest))) DB_HOST
  = Value (Some (string_of_list_ascii h)).
Proof.
  intros Ha Hh Hrest.
  assert (E : exists c url, a ++ "@" :: h ++ rest = c :: url).
  { destruct a as [|c t]; simpl; eauto. }
  destruct E as (c & url & E).
  unfold DB. rewrite E, string_of_chars_cons, list_ascii_of_string_of_list_ascii.
  rewrite <- E, (split_at "@" a (h ++ rest) Ha).
  change (nth_error (a :: split "@" (h ++ rest)) 1)
    with (nth_error (split "@" (h ++ rest)) 0).
  rewrite !split_head, before_before.
  now rewrite (before_stop _ h rest Hh Hrest).
Qed.

(** X19. The module raises [IndexError] when it is loaded exactly when
    [DATABASE_URL] is set to a text that is not empty and holds no ['@'];
    a URL that is not set or empty gives [DB_HOST]. *)
Theorem DB_IndexError_iff (DB_URL DB_HOST : option string) :
  (DB DB_URL DB_HOST = IndexError
   <-> exists url, DB_URL = Some url /\ url <> EmptyString
                   /\ ~ In "@" (list_ascii_of_string url))
  /\ (DB_URL = None \/ DB_URL = Some EmptyString -> DB DB_URL DB_HOST = Value DB_HOST).
Proof.
  split.
  - destruct DB_URL as [[|c url]|]; unfold DB.
    + split; [discriminate|]. intros (u & Eu & Hu & _).
      injection Eu as <-. now contradiction Hu.
    + change (c :: list_ascii_of_string url)
        with (list_ascii_of_string (String c url)).
      destruct (nth_error (split "@" (list_ascii_of_string (String c url))) 1)
        as [part|] eqn:E.
      * rewrite (split_head ":" part).
        split; [discriminate|]. intros (u & Eu & _ & Hu).
        injection Eu as <-. apply split_one_piece in Hu. congruence.
      * split; [|reflexivity]. intros _. exists (String c url).
        split; [reflexivity|]. split; [discriminate|].
        now apply split_one_piece.
    + split; [discriminate|]. intros (u & Eu & _). discriminate.
  - intros [->| ->]; reflexivity.
Qed.

End Host.

(** ** The properties at the stores of the scenarios *)

Section AtStores.

Import scenario storage.

Lemma get_submenu_by_id_scoped_witness :
  (well_formed store_two_menus_two_submenus
   /\ is_valid_uuid menu2 = true /\ is_valid_uuid submenu1 = true)
  /\ routers.get_submenu_by_id store_two_menus_two_submenus menu2 submenu1
     = match session_get SubMenu.id submenu1 (submenus store_two_menus_two_submenus) with
       | Some s =>
           if String.eqb (SubMenu.menu_id s) menu2
           then Return (submenu_projection store_two_menus_two_submenus s)
                       store_two_menus_two_submenus
           else Raise (HTTPException 404 "submenu not found")
       | None => Raise (HTTPException 404 "submenu not found")
       end.
Proof.
  assert (W : well_formed store_two_menus_two_submenus) by (vm_compute; reflexivity).
  assert (V1 : is_valid_uuid menu2 = true) by (vm_compute; reflexivity).
  assert (V2 : is_valid_uuid submenu1 = true) by (vm_compute; reflexivity).
  split; [split; [exact W | split; [exact V1 | exact V2]]|].
  exact (get_submenu_by_id_scoped store_two_menus_two_submenus menu2 submenu1 W V1 V2).
Defined.

Lemma get_dish_by_id_scoped_witness :
  (well_formed store_two_menus_two_submenus
   /\ is_valid_uuid menu2 = true /\ is_valid_uuid submenu1 = true
   /\ is_valid_uuid dish1 = true)
  /\ routers.get_dish_by_id store_two_menus_two_submenus menu2 submenu1 dish1
     = match session_get Dish.id dish1 (dishes store_two_menus_two_submenus) with
       | Some d =>
           if String.eqb (Dish.submenu_id d) submenu1
              && match session_get SubMenu.id submenu1
                         (submenus store_two_menus_two_submenus) with
                 | Some s => String.eqb (SubMenu.menu_id s) menu2
                 | None => false
                 end
           then Return (schemas.Dish.model_validate d) store_two_menus_two_submenus
           else Raise (HTTPException 404 "dish not found")
       | None => Raise (HTTPException 404 "dish not found")
       end.
Proof.
  assert (W : well_formed store_two_menus_two_submenus) by (vm_compute; reflexivity).
  assert (V1 : is_valid_uuid menu2 = true) by (vm_compute; reflexivity).
  assert (V2 : is_valid_uuid submenu1 = true) by (vm_compute; reflexivity).
  assert (V3 : is_valid_uuid dish1 = true) by (vm_compute; reflexivity).
  split; [split; [exact W | split; [exact V1 | split; [exact V2 | exact V3]]]|].
  exact (get_dish_by_id_scoped store_two_menus_two_submenus menu2 submenu1 dish1
           W V1 V2 V3).
Defined.

Lemma create_menu_round_trip_witness :
  (well_formed store_one_menu
   /\ routers.create_menu store_one_menu (menu_payload menu2 "menu2" "about menu2") unused
      = Return (Some menu2_shown) store_two_menus)
  /\ menus store_two_menus = menus store_one_menu ++ [menu2_row]
  /\ submenus store_two_menus = submenus store_one_menu
  /\ dishes store_two_menus = dishes store_one_menu
  /\ Some menu2_shown = Some menu2_shown
  /\ routers.get_menu_by_id store_two_menus menu2 = Return menu2_shown store_two_menus.
Proof.
  assert (W : well_formed store_one_menu) by (vm_compute; reflexivity).
  assert (H : routers.create_menu store_one_menu
                (menu_payload menu2 "menu2" "about menu2") unused
              = Return (Some menu2_shown) store_two_menus) by (vm_compute; reflexivity).
  split; [split; [exact W | exact H]|].
  exact (create_menu_round_trip _ _ _ _ _ W H).
Defined.

Lemma create_submenu_round_trip_witness :
  (well_formed store_one_menu
   /\ routers.create_submenu store_one_menu menu1
        (menu_payload submenu1 "submenu1" "about submenu1") unused
      = Return (Some submenu1_shown) store_menu_and_submenu)
  /\ is_valid_uuid menu1 = true
  /\ has Menu.id menu1 (menus store_one_menu) = true
  /\ submenus store_menu_and_submenu = submenus store_one_menu ++ [submenu1_row]
  /\ menus store_menu_and_submenu = menus store_one_menu
  /\ dishes store_menu_and_submenu = dishes store_one_menu
  /\ Some submenu1_shown = Some submenu1_shown.
Proof.
  assert (W : well_formed store_one_menu) by (vm_compute; reflexivity).
  assert (H : routers.create_submenu store_one_menu menu1
                (menu_payload submenu1 "submenu1" "about submenu1") unused
              = Return (Some submenu1_shown) store_menu_and_submenu)
    by (vm_compute; reflexivity).
  split; [split; [exact W | exact H]|].
  exact (create_submenu_round_trip _ _ _ _ _ _ W H).
Defined.

Lemma create_dish_stored_and_returned_witness :
  (well_formed store_menu_and_submenu
   /\ routers.create_dish store_menu_and_submenu menu1 submenu1
        (dish_payload dish1 "dish1" "about dish1" (dec 1350 (-2))) unused
      = Return (Some dish1_shown) store_menu_submenu_dish)
  /\ exists s row,
       session_get SubMenu.id submenu1 (submenus store_menu_and_submenu) = Some s
       /\ has Menu.id menu1 (menus store_menu_and_submenu) = true
       /\ row = dish1_row
       /\ dishes store_menu_submenu_dish = dishes store_menu_and_submenu ++ [row]
       /\ menus store_menu_submenu_dish = menus store_menu_and_submenu
       /\ submenus store_menu_submenu_dish = submenus store_menu_and_submenu
       /\ Some dish1_shown
          = if String.eqb (SubMenu.menu_id s) menu1
            then Some (schemas.Dish.model_validate row) else None.
Proof.
  assert (W : well_formed store_menu_and_submenu) by (vm_compute; reflexivity).
  assert (H : routers.create_dish store_menu_and_submenu menu1 submenu1
                (dish_payload dish1 "dish1" "about dish1" (dec 1350 (-2))) unused
              = Return (Some dish1_shown) store_menu_submenu_dish)
    by (vm_compute; reflexivity).
  split; [split; [exact W | exact H]|].
  exact (create_dish_stored_and_returned _ _ _ _ _ _ _ W H).
Defined.

Lemma delete_dish_by_id_removes_one_witness :
  (well_formed store_one_submenu_two_dishes
   /\ routers.delete_dish_by_id store_one_submenu_two_dishes menu1 submenu1 dish1
      = Return {| crud.status := true; crud.message := "The dish has been deleted" |}
               store_dish1_deleted)
  /\ exists d,
       session_get Dish.id dish1 (dishes store_one_submenu_two_dishes) = Some d
       /\ menus store_dish1_deleted = menus store_one_submenu_two_dishes
       /\ submenus store_dish1_deleted = submenus store_one_submenu_two_dishes
       /\ (forall x, In x (dishes store_dish1_deleted)
                     <-> In x (dishes store_one_submenu_two_dishes) /\ x <> d)
       /\ (forall path_menu path_submenu,
             is_valid_uuid path_menu = true -> is_valid_uuid path_submenu = true ->
             routers.get_dish_by_id store_dish1_deleted path_menu path_submenu dish1
             = Raise (HTTPException 404 "dish not found"))
       /\ crud.count_dishes store_dish1_deleted (Some (Dish.submenu_id d))
          = crud.count_dishes store_one_submenu_two_dishes (Some (Dish.submenu_id d)) - 1
       /\ (forall other, other <> Dish.submenu_id d ->
             crud.count_dishes store_dish1_deleted (Some other)
             = crud.count_dishes store_one_submenu_two_dishes (Some other)).
Proof.
  assert (W : well_formed store_one_submenu_two_dishes) by (vm_compute; reflexivity).
  assert (H : routers.delete_dish_by_id store_one_submenu_two_dishes menu1 submenu1 dish1
              = Return {| crud.status := true;
                          crud.message := "The dish has been deleted" |}
                       store_dish1_deleted) by (vm_compute; reflexivity).
  split; [split; [exact W | exact H]|].
  exact (delete_dish_by_id_removes_one _ _ _ _ _ _ W H).
Defined.

Lemma delete_submenu_by_id_cascade_witness :
  (well_formed store_one_submenu_two_dishes
   /\ routers.delete_submenu_by_id store_one_submenu_two_dishes menu1 submenu1
      = Return {| crud.status := true; crud.message := "The submenu has been deleted" |}
               store_one_menu)
  /\ well_formed store_one_menu
  /\ menus store_one_menu = menus store_one_submenu_two_dishes
  /\ (forall s, In s (submenus store_one_menu)
                <-> In s (submenus store_one_submenu_two_dishes)
                    /\ SubMenu.id s <> submenu1)
  /\ (forall d, In d (dishes store_one_menu)
                <-> In d (dishes store_one_submenu_two_dishes)
                    /\ Dish.submenu_id d <> submenu1)
  /\ (forall path_menu,
        is_valid_uuid path_menu = true ->
        routers.get_submenu_by_id store_one_menu path_menu submenu1
        = Raise (HTTPException 404 "submenu not found"))
  /\ (forall d path_menu path_submenu,
        In d (dishes store_one_submenu_two_dishes) -> Dish.submenu_id d = submenu1 ->
        is_valid_uuid path_menu = true -> is_valid_uuid path_submenu = true ->
        routers.get_dish_by_id store_one_menu path_menu path_submenu (Dish.id d)
        = Raise (HTTPException 404 "dish not found")).
Proof.
  assert (W : well_formed store_one_submenu_two_dishes) by (vm_compute; reflexivity).
  assert (H : routers.delete_submenu_by_id store_one_submenu_two_dishes menu1 submenu1
              = Return {| crud.status := true;
                          crud.message := "The submenu has been deleted" |}
                       store_one_menu) by (vm_compute; reflexivity).
  split; [split; [exact W | exact H]|].
  exact (delete_submenu_by_id_cascade _ _ _ _ _ W H).
Defined.

Lemma path_above_target_only_checked_for_existence_witness :
  ((is_valid_uuid menu1 = true /\ is_valid_uuid menu2 = true)
   /\ (has Menu.id menu1 (menus store_two_menus_two_submenus) = true
       /\ has Menu.id menu2 (menus store_two_menus_two_submenus) = true)
   /\ (is_valid_uuid submenu1 = true /\ is_valid_uuid submenu2 = true)
   /\ (has SubMenu.id submenu1 (submenus store_two_menus_two_submenus) = true
       /\ has SubMenu.id submenu2 (submenus store_two_menus_two_submenus) = true))
  /\ (forall target,
        routers.delete_submenu_by_id store_two_menus_two_submenus menu1 target
        = routers.delete_submenu_by_id store_two_menus_two_submenus menu2 target)
  /\ (forall target,
        routers.delete_dish_by_id store_two_menus_two_submenus menu1 submenu1 target
        = routers.delete_dish_by_id store_two_menus_two_submenus menu2 submenu2 target)
  /\ (forall target payload,
        store_of (routers.update_submenu store_two_menus_two_submenus menu1 target payload)
        = store_of (routers.update_submenu store_two_menus_two_submenus menu2 target
                      payload))
  /\ (forall target payload,
        store_of (routers.update_dish store_two_menus_two_submenus menu1 submenu1 target
                    payload)
        = store_of (routers.update_dish store_two_menus_two_submenus menu2 submenu2 target
                      payload)).
Proof.
  assert (V1 : is_valid_uuid menu1 = true) by (vm_compute; reflexivity).
  assert (V2 : is_valid_uuid menu2 = true) by (vm_compute; reflexivity).
  assert (M1 : has Menu.id menu1 (menus store_two_menus_two_submenus) = true)
    by (vm_compute; reflexivity).
  assert (M2 : has Menu.id menu2 (menus store_two_menus_two_submenus) = true)
    by (vm_compute; reflexivity).
  assert (V3 : is_valid_uuid submenu1 = true) by (vm_compute; reflexivity).
  assert (V4 : is_valid_uuid submenu2 = true) by (vm_compute; reflexivity).
  assert (S1 : has SubMenu.id submenu1 (submenus store_two_menus_two_submenus) = true)
    by (vm_compute; reflexivity).
  assert (S2 : has SubMenu.id submenu2 (submenus store_two_menus_two_submenus) = true)
    by (vm_compute; reflexivity).
  split.
  - split; [split; [exact V1 | exact V2]|].
    split; [split; [exact M1 | exact M2]|].
    split; [split; [exact V3 | exact V4]|].
    split; [exact S1 | exact S2].
  - exact (path_above_target_only_checked_for_existence _ _ _ _ _
             V1 V2 M1 M2 V3 V4 S1 S2).
Defined.

Lemma get_menus_rows_witness :
  NoDup (map Menu.id (menus store_two_submenus_one_dish))
  /\ (In {| schemas.Menu.id := menu1; schemas.Menu.title := "menu1";
            schemas.Menu.description := "about menu1";
            schemas.Menu.submenus_count := 1; schemas.Menu.dishes_count := 1 |}
         (crud.get_menus store_two_submenus_one_dish)
      <-> exists m,
            In m (menus store_two_submenus_one_dish)
            /\ menu1 = Menu.id m /\ "menu1"%string = Menu.title m
            /\ "about menu1"%string = Menu.description m
            /\ 1 = Z.of_nat (List.length
                     (filter (fun s => String.eqb (Menu.id m) (SubMenu.menu_id s)
                                       && (crud.count_dishes store_two_submenus_one_dish
                                             (Some (SubMenu.id s)) =? 1))
                             (submenus store_two_submenus_one_dish)))
            /\ ((exists s, In s (submenus store_two_submenus_one_dish)
                           /\ Menu.id m = SubMenu.menu_id s
                           /\ crud.count_dishes store_two_submenus_one_dish
                                (Some (SubMenu.id s)) = 1)
                \/ (has SubMenu.menu_id (Menu.id m) (submenus store_two_submenus_one_dish)
                    = false /\ 1 = 0))).
Proof.
  assert (N : NoDup (map Menu.id (menus store_two_submenus_one_dish))).
  { apply nodupb_NoDup. vm_compute. reflexivity. }
  split; [exact N|].
  exact (get_menus_rows store_two_submenus_one_dish _ N).
Defined.

Lemma get_menu_by_id_at_most_one_submenu_witness :
  (NoDup (map Menu.id (menus store_one_submenu_two_dishes))
   /\ In menu1_row (menus store_one_submenu_two_dishes)
   /\ (List.length (filter (fun s => String.eqb (SubMenu.menu_id s) (Menu.id menu1_row))
                           (submenus store_one_submenu_two_dishes)) <= 1)%nat)
  /\ routers.get_menu_by_id store_one_submenu_two_dishes (Menu.id menu1_row)
     = Return {| schemas.Menu.id := Menu.id menu1_row;
                 schemas.Menu.title := Menu.title menu1_row;
                 schemas.Menu.description := Menu.description menu1_row;
                 schemas.Menu.submenus_count :=
                   count_submenus_of_menu store_one_submenu_two_dishes (Menu.id menu1_row);
                 schemas.Menu.dishes_count :=
                   count_dishes_of_menu store_one_submenu_two_dishes (Menu.id menu1_row) |}
              store_one_submenu_two_dishes.
Proof.
  assert (N : NoDup (map Menu.id (menus store_one_submenu_two_dishes))).
  { apply nodupb_NoDup. vm_compute. reflexivity. }
  assert (I : In menu1_row (menus store_one_submenu_two_dishes)).
  { apply (nth_error_In _ 0). vm_compute. reflexivity. }
  assert (L : (List.length
                 (filter (fun s => String.eqb (SubMenu.menu_id s) (Menu.id menu1_row))
                         (submenus store_one_submenu_two_dishes)) <= 1)%nat)
    by (vm_compute; lia).
  split; [split; [exact N | split; [exact I | exact L]]|].
  exact (get_menu_by_id_at_most_one_submenu _ _ N I L).
Defined.

Lemma get_dishes_scoped_witness :
  (well_formed store_one_submenu_two_dishes
   /\ is_valid_uuid menu1 = true /\ is_valid_uuid submenu1 = true)
  /\ exists listed,
       routers.get_dishes store_one_submenu_two_dishes menu1 submenu1
       = Return listed store_one_submenu_two_dishes
       /\ Permutation listed
            (map schemas.Dish.model_validate
               (if under store_one_submenu_two_dishes submenu1 menu1
                then filter (fun d => String.eqb (Dish.submenu_id d) submenu1)
                            (dishes store_one_submenu_two_dishes)
                else [])).
Proof.
  assert (W : well_formed store_one_submenu_two_dishes) by (vm_compute; reflexivity).
  assert (V1 : is_valid_uuid menu1 = true) by (vm_compute; reflexivity).
  assert (V2 : is_valid_uuid submenu1 = true) by (vm_compute; reflexivity).
  split; [split; [exact W | split; [exact V1 | exact V2]]|].
  exact (get_dishes_scoped store_one_submenu_two_dishes menu1 submenu1 W V1 V2).
Defined.

Lemma get_menu_by_id_found_iff_stored_witness :
  is_valid_uuid menu1 = true
  /\ match routers.get_menu_by_id store_two_submenus_one_dish menu1 with
     | Return row db' =>
         db' = store_two_submenus_one_dish
         /\ has Menu.id menu1 (menus store_two_submenus_one_dish) = true
         /\ schemas.Menu.id row = menu1
         /\ In row (crud.get_menus store_two_submenus_one_dish)
     | Raise e =>
         e = HTTPException 404 "menu not found"
         /\ has Menu.id menu1 (menus store_two_submenus_one_dish) = false
     end.
Proof.
  assert (V : is_valid_uuid menu1 = true) by (vm_compute; reflexivity).
  split; [exact V|].
  exact (get_menu_by_id_found_iff_stored store_two_submenus_one_dish menu1 V).
Defined.

Lemma create_dish_outcome_witness :
  (no_nul (schemas.DishCreate.title
             (dish_payload dish1 "dish1" "about dish1" (dec 1350 (-2)))) = true
   /\ no_nul (schemas.DishCreate.description
                (dish_payload dish1 "dish1" "about dish1" (dec 1350 (-2)))) = true)
  /\ routers.create_dish store_menu_and_submenu menu1 submenu1
       (dish_payload dish1 "dish1" "about dish1" (dec 1350 (-2))) unused
     = Return (Some dish1_shown) store_menu_submenu_dish.
Proof.
  assert (N1 : no_nul (schemas.DishCreate.title
                         (dish_payload dish1 "dish1" "about dish1" (dec 1350 (-2))))
               = true) by (vm_compute; reflexivity).
  assert (N2 : no_nul (schemas.DishCreate.description
                         (dish_payload dish1 "dish1" "about dish1" (dec 1350 (-2))))
               = true) by (vm_compute; reflexivity).
  split; [split; [exact N1 | exact N2]|].
  rewrite (create_dish_outcome store_menu_and_submenu menu1 submenu1
             (dish_payload dish1 "dish1" "about dish1" (dec 1350 (-2))) unused N1 N2).
  vm_compute. reflexivity.
Defined.

Lemma dishes_count_is_length_of_get_dishes_witness :
  (well_formed store_one_submenu_two_dishes
   /\ In {| schemas.SubMenu.id := submenu1; schemas.SubMenu.title := "submenu1";
            schemas.SubMenu.description := "about submenu1";
            schemas.SubMenu.dishes_count := 2 |}
         (crud.get_submenus store_one_submenu_two_dishes menu1))
  /\ 2 = Z.of_nat (List.length (crud.get_dishes store_one_submenu_two_dishes submenu1 menu1)).
Proof.
  assert (W : well_formed store_one_submenu_two_dishes) by (vm_compute; reflexivity).
  assert (I : In {| schemas.SubMenu.id := submenu1; schemas.SubMenu.title := "submenu1";
                    schemas.SubMenu.description := "about submenu1";
                    schemas.SubMenu.dishes_count := 2 |}
                 (crud.get_submenus store_one_submenu_two_dishes menu1)).
  { apply (nth_error_In _ 0). vm_compute. reflexivity. }
  split; [split; [exact W | exact I]|].
  exact (dishes_count_is_length_of_get_dishes _ _ _ W I).
Defined.

Lemma listed_iff_read_witness :
  well_formed store_one_submenu_two_dishes
  /\ (forall row,
        In row (crud.get_submenus store_one_submenu_two_dishes menu1)
        <-> crud.get_submenu_by_id store_one_submenu_two_dishes menu1
              (schemas.SubMenu.id row) = Some row)
  /\ (forall d,
        In d (crud.get_dishes store_one_submenu_two_dishes submenu1 menu1)
        <-> crud.get_dish_by_id store_one_submenu_two_dishes submenu1 menu1 (Dish.id d)
            = Some d).
Proof.
  assert (W : well_formed store_one_submenu_two_dishes) by (vm_compute; reflexivity).
  split; [exact W|].
  exact (listed_iff_read store_one_submenu_two_dishes menu1 submenu1 W).
Defined.

Lemma DB_is_host_after_first_at_witness :
  (~ In "@"%char (list_ascii_of_string "postgresql://user:secret")
   /\ forallb (fun c => negb (Ascii.eqb c ":" || Ascii.eqb c "@"))
              (list_ascii_of_string "db.example.org") = true
   /\ match list_ascii_of_string ":5432/restaurant" with
      | [] => True
      | c :: _ => Ascii.eqb c ":" || Ascii.eqb c "@" = true
      end)
  /\ database.DB
       (Some (string_of_list_ascii
                (list_ascii_of_string "postgresql://user:secret"
                 ++ "@"%char :: list_ascii_of_string "db.example.org"
                 ++ list_ascii_of_string ":5432/restaurant")))
       None
     = database.Value (Some (string_of_list_ascii (list_ascii_of_string "db.example.org"))).
Proof.
  assert (A : ~ In "@"%char (list_ascii_of_string "postgresql://user:secret")).
  { intros H. vm_compute in H. repeat (destruct H as [H|H]; [discriminate H|]). exact H. }
  assert (B : forallb (fun c => negb (Ascii.eqb c ":" || Ascii.eqb c "@"))
                      (list_ascii_of_string "db.example.org") = true)
    by (vm_compute; reflexivity).
  assert (C : match list_ascii_of_string ":5432/restaurant" with
              | [] => True
              | c :: _ => Ascii.eqb c ":" || Ascii.eqb c "@" = true
              end) by (vm_compute; reflexivity).
  split; [split; [exact A | split; [exact B | exact C]]|].
  exact (DB_is_host_after_first_at
           (list_ascii_of_string "postgresql://user:secret")
           (list_ascii_of_string "db.example.org")
           (list_ascii_of_string ":5432/restaurant") None A B C).
Defined.

End AtStores.
